(** * Admission-score crawler: a shallow embedding and its properties

    The development follows the Python sources of the crawler:
    - [Py]          the string primitives of the Python runtime the code calls
                    ([str.strip], [str.replace], [in], [str.isdigit], ...),
                    over sequences of Unicode code points;
    - [Cleaner]     cleaner.py ([DataCleaner]);
    - [ImportData]  import_data.py (the loader);
    - [Merge]       merge_universities.py (the join key);
    - [Re]          the regular expressions of the crawlers and their matcher;
    - [TextContent] the text fallback the Tsinghua and HUST adapters share;
    - [Tsinghua], [HUST], [PKU]   the HTML adapters of schools_crawler;
    - [Api], [Nankai], [BIT]      the API adapters of schools_crawler.
    Every definition carries the name of the function it embeds. *)

From Stdlib Require Import ZArith NArith List Bool String Ascii Lia DecimalString.
From Stdlib Require Import SpecFloat.
From stdpp Require Import base gmap list strings.
Import ListNotations.

(* ===================================================================== *)
(** ** Python strings *)
(* ===================================================================== *)

Module Py.

(** A Python [str] is a sequence of Unicode code points. *)
Abbreviation char := N (only parsing).
Abbreviation str := (list N) (only parsing).

Open Scope N_scope.

(** Literals are written as UTF-8 text and decoded to code points. *)
Fixpoint utf8_go (need : nat) (acc : N) (bs : list N) : list N :=
  match bs with
  | [] => []
  | b :: bs' =>
    match need with
    | O => if b <? 0x80 then b :: utf8_go 0 0 bs'
           else if b <? 0xE0 then utf8_go 1 (N.land b 0x1F) bs'
           else if b <? 0xF0 then utf8_go 2 (N.land b 0x0F) bs'
           else utf8_go 3 (N.land b 0x07) bs'
    | S n => let acc' := acc * 64 + N.land b 0x3F in
             match n with
             | O => acc' :: utf8_go 0 0 bs'
             | _ => utf8_go n acc' bs'
             end
    end
  end.

Definition u (s : string) : str :=
  utf8_go 0 0 (List.map N_of_ascii (list_ascii_of_string s)).

Definition in_ranges (t : list (N * N)) (c : char) : bool :=
  existsb (fun r => (fst r <=? c) && (c <=? snd r)) t.

(** Code points with [str.isdecimal] (general category Nd); this is also the
    class [\d] of the [re] module on [str] patterns.  Unicode 14.0.0. *)
Definition decimal_ranges : list (N * N) :=
  [
    (48, 57); (1632, 1641); (1776, 1785); (1984, 1993); (2406, 2415);
    (2534, 2543); (2662, 2671); (2790, 2799); (2918, 2927); (3046, 3055);
    (3174, 3183); (3302, 3311); (3430, 3439); (3558, 3567); (3664, 3673);
    (3792, 3801); (3872, 3881); (4160, 4169); (4240, 4249); (6112, 6121);
    (6160, 6169); (6470, 6479); (6608, 6617); (6784, 6793); (6800, 6809);
    (6992, 7001); (7088, 7097); (7232, 7241); (7248, 7257); (42528, 42537);
    (43216, 43225); (43264, 43273); (43472, 43481); (43504, 43513);
    (43600, 43609); (44016, 44025); (65296, 65305); (66720, 66729);
    (68912, 68921); (69734, 69743); (69872, 69881); (69942, 69951);
    (70096, 70105); (70384, 70393); (70736, 70745); (70864, 70873);
    (71248, 71257); (71360, 71369); (71472, 71481); (71904, 71913);
    (72016, 72025); (72784, 72793); (73040, 73049); (73120, 73129);
    (92768, 92777); (92864, 92873); (93008, 93017); (120782, 120831);
    (123200, 123209); (123632, 123641); (125264, 125273); (130032, 130041)
  ]%N.

(** Code points with [str.isdigit] (Numeric_Type Digit or Decimal). *)
Definition digit_ranges : list (N * N) :=
  [
    (48, 57); (178, 179); (185, 185); (1632, 1641); (1776, 1785);
    (1984, 1993); (2406, 2415); (2534, 2543); (2662, 2671); (2790, 2799);
    (2918, 2927); (3046, 3055); (3174, 3183); (3302, 3311); (3430, 3439);
    (3558, 3567); (3664, 3673); (3792, 3801); (3872, 3881); (4160, 4169);
    (4240, 4249); (4969, 4977); (6112, 6121); (6160, 6169); (6470, 6479);
    (6608, 6618); (6784, 6793); (6800, 6809); (6992, 7001); (7088, 7097);
    (7232, 7241); (7248, 7257); (8304, 8304); (8308, 8313); (8320, 8329);
    (9312, 9320); (9332, 9340); (9352, 9360); (9450, 9450); (9461, 9469);
    (9471, 9471); (10102, 10110); (10112, 10120); (10122, 10130);
    (42528, 42537); (43216, 43225); (43264, 43273); (43472, 43481);
    (43504, 43513); (43600, 43609); (44016, 44025); (65296, 65305);
    (66720, 66729); (68160, 68163); (68912, 68921); (69216, 69224);
    (69714, 69722); (69734, 69743); (69872, 69881); (69942, 69951);
    (70096, 70105); (70384, 70393); (70736, 70745); (70864, 70873);
    (71248, 71257); (71360, 71369); (71472, 71481); (71904, 71913);
    (72016, 72025); (72784, 72793); (73040, 73049); (73120, 73129);
    (92768, 92777); (92864, 92873); (93008, 93017); (120782, 120831);
    (123200, 123209); (123632, 123641); (125264, 125273); (127232, 127242);
    (130032, 130041)
  ]%N.

(** Code points with [str.isspace]; also the class [\s] of [re]. *)
Definition space_ranges : list (N * N) :=
  [ (9, 13); (28, 32); (133, 133); (160, 160); (5760, 5760); (8192, 8202);
    (8232, 8233); (8239, 8239); (8287, 8287); (12288, 12288) ]%N.

Definition isdecimal (c : char) : bool := in_ranges decimal_ranges c.
Definition isdigit (c : char) : bool := in_ranges digit_ranges c.
Definition isspace (c : char) : bool := in_ranges space_ranges c.

Definition is_empty (s : str) : bool :=
  match s with [] => true | _ => false end.

(** [s.isdigit()]: at least one character, all of them digits. *)
Definition str_isdigit (s : str) : bool :=
  negb (is_empty s) && forallb isdigit s.

Fixpoint lstrip_by (p : char -> bool) (s : str) : str :=
  match s with
  | [] => []
  | c :: t => if p c then lstrip_by p t else s
  end.

Definition rstrip_by (p : char -> bool) (s : str) : str :=
  rev (lstrip_by p (rev s)).

(** [s.strip()], [s.rstrip()] and [s.rstrip(chars)]. *)
Definition strip (s : str) : str := rstrip_by isspace (lstrip_by isspace s).
Definition rstrip (s : str) : str := rstrip_by isspace s.
Definition mem_char (c : char) (chars : str) : bool := existsb (N.eqb c) chars.
Definition rstrip_chars (chars s : str) : str :=
  rstrip_by (fun c => mem_char c chars) s.

Fixpoint startswith (p s : str) : bool :=
  match p, s with
  | [], _ => true
  | _ :: _, [] => false
  | a :: p', b :: s' => (a =? b) && startswith p' s'
  end.

(** [sub in s]. *)
Fixpoint contains (sub s : str) : bool :=
  startswith sub s ||
  match s with
  | [] => false
  | _ :: t => contains sub t
  end.

(** [s.replace(old, new)]: the occurrences of [old] are found from the
    left and do not overlap; [skip] counts the characters of an occurrence
    still to be passed over. *)
Fixpoint replace_go (old new : str) (skip : nat) (s : str) : str :=
  match s with
  | [] => []
  | c :: t =>
    match skip with
    | S k => replace_go old new k t
    | O => if startswith old s
           then new ++ replace_go old new (length old - 1) t
           else c :: replace_go old new 0 t
    end
  end.

Definition replace (old new s : str) : str :=
  match old with
  | [] => new ++ flat_map (fun c => c :: new) s
  | _ => replace_go old new 0 s
  end.

(** [s.count(sub)]: non-overlapping occurrences. *)
Fixpoint count_go (sub : str) (skip : nat) (s : str) : nat :=
  match s with
  | [] => 0
  | _ :: t =>
    match skip with
    | S k => count_go sub k t
    | O => if startswith sub s
           then S (count_go sub (length sub - 1) t)
           else count_go sub 0 t
    end
  end.

Definition count (sub s : str) : nat :=
  match sub with
  | [] => S (length s)
  | _ => count_go sub 0 s
  end.

(** [s.rfind(sub)]: the highest index where [sub] starts, or -1. *)
Fixpoint rfind_go (sub : str) (i : Z) (s : str) (last : Z) : Z :=
  match s with
  | [] => if is_empty sub then i else last
  | _ :: t => rfind_go sub (i + 1) t (if startswith sub s then i else last)
  end.

Definition rfind (sub s : str) : Z := rfind_go sub 0 s (-1).

(** [s.split()]: the maximal runs of non-whitespace characters. *)
Fixpoint split_ws_go (cur : str) (s : str) : list str :=
  match s with
  | [] => if is_empty cur then [] else [rev cur]
  | c :: t =>
    if isspace c
    then (if is_empty cur then split_ws_go [] t else rev cur :: split_ws_go [] t)
    else split_ws_go (c :: cur) t
  end.

Definition split_ws (s : str) : list str := split_ws_go [] s.

(** [sep.join(l)]. *)
Fixpoint join (sep : str) (l : list str) : str :=
  match l with
  | [] => []
  | [x] => x
  | x :: t => x ++ sep ++ join sep t
  end.

(** [s.split(sep)[0]] for a non-empty [sep]: the text before the first
    occurrence of [sep]. *)
Fixpoint split_head (sep s : str) : str :=
  match s with
  | [] => []
  | c :: t => if startswith sep s then [] else c :: split_head sep t
  end.

(** [str(n)] for an [int]. *)
Definition str_of_Z (z : Z) : str :=
  List.map N_of_ascii (list_ascii_of_string (NilZero.string_of_int (Z.to_int z))).

(** Exceptions the embedded code can raise, and results of code that can
    raise. *)
Inductive exn :=
| AttributeError
| NameError
| ValueError
| OverflowError
| RequestException
| HTTPError (status : Z)
| JSONDecodeError.

Inductive result (A : Type) :=
| Ok (a : A)
| Raise (e : exn).
Arguments Ok {A} a.
Arguments Raise {A} e.

(** A one-character literal. *)
Definition chr (s : string) : char := hd 0 (u s).

(** [s.endswith(suffix)]. *)
Definition endswith (suffix s : str) : bool :=
  startswith (rev suffix) (rev s).

(** A Python [float] is an IEEE 754 binary64 number. *)
Definition float_of_Z (z : Z) : spec_float := binary_normalize 53 1024 z 0 false.

Definition cond_neg (sign : bool) (z : Z) : Z := if sign then (- z)%Z else z.

(** The magnitude of a finite non-zero float [±m·2^e] as a fraction
    [(numerator, denominator)]. *)
Definition magnitude (m : positive) (e : Z) : Z * Z :=
  if (0 <=? e)%Z then (Z.pos m * 2 ^ e, 1)%Z else (Z.pos m, 2 ^ (- e))%Z.

(** [int(x)] for a [float]: the integer part, towards zero.
    It raises OverflowError on an infinity and ValueError on a NaN; so does
    [round(x)]. *)
Definition int_of_float (x : spec_float) : result Z :=
  match x with
  | S754_zero _ => Ok 0%Z
  | S754_finite sign m e =>
    let (n, d) := magnitude m e in Ok (cond_neg sign (n / d)%Z)
  | S754_infinity _ => Raise OverflowError
  | S754_nan => Raise ValueError
  end.

(** [round(x)] for a [float]: the nearest integer, a tie going to the even
    one. *)
Definition round_half_even (n d : Z) : Z :=
  let q := (n / d)%Z in
  let r := (n mod d)%Z in
  match (2 * r ?= d)%Z with
  | Lt => q
  | Gt => (q + 1)%Z
  | Eq => if Z.even q then q else (q + 1)%Z
  end.

Definition round_float (x : spec_float) : result Z :=
  match x with
  | S754_zero _ => Ok 0%Z
  | S754_finite sign m e =>
    let (n, d) := magnitude m e in Ok (cond_neg sign (round_half_even n d))
  | S754_infinity _ => Raise OverflowError
  | S754_nan => Raise ValueError
  end.

Close Scope N_scope.

End Py.

Import Py.

(* ===================================================================== *)
(** ** cleaner.py *)
(* ===================================================================== *)

Module Cleaner.

(** The values a record field holds when it reaches the cleaner: the
    adapters emit strings; [None] and [int] are what other callers pass. *)
Inductive pyval :=
| VNone
| VInt (z : Z)
| VStr (s : str).

(** Truth value of [not v] negated, and of [not d.get(k)] negated. *)
Definition truthy (v : pyval) : bool :=
  match v with
  | VNone => false
  | VInt z => negb (z =? 0)%Z
  | VStr s => negb (is_empty s)
  end.

Definition truthy_opt (o : option pyval) : bool :=
  match o with
  | None => false
  | Some v => truthy v
  end.

(** [str(v)]. *)
Definition py_str (v : pyval) : str :=
  match v with
  | VNone => u "None"
  | VInt z => str_of_Z z
  | VStr s => s
  end.

(** [v.strip()]: only [str] has the method. *)
Definition py_strip (v : pyval) : result str :=
  match v with
  | VStr s => Ok (strip s)
  | _ => Raise AttributeError
  end.

(** A record is a [dict] from field names to values. *)
Abbreviation dict := (gmap (list N) pyval) (only parsing).

Inductive log_entry :=
| WarnMissingField (field : str)
| WarnYearFormat (year : str)
| InfoCleaned (n_raw n_cleaned : nat).

Definition UNIVERSITY_TAGS : list str :=
  [ u "北京大学"; u "清华大学"; u "复旦大学"; u "上海交通大学"; u "浙江大学";
    u "南京大学"; u "北京理工大学"; u "北京航空航天大学"; u "华中科技大学";
    u "南开大学" ].

(** Every entry of the table has all three tags set. *)
Definition tag_of (school : option pyval) : pyval :=
  match school with
  | Some (VStr s) =>
    if existsb (fun n => bool_decide (n = s)) UNIVERSITY_TAGS
    then VStr (u "1") else VStr (u "0")
  | _ => VStr (u "0")
  end.

Definition add_university_tags (info : dict) : dict :=
  let school := info !! u "学校" in
  <[u "双一流" := tag_of school]>
    (<[u "_211" := tag_of school]>
      (<[u "_985" := tag_of school]> info)).

Definition clean_score (score_str : pyval) : result str :=
  if negb (truthy score_str) then Ok []
  else
    let cleaned := List.filter isdigit (py_str score_str) in
    if negb (is_empty cleaned) then Ok cleaned else py_strip score_str.

Definition clean_ranking (ranking_str : pyval) : result str :=
  if negb (truthy ranking_str) then Ok []
  else
    let cleaned := List.filter isdigit (py_str ranking_str) in
    if negb (is_empty cleaned) then Ok cleaned else py_strip ranking_str.

Definition required_fields : list str := [u "年份"; u "学校"; u "生源地"].

(** The loop over [required_fields]: the first field whose value is falsy. *)
Fixpoint first_missing (fields : list str) (info : dict) : option str :=
  match fields with
  | [] => None
  | f :: fs => if truthy_opt (info !! f) then first_missing fs info else Some f
  end.

(** [validate_data]: the verdict and the warnings it logs. *)
Definition validate_data (info : dict) : bool * list log_entry :=
  match first_missing required_fields info with
  | Some f => (false, [WarnMissingField f])
  | None =>
    match info !! u "年份" with
    | Some (VStr year) =>
      if negb (str_isdigit year) || negb (length year =? 4)%nat
      then (false, [WarnYearFormat year])
      else (true, [])
    | _ => (true, [])
    end
  end.

(** The cleaning of one field, when the record has it. *)
Definition clean_field (f : pyval -> result str) (k : str) (info : dict)
  : result dict :=
  match info !! k with
  | None => Ok info
  | Some v =>
    match f v with
    | Ok s => Ok (<[k := VStr s]> info)
    | Raise e => Raise e
    end
  end.

(** The body of the loop of [clean_data] for a record that passed
    validation. *)
Definition clean_record (info : dict) : result dict :=
  match clean_field clean_score (u "最低分") info with
  | Raise e => Raise e
  | Ok info1 =>
    match clean_field clean_ranking (u "最低分排名") info1 with
    | Raise e => Raise e
    | Ok info2 => Ok (add_university_tags info2)
    end
  end.

(** The loop of [clean_data]: the cleaned list (or the exception that
    ended the loop) and the log. *)
Fixpoint clean_rows (admission_list : list dict)
  : result (list dict) * list log_entry :=
  match admission_list with
  | [] => (Ok [], [])
  | info :: rest =>
    let (valid, warns) := validate_data info in
    if negb valid then
      let (r, lg) := clean_rows rest in (r, warns ++ lg)
    else
      match clean_record info with
      | Raise e => (Raise e, warns)
      | Ok info' =>
        let (r, lg) := clean_rows rest in
        (match r with Ok l => Ok (info' :: l) | Raise e => Raise e end,
         warns ++ lg)
      end
  end.

(** [clean_data].  The source updates each dictionary in place; the model
    returns the updated dictionaries, and nothing below depends on the
    sharing with the input list. *)
Definition clean_data (admission_list : list dict)
  : result (list dict) * list log_entry :=
  let (r, lg) := clean_rows admission_list in
  match r with
  | Ok l => (Ok l, lg ++ [InfoCleaned (length admission_list) (length l)])
  | Raise e => (Raise e, lg)
  end.

(** A record with the three mandatory fields, used in the examples. *)
Definition sample_record (year : pyval) : dict :=
  <[u "年份" := year]>
    (<[u "学校" := VStr (u "清华大学")]>
      (<[u "生源地" := VStr (u "北京")]> ∅)).

End Cleaner.

(* ===================================================================== *)
(** ** import_data.py *)
(* ===================================================================== *)

Module ImportData.

Definition MAX_LEN_MAJOR_NAME : nat := 224.

(** [str.maketrans({"（": "(", "）": ")", "　": " "})]. *)
Definition paren_table (c : char) : char :=
  if (c =? chr "（")%N then chr "("
  else if (c =? chr "）")%N then chr ")"
  else if (c =? chr "　")%N then chr " "
  else c.

(** [sanitize_text]; a cell for which [pd.isna] holds is [None]. *)
Definition sanitize_text (value : option str) (max_len : option nat)
  : option str :=
  match value with
  | None => None
  | Some v =>
    let s := strip v in
    if is_empty s then None
    else
      let s := join (u " ") (split_ws s) in
      let s := List.map paren_table s in
      match max_len with
      | Some n => if (n <? length s)%nat then Some (firstn n s) else Some s
      | None => Some s
      end
  end.

Definition smart_shorten_major_name (value : option str) (max_len : nat)
  : option str :=
  match sanitize_text value None with
  | None => None
  | Some s =>
    if (length s <=? max_len)%nat then Some s
    else
      let truncated := firstn max_len s in
      let cut_pos := rfind (u "、") truncated in
      if negb (cut_pos =? -1)%Z then
        let base := rstrip_chars (u "、，,；; ") (firstn (Z.to_nat cut_pos) truncated) in
        let candidate := base in
        if (count (u "）") candidate <? count (u "（") candidate)%nat then
          let candidate := candidate ++ u "等）" in
          let candidate :=
            if (max_len <? length candidate)%nat
            then firstn max_len candidate else candidate in
          let candidate :=
            if (count (u "）") candidate <? count (u "（") candidate)%nat
            then candidate ++ u "）" else candidate in
          Some candidate
        else Some candidate
      else
        let candidate := rstrip truncated in
        if (count (u "）") candidate <? count (u "（") candidate)%nat then
          let candidate := candidate ++ u "）" in
          if (max_len <? length candidate)%nat
          then Some (firstn max_len candidate) else Some candidate
        else Some candidate
  end.

(** The text holds neither "（" nor "）". *)
Definition no_fullwidth_paren (s : str) : Prop :=
  Forall (fun c => c <> chr "（" /\ c <> chr "）") s.

(** A cell of a column read by pandas. *)
Inductive cell :=
| CNa
| CInt (z : Z)
| CFloat (x : spec_float)
| CStr (s : str).

(** [pd.isna(value)]. *)
Definition isna (value : cell) : bool :=
  match value with
  | CNa | CFloat S754_nan => true
  | _ => false
  end.

Section Loader.

(** [float(s)] on the text of a cell, a builtin of the runtime: [None]
    stands for ValueError. *)
Variable float_of_str : str -> option spec_float.

(** [float(str(value).strip())].  The text of an [int] is its decimal
    numeral, which [float] reads as the nearest binary64 number; the text of
    a [float] is its shortest repr, which [float] reads back as the same
    number. *)
Definition float_of_cell (value : cell) : option spec_float :=
  match value with
  | CNa => None
  | CInt z => Some (float_of_Z z)
  | CFloat x => Some x
  | CStr s => if is_empty (strip s) then None else float_of_str (strip s)
  end.

Definition to_int_safe (value : cell) (default : option Z) : option Z :=
  if isna value then default
  else
    match float_of_cell value with
    | None => default
    | Some x =>
      match round_float x with
      | Ok n => Some n
      | Raise _ => default
      end
    end.

End Loader.

(** A row of the frame of [import_admission_scores] once the derived
    columns are computed; a missing number is [None]. *)
Record score_row := {
  COLLEGE_CODE : Z;
  TYPE : str;
  MAJOR_NAME : str;
  PROVINCE : str;
  ADMISSION_YEAR : option Z;
  MIN_SCORE : option Z;
  MIN_RANK : option Z
}.

(** [df.dropna(subset=["ADMISSION_YEAR", "MIN_SCORE"])]. *)
Definition dropna (rows : list score_row) : list score_row :=
  List.filter (fun r => bool_decide (is_Some (ADMISSION_YEAR r))
                        && bool_decide (is_Some (MIN_SCORE r))) rows.

Abbreviation key := (Z * list N * option Z * list N * option Z * option Z)%type
  (only parsing).

(** The columns of [dedup_cols]. *)
Definition dedup_key (r : score_row) : key :=
  (COLLEGE_CODE r, PROVINCE r, ADMISSION_YEAR r, MAJOR_NAME r, MIN_SCORE r,
   MIN_RANK r).

(** [df.drop_duplicates(subset=dedup_cols)]: a row is kept when no earlier
    row has its key; missing values compare equal. *)
Fixpoint drop_duplicates_go (seen : list key) (rows : list score_row)
  : list score_row :=
  match rows with
  | [] => []
  | r :: t =>
    if bool_decide (dedup_key r ∈ seen) then drop_duplicates_go seen t
    else r :: drop_duplicates_go (dedup_key r :: seen) t
  end.

Definition drop_duplicates (rows : list score_row) : list score_row :=
  drop_duplicates_go [] rows.

(** The rows [import_admission_scores] inserts. *)
Definition dedup_stage (rows : list score_row) : list score_row :=
  drop_duplicates (dropna rows).

(** The cell of the column MAJOR_NAME for a cell of 专业:
    [smart_shorten_major_name] applied to [original_major], itself
    [sanitize_text] of the cell, and ["未知"] where that gives [None]. *)
Definition major_name (cell : option str) : str :=
  match smart_shorten_major_name (sanitize_text cell None) MAX_LEN_MAJOR_NAME with
  | Some s => s
  | None => u "未知"
  end.

(** The tuple appended to [rows] for a row of the frame; [int(...)] of a
    missing number raises, which is [None] here. *)
Definition insert_tuple (r : score_row)
  : option (Z * str * str * str * Z * Z * Z) :=
  match ADMISSION_YEAR r, MIN_SCORE r, MIN_RANK r with
  | Some y, Some sc, Some rk =>
    Some (COLLEGE_CODE r, TYPE r, MAJOR_NAME r, PROVINCE r, y, sc, rk)
  | _, _, _ => None
  end.

(** The loop that builds [rows] from the deduplicated frame.  An exception
    in it is caught by the [except] of the file, which reports the file and
    inserts nothing of it. *)
Fixpoint insert_tuples (rows : list score_row)
  : option (list (Z * str * str * str * Z * Z * Z)) :=
  match rows with
  | [] => Some []
  | r :: t =>
    match insert_tuple r with
    | None => None
    | Some x =>
      match insert_tuples t with
      | None => None
      | Some l => Some (x :: l)
      end
    end
  end.

(** The rows of one file handed to [executemany], or [None] when the file
    fails. *)
Definition file_rows (rows : list score_row)
  : option (list (Z * str * str * str * Z * Z * Z)) :=
  insert_tuples (dedup_stage rows).

(** A major name of 230 characters that opens a parenthesis, with "、" at
    index 200. *)
Definition long_major : str :=
  u "（" ++ repeat (chr "甲") 199 ++ u "、" ++ repeat (chr "乙") 29.

(** The binary64 number written 650.7. *)
Definition f650_7 : spec_float := S754_finite false 5723617729550746 (-43).

End ImportData.

(* ===================================================================== *)
(** ** merge_universities.py *)
(* ===================================================================== *)

Module Merge.

(** [normalize_name], the join key of the two tables; the translation
    table is the one of [sanitize_text]. *)
Definition normalize_name (value : option str) : str :=
  match value with
  | None => []
  | Some v =>
    join (u " ") (split_ws (List.map ImportData.paren_table (strip v)))
  end.

End Merge.

(* ===================================================================== *)
(** ** The regular expressions of the crawlers *)
(* ===================================================================== *)

(** The part of Python's [re] the crawlers use: literals, character sets,
    unbounded repetition of a set (greedy or lazy), concatenation, ordered
    alternation, [?], capturing groups, the lookahead [(?=...)] and [$].
    Matching is by backtracking, alternatives tried from the left. *)
Module Re.

Inductive cset_item :=
| CChr (c : char)
| CDigit
| CSpace.

Definition item_mem (c : char) (i : cset_item) : bool :=
  match i with
  | CChr a => (a =? c)%N
  | CDigit => isdecimal c
  | CSpace => isspace c
  end.

(** [[...]] when [cs_neg] is false, [[^...]] when it is true. *)
Record cset := { cs_neg : bool; cs_items : list cset_item }.

Definition cset_mem (cs : cset) (c : char) : bool :=
  xorb (cs_neg cs) (existsb (item_mem c) (cs_items cs)).

Inductive regex :=
| RLit (s : str)
| RSet (cs : cset)
| RRep (greedy : bool) (min : nat) (cs : cset)
| RSeq (r1 r2 : regex)
| RAlt (r1 r2 : regex)
| ROpt (r : regex)
| RGroup (n : nat) (r : regex)
| RLook (r : regex)
| REnd.

(** A position in the text with the groups captured so far, the most
    recent first. *)
Record mstate := { ms_pos : nat; ms_rest : str; ms_groups : list (nat * str) }.

Definition orelse {A} (a b : option A) : option A :=
  match a with
  | Some x => Some x
  | None => b
  end.

(** [cs*] and [cs+]: as many characters as possible first. *)
Fixpoint rep_greedy (cs : cset) (min : nat) (pos : nat) (rest : str)
    (k : nat -> str -> option mstate) : option mstate :=
  let stop := match min with O => k pos rest | S _ => None end in
  match rest with
  | [] => stop
  | c :: t =>
    if cset_mem cs c
    then orelse (rep_greedy cs (pred min) (S pos) t k) stop
    else stop
  end.

(** [cs*?] and [cs+?]: as few characters as possible first. *)
Fixpoint rep_lazy (cs : cset) (min : nat) (pos : nat) (rest : str)
    (k : nat -> str -> option mstate) : option mstate :=
  let more :=
    match rest with
    | [] => None
    | c :: t =>
      if cset_mem cs c then rep_lazy cs (pred min) (S pos) t k else None
    end in
  match min with
  | O => orelse (k pos rest) more
  | S _ => more
  end.

(** [$]: at the end of the text, or before a newline that ends it. *)
Definition at_end (rest : str) : bool :=
  match rest with
  | [] => true
  | [c] => (c =? 10)%N
  | _ => false
  end.

Definition advance (n : nat) (st : mstate) : mstate :=
  {| ms_pos := ms_pos st + n; ms_rest := skipn n (ms_rest st);
     ms_groups := ms_groups st |}.

(** [rmatch r st k]: the first way, in backtracking order, to match [r] at
    [st] and then succeed with [k]. *)
Fixpoint rmatch (r : regex) (st : mstate) (k : mstate -> option mstate)
  : option mstate :=
  match r with
  | RLit s =>
    if startswith s (ms_rest st) then k (advance (length s) st) else None
  | RSet cs =>
    match ms_rest st with
    | [] => None
    | c :: _ => if cset_mem cs c then k (advance 1 st) else None
    end
  | RRep greedy min cs =>
    (if greedy then rep_greedy else rep_lazy) cs min (ms_pos st) (ms_rest st)
      (fun pos rest =>
         k {| ms_pos := pos; ms_rest := rest; ms_groups := ms_groups st |})
  | RSeq r1 r2 => rmatch r1 st (fun st' => rmatch r2 st' k)
  | RAlt r1 r2 => orelse (rmatch r1 st k) (rmatch r2 st k)
  | ROpt r' => orelse (rmatch r' st k) (k st)
  | RGroup n r' =>
    rmatch r' st
      (fun st' =>
         k {| ms_pos := ms_pos st'; ms_rest := ms_rest st';
              ms_groups :=
                (n, firstn (ms_pos st' - ms_pos st) (ms_rest st))
                  :: ms_groups st' |})
  | RLook r' =>
    match rmatch r' st Some with
    | Some st' =>
      k {| ms_pos := ms_pos st; ms_rest := ms_rest st;
           ms_groups := ms_groups st' |}
    | None => None
    end
  | REnd => if at_end (ms_rest st) then k st else None
  end.

(** A match object. *)
Record rematch := { m_start : nat; m_end : nat; m_groups : list (nat * str) }.

(** [m.group(n)] for a group that took part in the match (the text is empty
    when it did not, as in the tuples of [re.findall]). *)
Fixpoint lookup_group (n : nat) (gs : list (nat * str)) : str :=
  match gs with
  | [] => []
  | (i, t) :: gs' => if (i =? n)%nat then t else lookup_group n gs'
  end.

Definition group (n : nat) (m : rematch) : str := lookup_group n (m_groups m).

Definition match_at (r : regex) (pos : nat) (s : str) : option rematch :=
  match rmatch r {| ms_pos := pos; ms_rest := s; ms_groups := [] |} Some with
  | Some st =>
    Some {| m_start := pos; m_end := ms_pos st; m_groups := ms_groups st |}
  | None => None
  end.

(** [re.finditer(r, s)]: the matches from the left, each search starting
    where the previous match ended; [skip] counts the characters of the last
    match still to be passed over.  (The patterns of the crawlers match at
    least one character.) *)
Fixpoint finditer_go (r : regex) (skip : nat) (pos : nat) (s : str)
  : list rematch :=
  let next (k : nat) :=
    match s with
    | [] => []
    | _ :: t => finditer_go r k (S pos) t
    end in
  match skip with
  | S k => next k
  | O =>
    match match_at r pos s with
    | Some m => m :: next (m_end m - pos - 1)
    | None => next 0
    end
  end.

Definition finditer (r : regex) (s : str) : list rematch :=
  finditer_go r 0 0 s.

(** [re.findall(r, s)] for a pattern with two groups. *)
Definition findall2 (r : regex) (s : str) : list (str * str) :=
  List.map (fun m => (group 1 m, group 2 m)) (finditer r s).

(** [re.search(r, s)]. *)
Definition search (r : regex) (s : str) : option rematch :=
  hd_error (finditer r s).

(** [re.sub(r, repl, s)], the replacement computed from the match. *)
Fixpoint sub_go (r : regex) (repl : rematch -> str) (skip : nat) (pos : nat)
    (s : str) : str :=
  match skip with
  | S k =>
    match s with
    | [] => []
    | _ :: t => sub_go r repl k (S pos) t
    end
  | O =>
    match match_at r pos s with
    | Some m =>
      repl m ++
      match s with
      | [] => []
      | c :: t =>
        (if (m_end m =? pos)%nat then [c] else [])
          ++ sub_go r repl (m_end m - pos - 1) (S pos) t
      end
    | None =>
      match s with
      | [] => []
      | c :: t => c :: sub_go r repl 0 (S pos) t
      end
    end
  end.

Definition sub (r : regex) (repl : rematch -> str) (s : str) : str :=
  sub_go r repl 0 0 s.

(** Whether group [n] occurs in [r]. *)
Fixpoint has_group (n : nat) (r : regex) : bool :=
  match r with
  | RGroup i r' => (i =? n)%nat || has_group n r'
  | RSeq r1 r2 | RAlt r1 r2 => has_group n r1 || has_group n r2
  | ROpt r' | RLook r' => has_group n r'
  | RLit _ | RSet _ | RRep _ _ _ | REnd => false
  end.

(** Concatenation and alternation of several expressions;
    ["|".join(l)] is an alternation of literals. *)
Fixpoint rseq (l : list regex) : regex :=
  match l with
  | [] => RLit []
  | [r] => r
  | r :: l' => RSeq r (rseq l')
  end.

Fixpoint ralt (l : list regex) : regex :=
  match l with
  | [] => RLit []
  | [r] => r
  | r :: l' => RAlt r (ralt l')
  end.

Definition ralt_lits (l : list str) : regex := ralt (List.map RLit l).

Definition set_of (neg : bool) (items : list cset_item) : cset :=
  {| cs_neg := neg; cs_items := items |}.

Definition digit : cset := set_of false [CDigit].
Definition space : cset := set_of false [CSpace].

(** The patterns shared by the Tsinghua and HUST crawlers. *)

(** [(\d+)\.\d+] *)
Definition decimal_pattern : regex :=
  rseq [RGroup 1 (RRep true 1 digit); RLit (u "."); RRep true 1 digit].

(** [(?:省|市|自治区|特别行政区)?] *)
Definition suffix_opt : regex :=
  ROpt (ralt_lits [u "省"; u "市"; u "自治区"; u "特别行政区"]).

(** [[：:]] *)
Definition colon : regex := RSet (set_of false [CChr (chr "："); CChr (chr ":")]).

(** [(P)(?:省|市|自治区|特别行政区)?[：:]([^；；]+?)(?=(P)[：:]|$)] with [P]
    the alternation of [provinces]. *)
Definition province_pattern (provinces : list str) : regex :=
  rseq [ RGroup 1 (ralt_lits provinces); suffix_opt; colon;
         RGroup 2 (RRep false 1 (set_of true [CChr (chr "；"); CChr (chr "；")]));
         RLook (RAlt (RSeq (RGroup 3 (ralt_lits provinces)) colon) REnd) ].

(** [([^；；\d]+?)(\d+)\s*分] *)
Definition item_pattern : regex :=
  rseq [ RGroup 1 (RRep false 1
                     (set_of true [CChr (chr "；"); CChr (chr "；"); CDigit]));
         RGroup 2 (RRep true 1 digit); RRep true 0 space; RLit (u "分") ].

(** [(P)(?:省|市|自治区|特别行政区)?[：:]\s*(\d+)\s*分] *)
Definition province_score_pattern (provinces : list str) : regex :=
  rseq [ RGroup 1 (ralt_lits provinces); suffix_opt; colon;
         RRep true 0 space; RGroup 2 (RRep true 1 digit);
         RRep true 0 space; RLit (u "分") ].

End Re.

(* ===================================================================== *)
(** ** schools_crawler: the HTML adapters *)
(* ===================================================================== *)

(** The dictionary every HTML adapter returns for a record: thirteen keys,
    each holding a string. *)
Record admission_info := {
  年份 : str;
  学校 : str;
  _985 : str;
  _211 : str;
  双一流 : str;
  科类 : str;
  批次 : str;
  专业 : str;
  最低分 : str;
  最低分排名 : str;
  全国统一招生代码 : str;
  招生类型 : str;
  生源地 : str
}.

(** A [<p>] of the content area: [p.get_text(separator=' ', strip=True)]
    and, when the paragraph has a [<strong>] tag, the
    [get_text(strip=True)] of the first one. *)
Record paragraph := { p_text : str; p_strong : option str }.

(** [if x: l.append(x)] *)
Definition opt_list {A} (o : option A) : list A :=
  match o with
  | Some a => [a]
  | None => []
  end.

(** The list [provinces] of both [_parse_paragraph_format]. *)
Definition provinces : list str :=
  List.map u
    [ "内蒙古"; "黑龙江"; "新疆"; "西藏"; "宁夏"; "青海"; "甘肃"; "陕西";
      "云南"; "贵州"; "四川"; "重庆"; "海南"; "广西"; "广东"; "湖南";
      "湖北"; "河南"; "山东"; "江西"; "福建"; "安徽"; "浙江"; "江苏";
      "上海"; "吉林"; "辽宁"; "河北"; "山西"; "天津"; "北京" ]%string.

(** [name.replace('省', '').replace('市', '').replace('自治区', '')
        .replace('特别行政区', '').strip()] *)
Definition strip_suffixes (name : str) : str :=
  strip (replace (u "特别行政区") []
           (replace (u "自治区") []
              (replace (u "市") [] (replace (u "省") [] name)))).

(** [text.replace('【', '').replace('】', '').replace('[', '')
        .replace(']', '').strip()] *)
Definition strip_brackets (batch_text : str) : str :=
  strip (replace (u "]") []
           (replace (u "[") []
              (replace (u "】") [] (replace (u "【") [] batch_text)))).

(** [clean.replace('录取分数线', '').replace('：', '').replace(':', '')
        .strip()] *)
Definition batch_name (batch_text_clean : str) : str :=
  strip (replace (u ":") []
           (replace (u "：") [] (replace (u "录取分数线") [] batch_text_clean))).

Definition str_eqb (a b : str) : bool := bool_decide (a = b).

(** The fallback [_parse_text_content], which the Tsinghua and HUST crawlers
    share word for word but for the batch of the records; [lines] is
    [text.split('\n')]. *)
Module TextContent.

(** The list [provinces] of [_parse_text_content]. *)
Definition provinces : list str :=
  List.map u
    [ "北京"; "天津"; "河北"; "山西"; "内蒙古"; "辽宁"; "吉林"; "黑龙江";
      "上海"; "江苏"; "浙江"; "安徽"; "福建"; "江西"; "山东"; "河南";
      "湖北"; "湖南"; "广东"; "广西"; "海南"; "重庆"; "四川"; "贵州";
      "云南"; "西藏"; "陕西"; "甘肃"; "青海"; "宁夏"; "新疆" ]%string.

(** [(\d{3,})] *)
Definition score_pattern : Re.regex := Re.RGroup 1 (Re.RRep true 3 Re.digit).

(** [re.search(r'(\d{3,})', line)] and its group 1. *)
Definition score_of (line : str) : option str :=
  match Re.search score_pattern line with
  | Some m => Some (Re.group 1 m)
  | None => None
  end.

Record tstate := {
  current_province : option str;
  admission_list : list admission_info
}.

Section Crawler.

Variables school_name school_code batch : str.

Definition text_record (year : Z) (score province : str) : admission_info :=
  {| 年份 := str_of_Z year; 学校 := school_name;
     _985 := u "1"; _211 := u "1"; 双一流 := u "1";
     科类 := u "NA"; 批次 := batch; 专业 := u "NA";
     最低分 := score; 最低分排名 := u "NA";
     全国统一招生代码 := school_code; 招生类型 := u "统招";
     生源地 := province |}.

(** One turn of the loop over the lines. *)
Definition line_step (year : Z) (st : tstate) (line : str) : tstate :=
  let line := strip line in
  if is_empty line then st
  else
    (* the first province of the list the line names *)
    let st :=
      match List.find (fun province => contains province line) provinces with
      | Some province =>
        {| current_province := Some province;
           admission_list :=
             admission_list st ++
             match score_of line with
             | Some score => [text_record year score province]
             | None => []
             end |}
      | None => st
      end in
    match current_province st with
    | Some province =>
      if is_empty province then st
      else
        match score_of line with
        | Some score =>
          if (3 <=? length score)%nat then
            let existing :=
              existsb (fun item => str_eqb (生源地 item) province
                                   && str_eqb (最低分 item) score)
                (admission_list st) in
            if existing then st
            else {| current_province := current_province st;
                    admission_list :=
                      admission_list st ++ [text_record year score province] |}
          else st
        | None => st
        end
    | None => st
    end.

Definition _parse_text_content (lines : list str) (year : Z)
  : list admission_info :=
  admission_list
    (fold_left (line_step year) lines
       {| current_province := None; admission_list := [] |}).

End Crawler.

End TextContent.

Module Tsinghua.

Definition school_name : str := u "清华大学".
Definition school_code : str := u "10003".

Definition _create_admission_info (year : Z)
    (province_name category_or_major score current_batch : str)
  : option admission_info :=
  let province_name := strip_suffixes province_name in
  if is_empty province_name || is_empty score then None
  else
    let category_or_major := strip category_or_major in
    let has (k : string) := contains (u k) category_or_major in
    (* (category, major, admission_type) *)
    let '(category, major, admission_type) :=
      if has "理科" || has "理工" then
        if has "定向" then (u "理工", u "定向生", u "定向生")
        else (u "理工", u "NA", u "统招")
      else if has "文科" || has "文史" then (u "文史", u "NA", u "统招")
      else if has "物理" || has "物化" then
        (u "综合改革",
         if has "物化" then u "物化组"
         else if has "物理" then u "物理组" else u "NA",
         u "统招")
      else if has "历史" then (u "综合改革", u "历史组", u "统招")
      else if has "不限" then (u "综合改革", u "不限组", u "统招")
      else if has "通用" then (u "综合改革", u "通用组", u "统招")
      else if has "医学" || has "临床医学" then
        (u "综合改革", u "医学类", u "统招")
      else if has "马克思主义理论" then
        (u "综合改革", u "马克思主义理论", u "统招")
      else if has "艺术史论" then (u "艺术类", u "艺术史论", u "统招")
      else if negb (is_empty category_or_major) then
        if has "定向" then (u "理工", category_or_major, u "定向生")
        else (u "NA", category_or_major, u "统招")
      else (u "NA", u "NA", u "统招") in
    let admission_type :=
      if has "定向" || str_eqb admission_type (u "定向生") then u "定向生"
      else if contains (u "国家专项") current_batch then u "国家专项计划"
      else admission_type in
    Some {| 年份 := str_of_Z year;
            学校 := school_name;
            _985 := u "1";
            _211 := u "1";
            双一流 := u "1";
            科类 := category;
            批次 := current_batch;
            专业 := major;
            最低分 := score;
            最低分排名 := u "NA";
            全国统一招生代码 := school_code;
            招生类型 := admission_type;
            生源地 := province_name |}.

(** A [<strong>] text with batch vocabulary is a batch title. *)
Definition is_batch_title (batch_text : str) : bool :=
  contains (u "批次") batch_text || contains (u "分数线") batch_text
  || contains (u "统招批") batch_text || contains (u "定向批") batch_text.

(** The new [(current_batch, current_major_hint)] a batch title sets. *)
Definition batch_context (batch_text : str) : str * str :=
  let batch_text_clean := strip_brackets batch_text in
  let has (k : string) := contains (u k) batch_text_clean in
  if has "提前批次" || has "提前批" then
    (u "提前批",
     if has "理科定向" then u "理科定向"
     else if has "马克思主义理论" then u "马克思主义理论"
     else if has "艺术史论" then u "艺术史论"
     else u "")
  else if has "国家专项" then (u "国家专项计划", u "")
  else if has "定向批" then (u "提前批", u "定向生")
  else if has "本科一批" || has "一批次" || has "统招批" then (u "本科一批", u "")
  else if has "本科二批" || has "二批次" then (u "本科二批", u "")
  else (batch_name batch_text_clean, u "").

(** The list [['：', ':', '，', ',', '论']]. *)
Definition no_category : list str := List.map u ["："; ":"; "，"; ","; "论"]%string.

(** Format 1: the matches of [province_pattern] when the text has a
    semicolon of either width. *)
Definition format1_matches (text : str) : list Re.rematch :=
  if contains (u "；") text || contains (u ";") text
  then Re.finditer (Re.province_pattern provinces) text
  else [].

(** The (category-or-major, score) items of one match. *)
Definition format1_items (m : Re.rematch) : list (str * str) :=
  Re.findall2 Re.item_pattern (Re.group 2 m).

Definition format1_records (year : Z) (current_batch current_major_hint : str)
    (matches : list Re.rematch) : list admission_info :=
  flat_map
    (fun m =>
       let province_name := Re.group 1 m in
       flat_map
         (fun item =>
            let category_or_major := strip (fst item) in
            let score := snd item in
            let category_or_major :=
              if is_empty category_or_major
                 || existsb (str_eqb category_or_major) no_category
              then current_major_hint else category_or_major in
            opt_list (_create_admission_info year province_name
                        category_or_major score current_batch))
         (format1_items m))
    matches.

(** Format 2: one score per province. *)
Definition format2_records (year : Z) (current_batch current_major_hint : str)
    (text : str) : list admission_info :=
  flat_map
    (fun ps =>
       opt_list (_create_admission_info year (fst ps) current_major_hint
                   (snd ps) current_batch))
    (Re.findall2 (Re.province_score_pattern provinces) text).

(** The records of a data paragraph, by the format that produced them;
    [format1_matched] is set as soon as [province_pattern] matches. *)
Definition paragraph_records (year : Z) (current_batch current_major_hint : str)
    (text : str) : list admission_info * list admission_info :=
  let text := Re.sub Re.decimal_pattern (Re.group 1) text in
  let matches := format1_matches text in
  let format1_matched := negb (bool_decide (matches = [])) in
  (format1_records year current_batch current_major_hint matches,
   if negb format1_matched
   then format2_records year current_batch current_major_hint text
   else []).

Record pstate := {
  current_batch : str;
  current_major_hint : str;
  admission_list : list admission_info
}.

(** One turn of the loop over the paragraphs. *)
Definition paragraph_step (year : Z) (st : pstate) (p : paragraph) : pstate :=
  if is_empty (p_text p) then st
  else
    match p_strong p with
    | Some batch_text =>
      if is_batch_title batch_text then
        let (b, h) := batch_context batch_text in
        {| current_batch := b; current_major_hint := h;
           admission_list := admission_list st |}
      else
        let (r1, r2) := paragraph_records year (current_batch st)
                          (current_major_hint st) (p_text p) in
        {| current_batch := current_batch st;
           current_major_hint := current_major_hint st;
           admission_list := admission_list st ++ r1 ++ r2 |}
    | None =>
      let (r1, r2) := paragraph_records year (current_batch st)
                        (current_major_hint st) (p_text p) in
      {| current_batch := current_batch st;
         current_major_hint := current_major_hint st;
         admission_list := admission_list st ++ r1 ++ r2 |}
    end.

Definition initial : pstate :=
  {| current_batch := u "普通批"; current_major_hint := u "";
     admission_list := [] |}.

Definition _parse_paragraph_format (content_div : list paragraph) (year : Z)
  : list admission_info :=
  admission_list (fold_left (paragraph_step year) content_div initial).

(** The paragraph of the end-to-end scenario, and the same text with
    half-width semicolons. *)
Definition scenario : paragraph :=
  {| p_text := u "北京：理科 680分；文科 650分；"; p_strong := None |}.

Definition scenario_halfwidth : paragraph :=
  {| p_text := u "北京：理科 680分;文科 650分;"; p_strong := None |}.

(** A batch title, as a paragraph whose text is all in [<strong>]. *)
Definition title : paragraph :=
  {| p_text := u "【本科一批录取分数线】";
     p_strong := Some (u "【本科一批录取分数线】") |}.

Definition _parse_text_content : list str -> Z -> list admission_info :=
  TextContent._parse_text_content school_name school_code (u "普通批").

(** The first record of [title] followed by [scenario_halfwidth]. *)
Definition scenario_record : admission_info :=
  {| 年份 := u "2024"; 学校 := school_name;
     _985 := u "1"; _211 := u "1"; 双一流 := u "1";
     科类 := u "理工"; 批次 := u "本科一批"; 专业 := u "NA";
     最低分 := u "680"; 最低分排名 := u "NA";
     全国统一招生代码 := school_code; 招生类型 := u "统招";
     生源地 := u "北京" |}.

End Tsinghua.

Module HUST.

Definition school_name : str := u "华中科技大学".
Definition school_code : str := u "10487".

Definition art_keywords : list str :=
  List.map u ["设计学"; "音乐表演"; "播音与主持"; "舞蹈表演"; "艺术"]%string.

Definition _extract_category_from_major (major : str) : str :=
  if is_empty major || str_eqb major (u "NA") then u "NA"
  else if existsb (fun keyword => contains keyword major) art_keywords
  then u "艺术类"
  else if contains (u "物理") major || contains (u "物化") major
  then u "综合改革"
  else if contains (u "历史") major then u "综合改革"
  else if contains (u "理科") major || contains (u "理工") major then u "理工"
  else if contains (u "文科") major || contains (u "文史") major then u "文史"
  else u "NA".

(** The first lines of [_create_admission_info] (and of the row loop of
    [_parse_table_format]): the clean-up of the province name. *)
Definition clean_province (province_name : str) : str :=
  let province_name := strip_suffixes province_name in
  let province_name :=
    if contains (u "（") province_name
    then split_head (u "（") province_name else province_name in
  if contains (u "汉族") province_name || contains (u "少数民族") province_name
  then strip (replace (u "（少数民族）") []
                (replace (u "（汉族）") [] province_name))
  else province_name.

Definition _create_admission_info (year : Z)
    (province_name category score batch major rank : str)
  : option admission_info :=
  let province_name := clean_province province_name in
  if is_empty province_name || is_empty score then None
  else
    let admission_type :=
      if contains (u "国家专项") batch then u "国家专项计划"
      else if contains (u "高校专项") batch then u "高校专项计划"
      else if contains (u "定向") batch || contains (u "定向") major
      then u "定向生"
      else if contains (u "艺术类") batch || str_eqb category (u "艺术类")
      then u "艺术类"
      else u "统招" in
    let category :=
      if str_eqb category (u "NA") then
        if contains (u "艺术类") batch || contains (u "艺术") major
        then u "艺术类"
        else if contains (u "物理") major || contains (u "物化") major
        then u "综合改革"
        else if contains (u "历史") major then u "综合改革"
        else category
      else category in
    Some {| 年份 := str_of_Z year;
            学校 := school_name;
            _985 := u "1";
            _211 := u "1";
            双一流 := u "1";
            科类 := category;
            批次 := batch;
            专业 := if negb (str_eqb major (u "NA")) then major else u "NA";
            最低分 := score;
            最低分排名 := if negb (str_eqb rank (u "NA")) then rank else u "NA";
            全国统一招生代码 := school_code;
            招生类型 := admission_type;
            生源地 := province_name |}.

Definition is_batch_title (batch_text : str) : bool :=
  contains (u "批次") batch_text || contains (u "分数线") batch_text.

Definition batch_context (batch_text : str) : str :=
  let batch_text_clean := strip_brackets batch_text in
  let has (k : string) := contains (u k) batch_text_clean in
  if has "提前批次" || has "提前批" then u "提前批"
  else if has "国家专项" then u "国家专项计划"
  else if has "本科一批" || has "一批次" then u "本科一批"
  else if has "本科二批" || has "二批次" then u "本科二批"
  else batch_name batch_text_clean.

Definition format1_matches (text : str) : list Re.rematch :=
  if contains (u "；") text || contains (u ";") text
  then Re.finditer (Re.province_pattern provinces) text
  else [].

Definition format1_items (m : Re.rematch) : list (str * str) :=
  Re.findall2 Re.item_pattern (Re.group 2 m).

Definition format1_records (year : Z) (current_batch : str)
    (matches : list Re.rematch) : list admission_info :=
  flat_map
    (fun m =>
       let province_name := Re.group 1 m in
       flat_map
         (fun item =>
            let category_or_major := strip (fst item) in
            let score := snd item in
            let category_type := _extract_category_from_major category_or_major in
            opt_list (_create_admission_info year province_name category_type
                        score current_batch category_or_major (u "NA")))
         (format1_items m))
    matches.

Definition format2_records (year : Z) (current_batch : str) (text : str)
  : list admission_info :=
  flat_map
    (fun ps =>
       opt_list (_create_admission_info year (fst ps) (u "NA") (snd ps)
                   current_batch (u "NA") (u "NA")))
    (Re.findall2 (Re.province_score_pattern provinces) text).

(** The records of a data paragraph, by the format that produced them:
    format 2 is run on every paragraph. *)
Definition paragraph_records (year : Z) (current_batch : str) (text : str)
  : list admission_info * list admission_info :=
  let text := Re.sub Re.decimal_pattern (Re.group 1) text in
  (format1_records year current_batch (format1_matches text),
   format2_records year current_batch text).

Record pstate := {
  current_batch : str;
  admission_list : list admission_info
}.

Definition paragraph_step (year : Z) (st : pstate) (p : paragraph) : pstate :=
  if is_empty (p_text p) then st
  else
    match p_strong p with
    | Some batch_text =>
      if is_batch_title batch_text then
        {| current_batch := batch_context batch_text;
           admission_list := admission_list st |}
      else
        let (r1, r2) := paragraph_records year (current_batch st) (p_text p) in
        {| current_batch := current_batch st;
           admission_list := admission_list st ++ r1 ++ r2 |}
    | None =>
      let (r1, r2) := paragraph_records year (current_batch st) (p_text p) in
      {| current_batch := current_batch st;
         admission_list := admission_list st ++ r1 ++ r2 |}
    end.

Definition initial : pstate :=
  {| current_batch := u "本科一批"; admission_list := [] |}.

Definition _parse_paragraph_format (content_div : list paragraph) (year : Z)
  : list admission_info :=
  admission_list (fold_left (paragraph_step year) content_div initial).

(** A paragraph with one province, one score and a half-width semicolon. *)
Definition one_score : paragraph :=
  {| p_text := u "北京： 680分;"; p_strong := None |}.

Definition _parse_text_content : list str -> Z -> list admission_info :=
  TextContent._parse_text_content school_name school_code (u "本科一批").

(** The record format 2 gives for [one_score]. *)
Definition one_score_record : admission_info :=
  {| 年份 := u "2024"; 学校 := school_name;
     _985 := u "1"; _211 := u "1"; 双一流 := u "1";
     科类 := u "NA"; 批次 := u "本科一批"; 专业 := u "NA";
     最低分 := u "680"; 最低分排名 := u "NA";
     全国统一招生代码 := school_code; 招生类型 := u "统招";
     生源地 := u "北京" |}.

End HUST.

Module PKU.

Definition school_name : str := u "北京大学".
Definition school_code : str := u "10001".

Definition _create_admission_info (year : Z)
    (province category score batch category_type : str)
  : option admission_info :=
  if is_empty province || is_empty score then None
  else
    let major :=
      if negb (is_empty category)
         && negb (existsb (str_eqb category) (List.map u ["-"; "—"; ""]%string))
      then category else u "NA" in
    Some {| 年份 := str_of_Z year;
            学校 := school_name;
            _985 := u "1";
            _211 := u "1";
            双一流 := u "1";
            科类 := category_type;
            批次 := batch;
            专业 := major;
            最低分 := score;
            最低分排名 := u "NA";
            全国统一招生代码 := school_code;
            招生类型 := u "统招";
            生源地 := province |}.

(** The local [clean_score] of [parse_score_page]: the first run of digits,
    [None] for an empty cell or a dash. *)
Definition clean_score (score_str : str) : option str :=
  if is_empty score_str || str_eqb score_str (u "-") || str_eqb score_str (u "—")
  then None
  else
    match Re.search (Re.RGroup 1 (Re.RRep true 1 Re.digit)) score_str with
    | Some m => Some (Re.group 1 m)
    | None => None
    end.

(** The five values a row gives, by the headers or by position. *)
Record row_values := {
  province : str;
  category : str;
  arts_score : str;
  science_score : str;
  other_score : str
}.

Definition empty_row : row_values :=
  {| province := []; category := []; arts_score := [];
     science_score := []; other_score := [] |}.

(** One turn of [for idx, header in enumerate(headers)]. *)
Definition assign (header value : str) (r : row_values) : row_values :=
  if contains (u "省份") header || contains (u "省") header then
    {| province := value; category := category r; arts_score := arts_score r;
       science_score := science_score r; other_score := other_score r |}
  else if contains (u "类别") header then
    {| province := province r; category := value; arts_score := arts_score r;
       science_score := science_score r; other_score := other_score r |}
  else if contains (u "文科") header then
    {| province := province r; category := category r; arts_score := value;
       science_score := science_score r; other_score := other_score r |}
  else if contains (u "理科") header then
    {| province := province r; category := category r;
       arts_score := arts_score r; science_score := value;
       other_score := other_score r |}
  else if contains (u "其它") header || contains (u "其他") header then
    {| province := province r; category := category r;
       arts_score := arts_score r; science_score := science_score r;
       other_score := value |}
  else r.

Fixpoint by_headers (headers cell_texts : list str) (r : row_values)
  : row_values :=
  match headers, cell_texts with
  | header :: hs, value :: vs => by_headers hs vs (assign header value r)
  | _, _ => r
  end.

Definition by_position (cell_texts : list str) : row_values :=
  {| province := nth 0 cell_texts [];
     category := nth 1 cell_texts [];
     arts_score := nth 2 cell_texts [];
     science_score := nth 3 cell_texts [];
     other_score := nth 4 cell_texts [] |}.

(** The body of the loop over the rows of [parse_score_page], for a row
    with at least two cells. *)
Definition row_records (year : Z) (headers cell_texts : list str)
  : list admission_info :=
  if (length cell_texts <? 2)%nat then []
  else
    let r := match headers with
             | [] => by_position cell_texts
             | _ => by_headers headers cell_texts empty_row
             end in
    let province := strip_suffixes (province r) in
    let score_of (s : str) : option str :=
      if negb (is_empty s) then clean_score s else None in
    let one (s category_type : str) : list admission_info :=
      match score_of s with
      | Some score =>
        opt_list (_create_admission_info year province (category r) score
                    (u "本科一批") category_type)
      | None => []
      end in
    one (arts_score r) (u "文史") ++ one (science_score r) (u "理工")
      ++ one (other_score r) (u "综合改革").

(** A header row and a data row, for the examples. *)
Definition sample_headers : list str :=
  [u "省份"; u "类别"; u "文科"; u "理科"].

Definition sample_cells : list str :=
  [u "河北省"; u "-"; u "650"; u "680分"].

(** The second record of the sample row. *)
Definition sample_record : admission_info :=
  {| 年份 := u "2024"; 学校 := school_name;
     _985 := u "1"; _211 := u "1"; 双一流 := u "1";
     科类 := u "理工"; 批次 := u "本科一批"; 专业 := u "NA";
     最低分 := u "680"; 最低分排名 := u "NA";
     全国统一招生代码 := school_code; 招生类型 := u "统招";
     生源地 := u "河北" |}.

End PKU.

(* ===================================================================== *)
(** ** schools_crawler: the API adapters *)
(* ===================================================================== *)

(** The values of the JSON objects the API returns. *)
Inductive scalar :=
| SNull
| SBool (b : bool)
| SInt (z : Z)
| SFloat (x : spec_float)
| SStr (s : str).

Definition truthy (v : scalar) : bool :=
  match v with
  | SNull => false
  | SBool b => b
  | SInt z => negb (z =? 0)%Z
  | SFloat (S754_zero _) => false
  | SFloat _ => true
  | SStr s => negb (is_empty s)
  end.

(** [item.get(k)]: [None] for a missing key as for a null. *)
Definition get (k : string) (item : gmap (list N) scalar) : scalar :=
  default SNull (item !! u k).

(** [item.get(k, d)] *)
Definition get_default (k : string) (d : scalar) (item : gmap (list N) scalar)
  : scalar :=
  default d (item !! u k).

(** The code of [parse_batch_data], which the Nankai and BIT crawlers
    share word for word but for the 年份 entry (left out here, as are the
    constant entries). *)
Module Api.

Definition get_value_or_na (value : scalar) (default : str) : scalar :=
  let result := match value with SNull => SStr default | _ => value end in
  if truthy result then result else SStr (u "NA").

(** [isinstance(v, (int, float))]: [str(int(v))]; otherwise [str(v)] of a
    truthy value, or 'NA'. *)
Definition number_text (v : scalar) : result str :=
  match v with
  | SBool b => Ok (str_of_Z (if b then 1 else 0))
  | SInt z => Ok (str_of_Z z)
  | SFloat x =>
    match int_of_float x with
    | Ok n => Ok (str_of_Z n)
    | Raise e => Raise e
    end
  | SStr s => Ok (if negb (is_empty s) then s else u "NA")
  | SNull => Ok (u "NA")
  end.

Record api_record := {
  科类 : scalar;
  批次 : str;
  专业 : scalar;
  最低分 : str;
  最低分排名 : str;
  招生类型 : scalar;
  生源地 : scalar
}.

(** The body of the loop of [parse_batch_data]. *)
Definition batch_record (item : gmap (list N) scalar) (province : str)
  : result api_record :=
  let min_score := get_default "minScore" (SStr []) item in
  let min_rank :=
    if truthy (get "minRank" item) then get "minRank" item
    else get_default "minOrder" (SStr []) item in
  match number_text min_score with
  | Raise e => Raise e
  | Ok min_score =>
    match number_text min_rank with
    | Raise e => Raise e
    | Ok min_rank =>
      Ok {| 科类 := get_value_or_na (get "klmc" item) [];
            批次 := u "普通批";
            专业 := SStr (u "NA");
            最低分 := min_score;
            最低分排名 := min_rank;
            招生类型 := get_value_or_na (get "zslx" item) (u "普通类");
            生源地 := get_value_or_na (get_default "ssmc" (SStr province) item) [] |}
    end
  end.

Fixpoint parse_batch_data (batch_list : list (gmap (list N) scalar))
    (province : str) : result (list api_record) :=
  match batch_list with
  | [] => Ok []
  | item :: rest =>
    match batch_record item province with
    | Raise e => Raise e
    | Ok r =>
      match parse_batch_data rest province with
      | Raise e => Raise e
      | Ok l => Ok (r :: l)
      end
    end
  end.

(** The body of the loop of [parse_major_data], which the two crawlers
    share in the same way. *)
Definition major_record (item : gmap (list N) scalar) (province : str)
  : result api_record :=
  let min_score := get_default "minScore" (SStr []) item in
  match number_text min_score with
  | Raise e => Raise e
  | Ok min_score =>
    Ok {| 科类 := get_value_or_na (get "klmc" item) [];
          批次 := u "普通批";
          专业 := get_value_or_na (get "zymc" item) [];
          最低分 := min_score;
          最低分排名 := u "NA";
          招生类型 := get_value_or_na (get "zslx" item) (u "普通类");
          生源地 := get_value_or_na (get_default "ssmc" (SStr province) item) [] |}
  end.

Fixpoint parse_major_data (major_list : list (gmap (list N) scalar))
    (province : str) : result (list api_record) :=
  match major_list with
  | [] => Ok []
  | item :: rest =>
    match major_record item province with
    | Raise e => Raise e
    | Ok r =>
      match parse_major_data rest province with
      | Raise e => Raise e
      | Ok l => Ok (r :: l)
      end
    end
  end.

End Api.

Module BIT.

Definition parse_batch_data := Api.parse_batch_data.
Definition parse_major_data := Api.parse_major_data.

End BIT.

Module Nankai.

Definition parse_batch_data := Api.parse_batch_data.
Definition parse_major_data := Api.parse_major_data.

(** The two lists of the 'data' object of a reply. *)
Record payload := {
  zsSsgradeList : list (gmap (list N) scalar);
  sszygradeList : list (gmap (list N) scalar)
}.

Definition empty_payload : payload :=
  {| zsSsgradeList := []; sszygradeList := [] |}.

(** The JSON body of a reply: its 'state' and its 'data' (absent, null or
    an object). *)
Record reply := { state : scalar; data : option (option payload) }.

(** A response: the status, the two token headers, and the body when it is
    JSON. *)
Record response := {
  status_code : Z;
  Csrf_Token : option str;
  X_Csrf_Token : option str;
  json : option reply
}.

Inductive endpoint := ajax_lnfs_param | ajax_lnfs.

(** A POST as the server sees it: the endpoint, the two token headers and
    the form data (the time stamps are left out). *)
Record request := {
  url : endpoint;
  h_Csrf_Token : option str;
  h_X_Csrf_Token : option str;
  form : option (list (str * str))
}.

(** The crawler: its token and, for the proofs, the requests it has sent. *)
Record crawler := { csrf_token : option str; sent : list request }.

Definition tok_truthy (t : option str) : bool :=
  match t with
  | Some s => negb (is_empty s)
  | None => false
  end.

(** [a or b] on header values. *)
Definition header_or (a b : option str) : option str :=
  if tok_truthy a then a else b.

Definition set_token (t : option str) (c : crawler) : crawler :=
  {| csrf_token := t; sent := sent c |}.

(** [data.get('state') == 1] *)
Definition is_one (v : scalar) : bool :=
  match v with
  | SInt z => (z =? 1)%Z
  | SBool b => b
  | SFloat (S754_finite false m e) =>
    if (0 <=? e)%Z then (Z.pos m * 2 ^ e =? 1)%Z else (Z.pos m =? 2 ^ (- e))%Z
  | _ => false
  end.

Section Http.

(** The site: what it answers to a request, given the requests before it;
    [None] is a request that fails in transport. *)
Variable server : list request -> request -> option response.

(** [self.session.post(...)] *)
Definition post (req : request) (c : crawler) : result response * crawler :=
  let c' := {| csrf_token := csrf_token c; sent := sent c ++ [req] |} in
  match server (sent c) req with
  | Some r => (Ok r, c')
  | None => (Raise RequestException, c')
  end.

(** [response.raise_for_status()], [response.json()] and the test of
    'state' that end both functions. *)
Definition finish (r : response) : result (option payload) :=
  if (400 <=? status_code r)%Z && (status_code r <? 600)%Z
  then Raise (HTTPError (status_code r))
  else
    match json r with
    | None => Raise JSONDecodeError
    | Some d =>
      if is_one (state d)
      then Ok (match data d with
               | None => Some empty_payload
               | Some p => p
               end)
      else Ok None
    end.

(** The [try] block of [get_admission_data]. *)
Definition get_admission_data_try (params : list (str * str)) (c : crawler)
  : result (option payload) * crawler :=
  let headers_token := if tok_truthy (csrf_token c) then csrf_token c else None in
  match post {| url := ajax_lnfs; h_Csrf_Token := headers_token;
                h_X_Csrf_Token := None; form := Some params |} c with
  | (Raise e, c) => (Raise e, c)
  | (Ok response, c) =>
    let new_token := header_or (Csrf_Token response) (X_Csrf_Token response) in
    let c := if tok_truthy new_token then set_token new_token c else c in
    if (status_code response =? 403)%Z && tok_truthy new_token then
      let c := set_token new_token c in
      match post {| url := ajax_lnfs; h_Csrf_Token := csrf_token c;
                    h_X_Csrf_Token := None; form := Some params |} c with
      | (Raise e, c) => (Raise e, c)
      | (Ok response, c) => (finish response, c)
      end
    else (finish response, c)
  end.

(** [get_admission_data]: both [except] clauses log and return [None]. *)
Definition get_admission_data (params : list (str * str)) (c : crawler)
  : option payload * crawler :=
  match get_admission_data_try params c with
  | (Ok v, c) => (v, c)
  | (Raise _, c) => (None, c)
  end.

(** The [try] block of [get_filter_params].  In the branch for 403 the
    name [post_data] is bound nowhere, neither in the function nor in the
    module: its first use raises NameError, before the second request. *)
Definition get_filter_params_try (c : crawler)
  : result (option payload) * crawler :=
  let headers_token := if tok_truthy (csrf_token c) then csrf_token c else None in
  match post {| url := ajax_lnfs_param; h_Csrf_Token := headers_token;
                h_X_Csrf_Token := None; form := None |} c with
  | (Raise e, c) => (Raise e, c)
  | (Ok response, c) =>
    let new_token := header_or (Csrf_Token response) (X_Csrf_Token response) in
    let c := if negb (tok_truthy (csrf_token c)) && tok_truthy new_token
             then set_token new_token c else c in
    if (status_code response =? 403)%Z && tok_truthy new_token then
      let c := set_token new_token c in
      (Raise NameError, c)
    else (finish response, c)
  end.

Definition get_filter_params (c : crawler) : option payload * crawler :=
  match get_filter_params_try c with
  | (Ok v, c) => (v, c)
  | (Raise _, c) => (None, c)
  end.

(** The form data of [crawl_by_year_and_province]. *)
Definition crawl_params (year : Z) (province klmc zslx : str)
  : list (str * str) :=
  [ (u "ssmc", province); (u "zsnf", str_of_Z year); (u "klmc", klmc);
    (u "sex", []); (u "campus", []); (u "zslx", zslx) ].

(** [crawl_by_year_and_province]: the token is asked for first when the
    crawler has none; the records of the two lists of the reply, those of
    [zsSsgradeList] first.  Nothing catches what the parsers raise. *)
Definition crawl_by_year_and_province (year : Z) (province klmc zslx : str)
    (c : crawler) : result (list Api.api_record) * crawler :=
  let c := if negb (tok_truthy (csrf_token c))
           then snd (get_filter_params c) else c in
  match get_admission_data (crawl_params year province klmc zslx) c with
  | (None, c) => (Ok [], c)
  | (Some data, c) =>
    (match parse_batch_data (zsSsgradeList data) province with
     | Raise e => Raise e
     | Ok batch_data =>
       match parse_major_data (sszygradeList data) province with
       | Raise e => Raise e
       | Ok major_data => Ok (batch_data ++ major_data)
       end
     end, c)
  end.

End Http.

(** A site that refuses with 403 and a fresh token any request that does
    not carry that token, and answers the others. *)
Definition fresh : str := u "fresh-token".

Definition refreshing_server (_ : list request) (req : request)
  : option response :=
  if bool_decide (h_Csrf_Token req = Some fresh) then
    Some {| status_code := 200; Csrf_Token := None; X_Csrf_Token := None;
            json := Some {| state := SInt 1;
                            data := Some (Some empty_payload) |} |}
  else
    Some {| status_code := 403; Csrf_Token := Some fresh;
            X_Csrf_Token := None; json := None |}.

Definition stale : crawler := {| csrf_token := Some (u "stale-token"); sent := [] |}.

End Nankai.

(* ===================================================================== *)
(** * Properties *)
(* ===================================================================== *)

Create HintDb pystr.

Section StringFacts.

Lemma filter_is_empty (p : N -> bool) (s : list N) :
  is_empty (List.filter p s) = negb (existsb p s).
Proof.
  induction s as [|c t IH]; simpl; [reflexivity|].
  destruct (p c); simpl; [reflexivity | exact IH].
Qed.

Lemma filter_nil_of_not_exists (p : N -> bool) (s : list N) :
  existsb p s = false -> List.filter p s = [].
Proof.
  intros H. pose proof (filter_is_empty p s) as E. rewrite H in E.
  destruct (List.filter p s); [reflexivity | discriminate].
Qed.

Lemma lstrip_by_Forall (P : N -> Prop) (p : N -> bool) (s : list N) :
  Forall P s -> Forall P (lstrip_by p s).
Proof.
  induction 1 as [|c t Hc Ht IH]; simpl; [constructor|].
  destruct (p c); [exact IH | constructor; assumption].
Qed.

Lemma rstrip_by_Forall (P : N -> Prop) (p : N -> bool) (s : list N) :
  Forall P s -> Forall P (rstrip_by p s).
Proof.
  intros H. unfold rstrip_by.
  apply Forall_rev, lstrip_by_Forall, Forall_rev, H.
Qed.

Lemma strip_Forall (P : N -> Prop) (s : list N) :
  Forall P s -> Forall P (strip s).
Proof.
  intros H. unfold strip. apply rstrip_by_Forall, lstrip_by_Forall, H.
Qed.

Lemma lstrip_by_length (p : N -> bool) (s : list N) :
  (length (lstrip_by p s) <= length s)%nat.
Proof.
  induction s as [|c t IH]; simpl; [lia|]. destruct (p c); simpl; lia.
Qed.

Lemma rstrip_by_length (p : N -> bool) (s : list N) :
  (length (rstrip_by p s) <= length s)%nat.
Proof.
  unfold rstrip_by. rewrite length_rev.
  etransitivity; [apply lstrip_by_length|]. rewrite length_rev. lia.
Qed.

Lemma count_go_absent (a : N) (s : list N) (skip : nat) :
  Forall (fun c => c <> a) s -> count_go [a] skip s = 0%nat.
Proof.
  intros H. revert skip. induction H as [|c t Hc Ht IH]; intros skip;
    [reflexivity|].
  cbn [count_go]. destruct skip as [|k]; [|apply IH].
  cbn [startswith]. destruct (N.eqb_spec a c) as [E|E];
    [exfalso; apply Hc; symmetry; exact E|].
  cbn [andb]. apply IH.
Qed.

Lemma replace_go_delete_Forall (P : N -> Prop) (old s : list N) (skip : nat) :
  Forall P s -> Forall P (replace_go old [] skip s).
Proof.
  intros H. revert skip. induction H as [|c t Hc Ht IH]; intros skip;
    [constructor|].
  cbn [replace_go]. destruct skip as [|k]; [|apply IH].
  destruct (startswith old (c :: t)); [apply IH|].
  constructor; [exact Hc | apply IH].
Qed.

Lemma replace_delete_Forall (P : N -> Prop) (a : N) (old s : list N) :
  Forall P s -> Forall P (replace (a :: old) [] s).
Proof. apply replace_go_delete_Forall. Qed.

Lemma replace_single_lacks (a : N) (s : list N) :
  Forall (fun c => c <> a) (replace [a] [] s).
Proof.
  unfold replace. induction s as [|c t IH]; [constructor|].
  cbn [replace_go startswith length Nat.sub app].
  destruct (N.eqb_spec a c) as [E|E]; cbn [andb]; [exact IH|].
  constructor; [congruence | exact IH].
Qed.

Lemma split_head_Forall (P : N -> Prop) (sep s : list N) :
  Forall P s -> Forall P (split_head sep s).
Proof.
  induction 1 as [|c t Hc Ht IH]; [constructor|].
  cbn [split_head]. destruct (startswith sep (c :: t)); [constructor|].
  constructor; assumption.
Qed.

Lemma split_head_single_lacks (a : N) (s : list N) :
  Forall (fun c => c <> a) (split_head [a] s).
Proof.
  induction s as [|c t IH]; [constructor|].
  cbn [split_head startswith].
  destruct (N.eqb_spec a c) as [E|E]; cbn [andb]; [constructor|].
  constructor; [congruence | exact IH].
Qed.

Lemma contains_single_false (a : N) (s : list N) :
  contains [a] s = false -> Forall (fun c => c <> a) s.
Proof.
  induction s as [|c t IH]; [constructor|].
  cbn [contains startswith].
  destruct (N.eqb_spec a c) as [E|E]; cbn [andb orb]; [discriminate|].
  intros H. constructor; [congruence | exact (IH H)].
Qed.

End StringFacts.

#[local] Hint Resolve lstrip_by_Forall rstrip_by_Forall strip_Forall
  replace_delete_Forall split_head_Forall Forall_take : pystr.

Section CleanerFacts.
Import Cleaner.

(** C8. On a string [s], [clean_score] and [clean_ranking] return [''] when
    [s] is empty, the digit characters of [s] (in order) when [s] has a
    digit, and [s.strip()] otherwise; [None] gives ['']; and
    clean_score("650分") = "650", clean_score("") = "",
    clean_score("NA") = "NA". *)
Theorem clean_score_spec (s : list N) :
  clean_score (VStr s) =
    Ok (if is_empty s then []
        else if existsb isdigit s then List.filter isdigit s
        else strip s)
  /\ clean_ranking (VStr s) = clean_score (VStr s)
  /\ clean_score VNone = Ok []
  /\ clean_score (VStr (u "650分")) = Ok (u "650")
  /\ clean_score (VStr (u "")) = Ok (u "")
  /\ clean_score (VStr (u "NA")) = Ok (u "NA").
Proof.
  repeat split; try reflexivity.
  unfold clean_score. destruct s as [|c t]; [reflexivity|].
  cbn [truthy is_empty negb py_str py_strip].
  rewrite filter_is_empty, negb_involutive.
  destruct (existsb isdigit (c :: t)) eqn:E; [reflexivity|].
  reflexivity.
Qed.

Lemma first_missing_required (info : gmap (list N) pyval) :
  first_missing required_fields info = None <->
  truthy_opt (info !! u "年份") = true /\
  truthy_opt (info !! u "学校") = true /\
  truthy_opt (info !! u "生源地") = true.
Proof.
  unfold required_fields. cbn [first_missing].
  destruct (truthy_opt (info !! u "年份"));
  destruct (truthy_opt (info !! u "学校"));
  destruct (truthy_opt (info !! u "生源地"));
  split; intros H; try discriminate; try tauto; try reflexivity;
  destruct H as (? & ? & ?); discriminate.
Qed.

(** C9. [validate_data] accepts a record exactly when 年份, 学校 and 生源地
    are all truthy and a string-valued 年份 has exactly 4 characters, all
    digits; year "24" is rejected and year "2024" accepted; a rejected
    record logs a warning and is left out by [clean_data], whose result is
    that of the remaining records. *)
Theorem validate_data_spec (info : gmap (list N) pyval) :
  (fst (validate_data info) = true <->
     truthy_opt (info !! u "年份") = true /\
     truthy_opt (info !! u "学校") = true /\
     truthy_opt (info !! u "生源地") = true /\
     (forall y, info !! u "年份" = Some (VStr y) ->
                length y = 4%nat /\ forallb isdigit y = true))
  /\ fst (validate_data (sample_record (VStr (u "24")))) = false
  /\ fst (validate_data (sample_record (VStr (u "2024")))) = true
  /\ (fst (validate_data info) = false ->
      snd (validate_data info) <> [] /\
      forall rest, fst (clean_data (info :: rest)) = fst (clean_data rest)).
Proof.
  split; [|split; [reflexivity|split; [reflexivity|]]].
  - unfold validate_data.
    destruct (first_missing required_fields info) as [f|] eqn:M.
    + split; [discriminate|]. intros (H1 & H2 & H3 & _).
      assert (first_missing required_fields info = None) as M'
        by (apply first_missing_required; auto).
      congruence.
    + apply first_missing_required in M. destruct M as (H1 & H2 & H3).
      destruct (info !! u "年份") as [[| z | year]|] eqn:Y.
      * simpl in H1. discriminate.
      * split; [intros _|reflexivity].
        split; [exact H1|split; [exact H2|split; [exact H3|]]].
        intros y E. discriminate E.
      * unfold str_isdigit.
        destruct (Nat.eqb_spec (length year) 4) as [L|L];
        destruct (forallb isdigit year) eqn:D;
        destruct year as [|c t]; simpl in L; try discriminate L.
        -- split; [intros _|reflexivity].
           split; [exact H1|split; [exact H2|split; [exact H3|]]].
           intros y [= <-]. split; [exact L | exact D].
        -- split; [simpl; discriminate|].
           intros (_ & _ & _ & H). destruct (H _ eq_refl) as [_ D'].
           congruence.
        -- simpl in H1. discriminate.
        -- split; [simpl; rewrite ?andb_false_r; simpl; discriminate|].
           intros (_ & _ & _ & H). destruct (H _ eq_refl) as [L' _].
           contradiction.
        -- simpl in H1. discriminate.
        -- split; [simpl; rewrite ?andb_false_r; simpl; discriminate|].
           intros (_ & _ & _ & H). destruct (H _ eq_refl) as [L' _].
           contradiction.
      * simpl in H1. discriminate.
  - intros V. split.
    + unfold validate_data in *.
      destruct (first_missing required_fields info); [discriminate|].
      destruct (info !! u "年份") as [[| z | year]|]; simpl in V;
        try discriminate.
      destruct (negb (str_isdigit year) || negb (length year =? 4)%nat);
        simpl in V; discriminate.
    + intros rest. unfold clean_data. cbn [clean_rows].
      destruct (validate_data info) as [valid warns]. simpl in V. subst valid.
      cbn [negb]. destruct (clean_rows rest) as [r lg].
      destruct r; reflexivity.
Qed.

Lemma validate_data_spec_witness :
  snd (validate_data (sample_record (VStr (u "24")))) <> []
  /\ forall rest,
       fst (clean_data (sample_record (VStr (u "24")) :: rest))
       = fst (clean_data rest).
Proof.
  apply (proj2 (proj2 (proj2
           (validate_data_spec (sample_record (VStr (u "24"))))))).
  reflexivity.
Defined.

(** C10. When 年份 holds a truthy value that is not a string (an [int]
    other than 0, such as 24), [validate_data] makes no format check: it
    accepts the record, without a warning, as soon as 学校 and 生源地 are
    truthy. *)
Theorem validate_data_int_year (info : gmap (list N) pyval) (n : Z) :
  info !! u "年份" = Some (VInt n) ->
  n <> 0%Z ->
  truthy_opt (info !! u "学校") = true ->
  truthy_opt (info !! u "生源地") = true ->
  validate_data info = (true, []).
Proof.
  intros Y N0 H2 H3. unfold validate_data.
  assert (first_missing required_fields info = None) as ->.
  { apply first_missing_required. rewrite Y. simpl.
    destruct (Z.eqb_spec n 0); [contradiction|]. auto. }
  rewrite Y. reflexivity.
Qed.

Lemma validate_data_int_year_witness :
  validate_data (sample_record (VInt 24)) = (true, []).
Proof.
  apply (validate_data_int_year (sample_record (VInt 24)) 24);
    [reflexivity | lia | reflexivity | reflexivity].
Defined.

End CleanerFacts.

Section LoaderFacts.
Import ImportData.

Lemma drop_duplicates_go_count (seen : list (Z * list N * option Z * list N * option Z * option Z))
    (rows : list score_row) k :
  length (List.filter (fun r => bool_decide (dedup_key r = k))
            (drop_duplicates_go seen rows)) =
  if bool_decide (k ∈ seen) then 0%nat
  else if bool_decide (k ∈ List.map dedup_key rows) then 1%nat else 0%nat.
Proof.
  revert seen. induction rows as [|r t IH]; intros seen.
  - simpl. repeat case_bool_decide; try reflexivity;
      exfalso; eapply not_elem_of_nil; eauto.
  - cbn [drop_duplicates_go List.map].
    destruct (decide (dedup_key r ∈ seen)) as [S|S].
    + rewrite (bool_decide_eq_true_2 _ S), IH.
      destruct (decide (k ∈ seen)) as [K|K];
        [rewrite !(bool_decide_eq_true_2 _ K); reflexivity|].
      rewrite !(bool_decide_eq_false_2 _ K).
      apply (f_equal (fun b : bool => if b then 1%nat else 0%nat)).
      apply bool_decide_ext. rewrite elem_of_cons.
      split; [tauto|]. intros [->|?]; [contradiction|assumption].
    + rewrite (bool_decide_eq_false_2 _ S). cbn [List.filter].
      destruct (decide (dedup_key r = k)) as [K|K].
      * rewrite (bool_decide_eq_true_2 _ K). cbn [length]. rewrite IH. subst k.
        rewrite (bool_decide_eq_true_2 _ (list_elem_of_here _ _)).
        rewrite (bool_decide_eq_false_2 _ S).
        rewrite (bool_decide_eq_true_2 _ (list_elem_of_here _ _)).
        reflexivity.
      * rewrite (bool_decide_eq_false_2 _ K), IH.
        rewrite (bool_decide_ext (k ∈ dedup_key r :: seen) (k ∈ seen))
          by (rewrite elem_of_cons; split; [intros [->|?]|]; tauto).
        rewrite (bool_decide_ext (k ∈ dedup_key r :: List.map dedup_key t)
                   (k ∈ List.map dedup_key t))
          by (rewrite elem_of_cons; split; [intros [->|?]|]; tauto).
        reflexivity.
Qed.

(** C4. After the deduplication of [import_admission_scores] on
    (全国统一招生代码, PROVINCE, ADMISSION_YEAR, MAJOR_NAME, MIN_SCORE,
    MIN_RANK), the rows holding a given key are exactly one when the key
    occurs among the rows that survive [dropna], and none otherwise. *)
Theorem dedup_one_row_per_key (rows : list score_row) k :
  length (List.filter (fun r => bool_decide (dedup_key r = k))
            (dedup_stage rows)) =
  if bool_decide (k ∈ List.map dedup_key (dropna rows)) then 1%nat else 0%nat.
Proof.
  unfold dedup_stage, drop_duplicates. rewrite drop_duplicates_go_count.
  case_bool_decide as H; [|reflexivity].
  exfalso. eapply not_elem_of_nil; eauto.
Qed.

End LoaderFacts.

Section ShortenFacts.
Import ImportData.

Lemma paren_table_not_fullwidth (c : N) :
  paren_table c <> chr "（" /\ paren_table c <> chr "）".
Proof.
  unfold paren_table.
  change (chr "（") with 65288%N. change (chr "）") with 65289%N.
  change (chr "(") with 40%N. change (chr ")") with 41%N.
  change (chr "　") with 12288%N. change (chr " ") with 32%N.
  destruct (N.eqb_spec c 65288); [split; discriminate|].
  destruct (N.eqb_spec c 65289); [split; discriminate|].
  destruct (N.eqb_spec c 12288); [split; discriminate|].
  split; assumption.
Qed.

Lemma sanitize_text_no_fullwidth (value : option (list N)) (s : list N) :
  sanitize_text value None = Some s -> no_fullwidth_paren s.
Proof.
  unfold sanitize_text. destruct value as [v|]; [|discriminate].
  destruct (is_empty (strip v)); [discriminate|].
  intros [= <-]. apply List.Forall_forall. intros c Hc.
  apply in_map_iff in Hc. destruct Hc as (x & <- & _).
  apply paren_table_not_fullwidth.
Qed.

Lemma count_fullwidth_zero (s : list N) :
  no_fullwidth_paren s ->
  count (u "（") s = 0%nat /\ count (u "）") s = 0%nat.
Proof.
  intros H. unfold count.
  change (u "（") with [65288%N]. change (u "）") with [65289%N].
  split; apply count_go_absent; eapply Forall_impl; try exact H;
    intros c [H1 H2]; assumption.
Qed.

(** Once the text is sanitized the two parenthesis counts are both 0, so the
    balancing branches are never taken. *)
Lemma smart_shorten_major_name_eq (value : option (list N)) (max_len : nat) :
  smart_shorten_major_name value max_len =
  match sanitize_text value None with
  | None => None
  | Some s =>
    if (length s <=? max_len)%nat then Some s
    else
      let truncated := firstn max_len s in
      let cut_pos := rfind (u "、") truncated in
      if negb (cut_pos =? -1)%Z
      then Some (rstrip_chars (u "、，,；; ")
                   (firstn (Z.to_nat cut_pos) truncated))
      else Some (rstrip truncated)
  end.
Proof.
  unfold smart_shorten_major_name.
  destruct (sanitize_text value None) as [s|] eqn:E; [|reflexivity].
  apply sanitize_text_no_fullwidth in E.
  destruct (length s <=? max_len)%nat; [reflexivity|].
  cbv zeta.
  destruct (negb (rfind (u "、") (firstn max_len s) =? -1)%Z).
  - destruct (count_fullwidth_zero
                (rstrip_chars (u "、，,；; ")
                   (firstn (Z.to_nat (rfind (u "、") (firstn max_len s)))
                      (firstn max_len s)))) as [-> ->]; [|reflexivity].
    unfold rstrip_chars, no_fullwidth_paren in *. auto with pystr.
  - destruct (count_fullwidth_zero (rstrip (firstn max_len s))) as [-> ->];
      [|reflexivity].
    unfold rstrip, no_fullwidth_paren in *. auto with pystr.
Qed.

(** What holds of C3 for every input: a sanitized text within the limit is
    returned as it is, no result is longer than the limit, and no result
    holds a full-width parenthesis (so none ends with the marker "等）"). *)
Lemma smart_shorten_major_name_bounds (value : option (list N)) (max_len : nat)
    (r : list N) :
  smart_shorten_major_name value max_len = Some r ->
  (length r <= max_len)%nat /\
  no_fullwidth_paren r /\
  (forall s, sanitize_text value None = Some s ->
             (length s <= max_len)%nat -> r = s).
Proof.
  rewrite smart_shorten_major_name_eq.
  destruct (sanitize_text value None) as [s|] eqn:E; [|discriminate].
  apply sanitize_text_no_fullwidth in E.
  destruct (Nat.leb_spec (length s) max_len) as [L|L].
  - intros [= <-]. repeat split; auto. intros s' [= <-] _. reflexivity.
  - cbv zeta.
    destruct (negb (rfind (u "、") (firstn max_len s) =? -1)%Z);
      intros [= <-]; (split; [|split]).
    + etransitivity; [apply rstrip_by_length|].
      rewrite !length_take. lia.
    + unfold rstrip_chars, no_fullwidth_paren in *. auto with pystr.
    + intros s' [= <-] L'. lia.
    + etransitivity; [apply rstrip_by_length|]. rewrite length_take. lia.
    + unfold rstrip, no_fullwidth_paren in *. auto with pystr.
    + intros s' [= <-] L'. lia.
Qed.

(** C3, at a major name of 230 characters that opens a full-width
    parenthesis and has "、" at index 200: the text is cut before that
    separator, the parenthesis it opened stays open, and no closing marker
    "等）" (nor "等)") is appended. *)
Theorem smart_shorten_major_name_long_major :
  length long_major = 230%nat /\
  nth_error long_major 200 = Some (chr "、") /\
  smart_shorten_major_name (Some long_major) MAX_LEN_MAJOR_NAME
    = Some (u "(" ++ repeat (chr "甲") 199) /\
  count (u "(") (u "(" ++ repeat (chr "甲") 199) = 1%nat /\
  count (u ")") (u "(" ++ repeat (chr "甲") 199) = 0%nat /\
  endswith (u "等）") (u "(" ++ repeat (chr "甲") 199) = false /\
  endswith (u "等)") (u "(" ++ repeat (chr "甲") 199) = false.
Proof. repeat split; vm_compute; reflexivity. Qed.

End ShortenFacts.




Section MatcherFacts.
Import Re.

(** A repetition that succeeds has passed over characters of its set and
    then run its continuation. *)
Lemma rep_greedy_calls (cs : cset) (rest : list N) :
  forall min pos k res,
    rep_greedy cs min pos rest k = Some res ->
    exists n, k (pos + n)%nat (skipn n rest) = Some res
              /\ Forall (fun c => cset_mem cs c = true) (firstn n rest).
Proof.
  induction rest as [|c t IH]; intros min pos k res H; cbn [rep_greedy] in H.
  - exists 0%nat. rewrite Nat.add_0_r. destruct min; [|discriminate].
    split; [exact H | constructor].
  - destruct (cset_mem cs c) eqn:M.
    + destruct (rep_greedy cs (Init.Nat.pred min) (S pos) t k) as [r|] eqn:R.
      * cbn [orelse] in H. injection H as <-.
        destruct (IH _ _ _ _ R) as (n & Hk & Hf).
        exists (S n). rewrite Nat.add_succ_r. cbn [skipn firstn].
        split; [exact Hk | constructor; assumption].
      * cbn [orelse] in H. destruct min; [|discriminate].
        exists 0%nat. rewrite Nat.add_0_r. split; [exact H | constructor].
    + destruct min; [|discriminate].
      exists 0%nat. rewrite Nat.add_0_r. split; [exact H | constructor].
Qed.

Lemma rep_lazy_calls (cs : cset) (rest : list N) :
  forall min pos k res,
    rep_lazy cs min pos rest k = Some res ->
    exists n, k (pos + n)%nat (skipn n rest) = Some res
              /\ Forall (fun c => cset_mem cs c = true) (firstn n rest).
Proof.
  induction rest as [|c t IH]; intros min pos k res H.
  - destruct min; cbn in H; [|discriminate].
    destruct (k pos []) eqn:K; [|discriminate].
    exists 0%nat. rewrite Nat.add_0_r. cbn. rewrite K.
    split; [exact H | constructor].
  - assert (forall m, rep_lazy cs m (S pos) t k = Some res ->
                      cset_mem cs c = true ->
                      exists n, k (pos + n)%nat (skipn n (c :: t)) = Some res
                                /\ Forall (fun c => cset_mem cs c = true)
                                     (firstn n (c :: t))) as Step.
    { intros m R M. destruct (IH _ _ _ _ R) as (n & Hk & Hf).
      exists (S n). rewrite Nat.add_succ_r. cbn [skipn firstn].
      split; [exact Hk | constructor; assumption]. }
    destruct min as [|min']; cbn [rep_lazy] in H.
    + destruct (k pos (c :: t)) as [r|] eqn:K; cbn [orelse] in H.
      * injection H as <-. exists 0%nat. rewrite Nat.add_0_r.
        split; [exact K | constructor].
      * destruct (cset_mem cs c) eqn:M; [|discriminate]. eapply Step; eauto.
    + destruct (cset_mem cs c) eqn:M; [|discriminate]. eapply Step; eauto.
Qed.

(** A match that succeeds has run its continuation, on a state whose
    groups are those of the start but for the groups of the expression. *)
Lemma rmatch_calls (r : regex) :
  forall st k res,
    rmatch r st k = Some res ->
    exists st', k st' = Some res
                /\ forall n, has_group n r = false ->
                     lookup_group n (ms_groups st') = lookup_group n (ms_groups st).
Proof.
  induction r as [s|cs|greedy min cs|r1 IH1 r2 IH2|r1 IH1 r2 IH2|r' IH
                  |i r' IH|r' IH|]; intros st k res H; cbn [rmatch] in H.
  - destruct (startswith s (ms_rest st)); [|discriminate]. eauto.
  - destruct (ms_rest st) as [|c t]; [discriminate|].
    destruct (cset_mem cs c); [|discriminate]. eauto.
  - destruct greedy.
    + apply rep_greedy_calls in H. destruct H as (n & Hk & _). eauto.
    + apply rep_lazy_calls in H. destruct H as (n & Hk & _). eauto.
  - apply IH1 in H. destruct H as (st1 & H & G1).
    apply IH2 in H. destruct H as (st2 & H & G2).
    exists st2. split; [exact H|]. intros n Hn. cbn in Hn.
    apply orb_false_elim in Hn. destruct Hn.
    rewrite G2, G1 by assumption. reflexivity.
  - destruct (rmatch r1 st k) as [x|] eqn:R1; cbn [orelse] in H.
    + injection H as <-. apply IH1 in R1. destruct R1 as (st1 & Hk & G).
      exists st1. split; [exact Hk|]. intros n Hn. cbn in Hn.
      apply orb_false_elim in Hn. destruct Hn. auto.
    + apply IH2 in H. destruct H as (st2 & Hk & G).
      exists st2. split; [exact Hk|]. intros n Hn. cbn in Hn.
      apply orb_false_elim in Hn. destruct Hn. auto.
  - destruct (rmatch r' st k) as [x|] eqn:R1; cbn [orelse] in H.
    + injection H as <-. apply IH in R1. exact R1.
    + eauto.
  - apply IH in H. destruct H as (st1 & Hk & G).
    eexists. split; [exact Hk|]. intros n Hn. cbn in Hn.
    apply orb_false_elim in Hn. destruct Hn as [Hi Hn].
    cbn [ms_groups lookup_group]. rewrite Hi. auto.
  - destruct (rmatch r' st Some) as [st1|] eqn:R1; [|discriminate].
    apply IH in R1. destruct R1 as (st2 & [= ->] & G).
    eexists. split; [exact H|]. intros n Hn. cbn [ms_groups]. auto.
  - destruct (at_end (ms_rest st)); [|discriminate]. eauto.
Qed.

Lemma has_group_ralt_lits (n : nat) (l : list (list N)) :
  has_group n (ralt_lits l) = false.
Proof.
  unfold ralt_lits. induction l as [|a [|b t] IH]; try reflexivity.
  cbn [List.map ralt has_group orb] in *. exact IH.
Qed.

Lemma rmatch_seq_calls (r1 r2 : regex) (st : mstate)
    (k : mstate -> option mstate) (res : mstate) :
  rmatch (RSeq r1 r2) st k = Some res ->
  exists st1, rmatch r2 st1 k = Some res.
Proof.
  cbn [rmatch]. intros H. apply rmatch_calls in H.
  destruct H as (st1 & H & _). eauto.
Qed.

(** A lazy group followed by a lookahead that has not the group: the
    group holds characters of its set. *)
Lemma group_then_look (n : nat) (cs : cset) (look : regex) (st res : mstate) :
  has_group n look = false ->
  rmatch (RSeq (RGroup n (RRep false 1 cs)) (RLook look)) st Some = Some res ->
  Forall (fun c => cset_mem cs c = true) (lookup_group n (ms_groups res)).
Proof.
  intros HL H. cbn [rmatch] in H. apply rep_lazy_calls in H.
  destruct H as (len & H & F). cbn [ms_pos ms_rest ms_groups] in H.
  destruct (rmatch look _ Some) as [st4|] eqn:L in H; [|discriminate].
  injection H as <-. cbn [ms_groups].
  apply rmatch_calls in L. destruct L as (st5 & [= ->] & G).
  rewrite (G n HL). cbn [ms_groups lookup_group]. rewrite Nat.eqb_refl.
  replace (ms_pos st + len - ms_pos st)%nat with len by lia.
  exact F.
Qed.

(** Group 2 of [province_pattern], the data part of a province, never
    holds a full-width semicolon. *)
Lemma province_pattern_data_part (ps : list (list N)) (st res : mstate) :
  rmatch (province_pattern ps) st Some = Some res ->
  Forall (fun c => c <> chr "；") (lookup_group 2 (ms_groups res)).
Proof.
  unfold province_pattern. cbn [rseq]. intros H.
  apply rmatch_seq_calls in H. destruct H as (st1 & H).
  apply rmatch_seq_calls in H. destruct H as (st2 & H).
  apply rmatch_seq_calls in H. destruct H as (st3 & H).
  apply group_then_look in H.
  - eapply Forall_impl; [exact H|]. intros c M E. subst c.
    vm_compute in M. discriminate M.
  - cbn [has_group Nat.eqb orb]. rewrite has_group_ralt_lits. reflexivity.
Qed.

Lemma finditer_go_match (r : regex) (s : list N) :
  forall skip pos m,
    In m (finditer_go r skip pos s) ->
    exists pos' s', match_at r pos' s' = Some m.
Proof.
  induction s as [|c t IH]; intros skip pos m H;
    cbn [finditer_go] in H; destruct skip as [|k].
  - destruct (match_at r pos []) as [m'|] eqn:M; [|contradiction].
    destruct H as [<-|[]]. eauto.
  - contradiction.
  - destruct (match_at r pos (c :: t)) as [m'|] eqn:M.
    + destruct H as [<-|H]; [eauto | eapply IH; eauto].
    + eapply IH; eauto.
  - eapply IH; eauto.
Qed.

Lemma finditer_province_data_part (ps : list (list N)) (text : list N)
    (m : rematch) :
  In m (finditer (province_pattern ps) text) ->
  Forall (fun c => c <> chr "；") (group 2 m).
Proof.
  intros H. apply finditer_go_match in H. destruct H as (pos & s & H).
  unfold match_at in H.
  destruct (rmatch _ _ Some) as [st|] eqn:R; [|discriminate].
  injection H as <-. unfold group. cbn [m_groups].
  eapply province_pattern_data_part; eauto.
Qed.

End MatcherFacts.

Section ParagraphFacts.

(** Neither format matches the paragraph of the scenario, whatever the
    batch and the hint: [[^；；]+?] cannot pass the full-width semicolon
    that follows the first item, and the lookahead holds only before a
    province or at the end of the text. *)
Lemma tsinghua_scenario_records (year : Z) (batch hint : list N) :
  Tsinghua.paragraph_records year batch hint (p_text Tsinghua.scenario)
  = ([], []).
Proof.
  unfold Tsinghua.paragraph_records, Tsinghua.format2_records.
  replace (Re.sub Re.decimal_pattern (Re.group 1) (p_text Tsinghua.scenario))
    with (p_text Tsinghua.scenario) by (vm_compute; reflexivity).
  replace (Tsinghua.format1_matches (p_text Tsinghua.scenario))
    with (@nil Re.rematch) by (vm_compute; reflexivity).
  replace (Re.findall2 (Re.province_score_pattern provinces)
             (p_text Tsinghua.scenario))
    with (@nil (list N * list N)) by (vm_compute; reflexivity).
  reflexivity.
Qed.

Lemma tsinghua_scenario_step (year : Z) (st : Tsinghua.pstate) :
  Tsinghua.admission_list (Tsinghua.paragraph_step year st Tsinghua.scenario)
  = Tsinghua.admission_list st.
Proof.
  unfold Tsinghua.paragraph_step.
  change (is_empty (p_text Tsinghua.scenario)) with false.
  change (p_strong Tsinghua.scenario) with (@None (list N)).
  cbv iota. rewrite tsinghua_scenario_records. cbn.
  apply app_nil_r.
Qed.

(** C1. For year 2024 the paragraph "北京：理科 680分；文科 650分；" gives no
    record at all, alone or after any other paragraphs (whatever batch
    title came before, such as 【本科一批录取分数线】); the two records of the
    scenario (北京, 理工, 680 and 北京, 文史, 650, with the batch of the
    last title) come out only when the items are separated by half-width
    semicolons. *)
Theorem tsinghua_scenario_no_record :
  Tsinghua._parse_paragraph_format [Tsinghua.scenario] 2024 = []
  /\ (forall before,
        Tsinghua._parse_paragraph_format (before ++ [Tsinghua.scenario]) 2024
        = Tsinghua._parse_paragraph_format before 2024)
  /\ Tsinghua._parse_paragraph_format [Tsinghua.title; Tsinghua.scenario] 2024
     = []
  /\ List.map (fun i => (生源地 i, 科类 i, 最低分 i, 批次 i))
       (Tsinghua._parse_paragraph_format
          [Tsinghua.title; Tsinghua.scenario_halfwidth] 2024)
     = [ (u "北京", u "理工", u "680", u "本科一批");
         (u "北京", u "文史", u "650", u "本科一批") ].
Proof.
  split; [vm_compute; reflexivity|].
  split; [|split; vm_compute; reflexivity].
  intros before. unfold Tsinghua._parse_paragraph_format.
  rewrite fold_left_app. cbn [fold_left].
  apply tsinghua_scenario_step.
Qed.

(** Format 1 never hands over a data part with a full-width semicolon, in
    either adapter: items separated by "；" are out of its reach. *)
Lemma format1_data_part (text : list N) (m : Re.rematch) :
  In m (Tsinghua.format1_matches text) \/ In m (HUST.format1_matches text) ->
  Forall (fun c => c <> chr "；") (Re.group 2 m).
Proof.
  unfold Tsinghua.format1_matches, HUST.format1_matches.
  destruct (contains (u "；") text || contains (u ";") text).
  - intros [H|H]; eapply finditer_province_data_part; eauto.
  - intros [[]|[]].
Qed.

(** In the Tsinghua adapter format 2 is run only when [province_pattern]
    matched nowhere, hence only when format 1 gave no item and no
    record. *)
Lemma tsinghua_formats_exclusive (year : Z) (batch hint text : list N) :
  snd (Tsinghua.paragraph_records year batch hint text) <> [] ->
  Tsinghua.format1_matches (Re.sub Re.decimal_pattern (Re.group 1) text) = []
  /\ fst (Tsinghua.paragraph_records year batch hint text) = [].
Proof.
  unfold Tsinghua.paragraph_records. cbn [fst snd].
  destruct (decide (Tsinghua.format1_matches
                      (Re.sub Re.decimal_pattern (Re.group 1) text) = []))
    as [E|E].
  - intros _. rewrite E. split; reflexivity.
  - rewrite (bool_decide_eq_false_2 _ E). cbn. intros H. contradiction.
Qed.

(** C2, at the paragraph "北京： 680分;" in the HUST adapter: format 1
    yields one item, hence a record for 北京 with score 680 (and an empty
    专业), and format 2 is applied all the same and yields a second record
    for 北京 with score 680 (专业 NA); the Tsinghua adapter gives a single
    record there. *)
Theorem hust_formats_both_applied :
  List.map HUST.format1_items (HUST.format1_matches (p_text HUST.one_score))
    = [[(u " ", u "680")]]
  /\ List.map (fun i => (生源地 i, 最低分 i, 专业 i))
       (fst (HUST.paragraph_records 2024 (u "本科一批") (p_text HUST.one_score)))
     = [(u "北京", u "680", u "")]
  /\ List.map (fun i => (生源地 i, 最低分 i, 专业 i))
       (snd (HUST.paragraph_records 2024 (u "本科一批") (p_text HUST.one_score)))
     = [(u "北京", u "680", u "NA")]
  /\ List.map (fun i => (生源地 i, 最低分 i, 专业 i))
       (HUST._parse_paragraph_format [HUST.one_score] 2024)
     = [(u "北京", u "680", u ""); (u "北京", u "680", u "NA")]
  /\ List.map (fun i => (生源地 i, 最低分 i, 专业 i))
       (Tsinghua._parse_paragraph_format [HUST.one_score] 2024)
     = [(u "北京", u "680", u "NA")].
Proof. repeat split; vm_compute; reflexivity. Qed.

End ParagraphFacts.

Section NankaiFacts.
Import Nankai.

(** The first request of the two functions. *)
Lemma get_admission_data_retry (server : list request -> request -> option response)
    (params : list (list N * list N)) (c : crawler) (r1 : response) :
  let token := if tok_truthy (csrf_token c) then csrf_token c else None in
  let req1 := {| url := ajax_lnfs; h_Csrf_Token := token;
                 h_X_Csrf_Token := None; form := Some params |} in
  let new_token := header_or (Csrf_Token r1) (X_Csrf_Token r1) in
  let req2 := {| url := ajax_lnfs; h_Csrf_Token := new_token;
                 h_X_Csrf_Token := None; form := Some params |} in
  server (sent c) req1 = Some r1 ->
  status_code r1 = 403%Z ->
  tok_truthy new_token = true ->
  get_admission_data server params c =
    (match server (sent c ++ [req1]) req2 with
     | Some r2 => match finish r2 with Ok v => v | Raise _ => None end
     | None => None
     end,
     {| csrf_token := new_token; sent := (sent c ++ [req1]) ++ [req2] |}).
Proof.
  intros token req1 new_token req2 H1 H403 Htok.
  unfold get_admission_data, get_admission_data_try, post.
  fold token. fold req1. rewrite H1. cbn [csrf_token sent].
  fold new_token. rewrite Htok, H403. cbn [Z.eqb Pos.eqb andb set_token csrf_token sent].
  fold req2.
  destruct (server (sent c ++ [req1]) req2) as [r2|]; [|reflexivity].
  destruct (finish r2); reflexivity.
Qed.

Lemma get_filter_params_sent (server : list request -> request -> option response)
    (c : crawler) :
  sent (snd (get_filter_params server c)) =
  sent c ++ [{| url := ajax_lnfs_param;
                h_Csrf_Token := if tok_truthy (csrf_token c)
                                then csrf_token c else None;
                h_X_Csrf_Token := None; form := None |}].
Proof.
  unfold get_filter_params, get_filter_params_try, post.
  destruct (server _ _) as [r|]; [|reflexivity].
  cbn [csrf_token sent].
  destruct (negb (tok_truthy (csrf_token c))
            && tok_truthy (header_or (Csrf_Token r) (X_Csrf_Token r)));
  destruct ((status_code r =? 403)%Z
            && tok_truthy (header_or (Csrf_Token r) (X_Csrf_Token r)));
  try reflexivity; destruct (finish r); reflexivity.
Qed.

(** C5. [get_filter_params] sends one request and no more, whatever the
    site answers.  Against a site that answers 403 with a fresh token and
    accepts that token, it reads the token, sends nothing again and returns
    [None]; [get_admission_data] there sends the request a second time with
    the fresh token and returns the data. *)
Theorem get_filter_params_never_retries :
  (forall server c,
     length (sent (snd (get_filter_params server c))) = S (length (sent c)))
  /\ get_filter_params refreshing_server stale
     = (None,
        {| csrf_token := Some fresh;
           sent := [ {| url := ajax_lnfs_param;
                        h_Csrf_Token := Some (u "stale-token");
                        h_X_Csrf_Token := None; form := None |} ] |})
  /\ get_admission_data refreshing_server [] stale
     = (Some empty_payload,
        {| csrf_token := Some fresh;
           sent := [ {| url := ajax_lnfs;
                        h_Csrf_Token := Some (u "stale-token");
                        h_X_Csrf_Token := None; form := Some [] |};
                     {| url := ajax_lnfs; h_Csrf_Token := Some fresh;
                        h_X_Csrf_Token := None; form := Some [] |} ] |}).
Proof.
  split; [|split; vm_compute; reflexivity].
  intros server c. rewrite get_filter_params_sent, length_app. simpl. lia.
Qed.

End NankaiFacts.

Section RoundingFacts.
Import ImportData.

Lemma magnitude_pos (m : positive) (e : Z) :
  (0 < fst (magnitude m e) /\ 0 < snd (magnitude m e))%Z.
Proof.
  unfold magnitude. destruct (Z.leb_spec 0 e) as [H|H]; cbn [fst snd].
  - split; [|lia]. apply Z.mul_pos_pos; [lia|]. apply Z.pow_pos_nonneg; lia.
  - split; [lia|]. apply Z.pow_pos_nonneg; lia.
Qed.

Lemma round_half_even_nearest (n d : Z) :
  (0 < d)%Z ->
  let q := round_half_even n d in
  (Z.abs (2 * (n - q * d)) <= d
   /\ (Z.abs (2 * (n - q * d)) < d \/ Z.even q = true))%Z.
Proof.
  intros Hd. unfold round_half_even.
  pose proof (Z.div_mod n d ltac:(lia)) as E.
  pose proof (Z.mod_pos_bound n d Hd) as B.
  set (k := (n / d)%Z) in *. set (r := (n mod d)%Z) in *.
  destruct (Z.compare_spec (2 * r) d) as [C|C|C]; cbv zeta.
  - destruct (Z.even k) eqn:Ev.
    + split; [nia|right; exact Ev].
    + split; [nia|right]. rewrite Z.even_add, Ev. reflexivity.
  - split; [nia|left; nia].
  - split; [nia|left; nia].
Qed.

(** C6, as the claim has it for the loader, fails: the binary64 number
    650.7 has integer part 650 and [to_int_safe] gives 651. *)
Lemma to_int_safe_does_not_truncate :
  ~ (forall (float_of_str : list N -> option spec_float) x n,
       int_of_float x = Ok n ->
       to_int_safe float_of_str (CFloat x) None = Some n).
Proof.
  intros H.
  specialize (H (fun _ => None) f650_7 650%Z eq_refl).
  vm_compute in H. discriminate H.
Qed.

(** C6, amended.  For a finite float [±n/d]: the adapters' coercion
    [str(int(minScore))] gives the integer part [q], [q·d <= n < (q+1)·d],
    with the sign of the number (it drops the fraction); [to_int_safe], the
    loader's conversion of 最低分 to MIN_SCORE, gives the nearest integer
    [q], [|2·(n - q·d)| <= d], a tie going to the even one.  The number
    650.7 becomes "650" in the adapters and 651 in the loader; the
    paragraph adapters cut the decimals off in the text ("690.139分"
    becomes "690分"). *)
Theorem score_coercions (float_of_str : list N -> option spec_float)
    (sign : bool) (m : positive) (e : Z) (dflt : option Z) :
  let x := S754_finite sign m e in
  let n := fst (magnitude m e) in
  let d := snd (magnitude m e) in
  (exists q, Nankai.parse_batch_data [{[ u "minScore" := SFloat x ]}] []
             = Ok [ {| Api.科类 := SStr (u "NA"); Api.批次 := u "普通批";
                       Api.专业 := SStr (u "NA");
                       Api.最低分 := str_of_Z (cond_neg sign q);
                       Api.最低分排名 := u "NA";
                       Api.招生类型 := SStr (u "普通类");
                       Api.生源地 := SStr (u "NA") |} ]
             /\ (q * d <= n < (q + 1) * d)%Z)
  /\ (exists q, to_int_safe float_of_str (CFloat x) dflt
                = Some (cond_neg sign q)
                /\ (Z.abs (2 * (n - q * d)) <= d)%Z
                /\ ((Z.abs (2 * (n - q * d)) < d)%Z \/ Z.even q = true))
  /\ Api.number_text (SFloat f650_7) = Ok (u "650")
  /\ Re.sub Re.decimal_pattern (Re.group 1) (u "690.139分") = u "690分"
  /\ BIT.parse_batch_data = Nankai.parse_batch_data
  /\ to_int_safe float_of_str (CFloat f650_7) dflt = Some 651%Z.
Proof.
  intros x n d. subst x n d.
  destruct (magnitude_pos m e) as [Hn Hd].
  split; [|split; [|split; [|split; [|split]]]]; try reflexivity.
  - exists (fst (magnitude m e) / snd (magnitude m e))%Z. split.
    + unfold Nankai.parse_batch_data, Api.parse_batch_data, Api.batch_record.
      unfold get_default, get.
      rewrite lookup_singleton_eq.
      rewrite !lookup_singleton_ne by (vm_compute; discriminate).
      cbn [default from_option id truthy is_empty negb].
      unfold Api.number_text at 1. unfold int_of_float.
      destruct (magnitude m e) as [n d]. reflexivity.
    + pose proof (Z.div_mod (fst (magnitude m e)) (snd (magnitude m e))
                    ltac:(lia)) as E.
      pose proof (Z.mod_pos_bound (fst (magnitude m e)) (snd (magnitude m e)) Hd).
      nia.
  - exists (round_half_even (fst (magnitude m e)) (snd (magnitude m e))).
    split.
    + unfold to_int_safe. cbn [isna float_of_cell round_float].
      destruct (magnitude m e) as [n d]. reflexivity.
    + apply round_half_even_nearest, Hd.
Qed.

End RoundingFacts.

Section ProvinceFacts.

(** The suffix clean-up leaves no 省 and no 市. *)
Lemma strip_suffixes_lacks (name : list N) :
  Forall (fun c => c <> chr "省" /\ c <> chr "市") (strip_suffixes name).
Proof.
  unfold strip_suffixes.
  apply strip_Forall.
  change (u "特别行政区") with (chr "特" :: u "别行政区").
  change (u "自治区") with (chr "自" :: u "治区").
  do 2 apply replace_delete_Forall.
  change (u "市") with [chr "市"]. change (u "省") with [chr "省"].
  pose proof (replace_single_lacks (chr "省") name) as H1.
  pose proof (replace_single_lacks (chr "市")
                (replace [chr "省"] [] name)) as H2.
  pose proof (replace_delete_Forall (fun c => c <> chr "省") (chr "市") []
                _ H1) as H3.
  apply List.Forall_forall. intros c Hc. split.
  - exact (proj1 (List.Forall_forall _ _) H3 c Hc).
  - exact (proj1 (List.Forall_forall _ _) H2 c Hc).
Qed.

(** The clean-up of the HUST adapter leaves no 省, no 市 and no （. *)
Lemma hust_clean_province_lacks (name : list N) :
  Forall (fun c => c <> chr "省" /\ c <> chr "市" /\ c <> chr "（")
    (HUST.clean_province name).
Proof.
  unfold HUST.clean_province.
  pose proof (strip_suffixes_lacks name) as H0.
  set (p0 := strip_suffixes name) in *.
  assert (Forall (fun c => c <> chr "省" /\ c <> chr "市" /\ c <> chr "（")
            (if contains (u "（") p0 then split_head (u "（") p0 else p0))
    as H1.
  { change (u "（") with [chr "（"].
    destruct (contains [chr "（"] p0) eqn:C.
    - pose proof (split_head_single_lacks (chr "（") p0) as A.
      pose proof (split_head_Forall _ [chr "（"] p0 H0) as B.
      apply List.Forall_forall. intros c Hc.
      destruct (proj1 (List.Forall_forall _ _) B c Hc) as [X1 X2].
      pose proof (proj1 (List.Forall_forall _ _) A c Hc) as X3.
      cbv beta in X3. repeat split; assumption.
    - apply contains_single_false in C.
      apply List.Forall_forall. intros c Hc.
      destruct (proj1 (List.Forall_forall _ _) H0 c Hc) as [X1 X2].
      pose proof (proj1 (List.Forall_forall _ _) C c Hc) as X3.
      cbv beta in X3. repeat split; assumption. }
  cbv zeta.
  set (p1 := if contains (u "（") p0 then split_head (u "（") p0 else p0) in *.
  destruct (contains (u "汉族") p1 || contains (u "少数民族") p1); [|exact H1].
  apply strip_Forall.
  change (u "（少数民族）") with (chr "（" :: u "少数民族）").
  change (u "（汉族）") with (chr "（" :: u "汉族）").
  do 2 apply replace_delete_Forall. exact H1.
Qed.

Lemma hust_create_province (year : Z) (p c s b mj r : list N) :
  List.map 生源地 (opt_list (HUST._create_admission_info year p c s b mj r))
  = if is_empty (HUST.clean_province p) || is_empty s then []
    else [HUST.clean_province p].
Proof.
  unfold HUST._create_admission_info. cbv zeta.
  destruct (is_empty (HUST.clean_province p) || is_empty s); reflexivity.
Qed.

Lemma tsinghua_create_province (year : Z) (p c s b : list N) :
  List.map 生源地 (opt_list (Tsinghua._create_admission_info year p c s b))
  = if is_empty (strip_suffixes p) || is_empty s then []
    else [strip_suffixes p].
Proof.
  unfold Tsinghua._create_admission_info. cbv zeta.
  destruct (is_empty (strip_suffixes p) || is_empty s); [reflexivity|].
  match goal with
  | |- context [match ?x with (_, _) => _ end] => destruct x as [[? ?] ?]
  end.
  reflexivity.
Qed.

Lemma pku_row_province (year : Z) (headers cells : list (list N)) :
  Forall (fun i => exists raw, 生源地 i = strip_suffixes raw)
    (PKU.row_records year headers cells).
Proof.
  unfold PKU.row_records.
  destruct (length cells <? 2)%nat; [constructor|]. cbv zeta.
  set (r := match headers with
            | [] => PKU.by_position cells
            | _ => PKU.by_headers headers cells PKU.empty_row
            end).
  assert (forall sc ct,
            Forall (fun i => exists raw, 生源地 i = strip_suffixes raw)
              (match (if negb (is_empty sc) then PKU.clean_score sc else None) with
               | Some score =>
                 opt_list (PKU._create_admission_info year
                             (strip_suffixes (PKU.province r))
                             (PKU.category r) score (u "本科一批") ct)
               | None => []
               end)) as H.
  { intros sc ct.
    destruct (if negb (is_empty sc) then PKU.clean_score sc else None);
      [|constructor].
    unfold PKU._create_admission_info.
    destruct (is_empty (strip_suffixes (PKU.province r)) || is_empty l);
      [constructor|].
    constructor; [|constructor]. exists (PKU.province r). reflexivity. }
  repeat apply Forall_app_2; apply H.
Qed.

(** C7, as the claim has it for every adapter, fails: the Nankai adapter
    stores the 生源地 of an item whose ssmc is 河北省 as 河北省, and the PKU
    adapter keeps the qualifier of 新疆（少数民族）. *)
Lemma province_not_cleaned_everywhere :
  Nankai.parse_batch_data [{[ u "ssmc" := SStr (u "河北省") ]}] (u "河北")
  = Ok [ {| Api.科类 := SStr (u "NA"); Api.批次 := u "普通批";
            Api.专业 := SStr (u "NA"); Api.最低分 := u "NA";
            Api.最低分排名 := u "NA"; Api.招生类型 := SStr (u "普通类");
            Api.生源地 := SStr (u "河北省") |} ]
  /\ List.map 生源地
       (PKU.row_records 2024 [u "省份"; u "类别"; u "文科"; u "理科"]
          [u "新疆（少数民族）"; u "-"; u "650"; u "680"])
     = [u "新疆（少数民族）"; u "新疆（少数民族）"]
  /\ ~ (forall item province l r s,
          Nankai.parse_batch_data [item] province = Ok l ->
          In r l -> Api.生源地 r = SStr s ->
          endswith (u "省") s = false).
Proof.
  split; [vm_compute; reflexivity|]. split; [vm_compute; reflexivity|].
  intros H.
  specialize (H {[ u "ssmc" := SStr (u "河北省") ]} (u "河北") _ _ (u "河北省")
                eq_refl (or_introl eq_refl) eq_refl).
  vm_compute in H. discriminate H.
Qed.

(** C7, amended.  A record of the HUST adapter holds as 生源地 the name
    with every 省 and 市 deleted and cut at the first （ (no such character
    is left): 河北省 gives 河北, 新疆（少数民族） gives 新疆, 西藏自治区
    gives 西藏 and 香港特别行政区 gives 香港.  A record of the PKU or of
    the Tsinghua adapter holds the name without any 省 or 市 (河北省 gives
    河北, 西藏自治区 gives 西藏).  The Nankai and BIT adapters store a
    non-empty ssmc of the item as it is. *)
Theorem province_cleanup (year : Z) (p c s b mj r : list N)
    (headers cells : list (list N)) (item : gmap (list N) scalar)
    (ch : N) (t : list N) :
  Forall (fun i => Forall (fun c => c <> chr "省" /\ c <> chr "市"
                                    /\ c <> chr "（") (生源地 i))
    (opt_list (HUST._create_admission_info year p c s b mj r))
  /\ List.map HUST.clean_province
       [u "河北省"; u "新疆（少数民族）"; u "西藏自治区"; u "香港特别行政区"]
     = [u "河北"; u "新疆"; u "西藏"; u "香港"]
  /\ Forall (fun i => Forall (fun c => c <> chr "省" /\ c <> chr "市") (生源地 i))
       (PKU.row_records year headers cells)
  /\ Forall (fun i => Forall (fun c => c <> chr "省" /\ c <> chr "市") (生源地 i))
       (opt_list (Tsinghua._create_admission_info year p c s b))
  /\ List.map strip_suffixes [u "河北省"; u "西藏自治区"]
     = [u "河北"; u "西藏"]
  /\ match Nankai.parse_batch_data [<[u "ssmc" := SStr (ch :: t)]> item] p with
     | Ok l => List.map Api.生源地 l = [SStr (ch :: t)]
     | Raise _ => True
     end
  /\ BIT.parse_batch_data = Nankai.parse_batch_data.
Proof.
  split; [|split; [vm_compute; reflexivity|split; [|split; [|split;
    [vm_compute; reflexivity|split; [|reflexivity]]]]]].
  - pose proof (hust_create_province year p c s b mj r) as E.
    destruct (HUST._create_admission_info year p c s b mj r) as [i|];
      [|constructor].
    constructor; [|constructor]. cbn in E.
    destruct (is_empty (HUST.clean_province p) || is_empty s);
      [discriminate|].
    injection E as ->. apply hust_clean_province_lacks.
  - eapply Forall_impl; [apply pku_row_province|].
    intros i [raw ->]. apply strip_suffixes_lacks.
  - pose proof (tsinghua_create_province year p c s b) as E.
    destruct (Tsinghua._create_admission_info year p c s b) as [i|];
      [|constructor].
    constructor; [|constructor]. cbn in E.
    destruct (is_empty (strip_suffixes p) || is_empty s); [discriminate|].
    injection E as ->. apply strip_suffixes_lacks.
  - unfold Nankai.parse_batch_data. cbn [Api.parse_batch_data].
    unfold Api.batch_record.
    destruct (Api.number_text _); [|exact I].
    destruct (Api.number_text _); [|exact I].
    cbn [List.map Api.生源地]. unfold get_default.
    rewrite lookup_insert_eq. reflexivity.
Qed.

End ProvinceFacts.

(* ===================================================================== *)
(** * Further properties of the code *)
(* ===================================================================== *)

Section StripFacts.

Lemma lstrip_by_head (p : N -> bool) (s : list N) :
  match lstrip_by p s with
  | [] => True
  | c :: _ => p c = false
  end.
Proof.
  induction s as [|c t IH]; simpl; [exact I|].
  destruct (p c) eqn:E; [exact IH | exact E].
Qed.

Lemma lstrip_by_fix (p : N -> bool) (s : list N) :
  match s with
  | [] => True
  | c :: _ => p c = false
  end ->
  lstrip_by p s = s.
Proof.
  destruct s as [|c t]; simpl; [reflexivity|]. intros ->. reflexivity.
Qed.

Lemma lstrip_by_idem (p : N -> bool) (s : list N) :
  lstrip_by p (lstrip_by p s) = lstrip_by p s.
Proof. apply lstrip_by_fix, lstrip_by_head. Qed.

Lemma rstrip_by_idem (p : N -> bool) (s : list N) :
  rstrip_by p (rstrip_by p s) = rstrip_by p s.
Proof.
  unfold rstrip_by. rewrite rev_involutive, lstrip_by_idem. reflexivity.
Qed.

(** What [rstrip_by] returns is a prefix of the text. *)
Lemma rstrip_by_prefix (p : N -> bool) (s : list N) :
  exists t, s = rstrip_by p s ++ t.
Proof.
  unfold rstrip_by.
  assert (forall l, exists t, l = t ++ lstrip_by p l) as H.
  { induction l as [|c l IH]; [exists []; reflexivity|].
    simpl. destruct (p c); [|exists []; reflexivity].
    destruct IH as [t Ht]. exists (c :: t). simpl. congruence. }
  destruct (H (rev s)) as [t Ht].
  exists (rev t). rewrite <- rev_app_distr, <- Ht, rev_involutive. reflexivity.
Qed.

Lemma rstrip_by_keeps_head (p : N -> bool) (s : list N) :
  match s with
  | [] => True
  | c :: _ => p c = false
  end ->
  match rstrip_by p s with
  | [] => True
  | c :: _ => p c = false
  end.
Proof.
  intros H. destruct (rstrip_by_prefix p s) as [t Ht].
  destruct (rstrip_by p s) as [|c r]; [exact I|].
  rewrite Ht in H. exact H.
Qed.

Lemma strip_idem (s : list N) : strip (strip s) = strip s.
Proof.
  unfold strip.
  rewrite (lstrip_by_fix isspace (rstrip_by isspace (lstrip_by isspace s))).
  - apply rstrip_by_idem.
  - apply rstrip_by_keeps_head, lstrip_by_head.
Qed.

Lemma existsb_lstrip_by (q p : N -> bool) (s : list N) :
  existsb q s = false -> existsb q (lstrip_by p s) = false.
Proof.
  induction s as [|c t IH]; simpl; [reflexivity|].
  intros H. apply orb_false_elim in H. destruct H as [H1 H2].
  destruct (p c); [auto|]. simpl. rewrite H1, H2. reflexivity.
Qed.

Lemma existsb_rev (q : N -> bool) (s : list N) :
  existsb q (rev s) = existsb q s.
Proof.
  induction s as [|c t IH]; [reflexivity|].
  simpl. rewrite existsb_app, IH. simpl.
  rewrite orb_false_r. apply orb_comm.
Qed.

Lemma existsb_strip (q : N -> bool) (s : list N) :
  existsb q s = false -> existsb q (strip s) = false.
Proof.
  intros H. unfold strip, rstrip_by.
  rewrite existsb_rev. apply existsb_lstrip_by.
  rewrite existsb_rev. apply existsb_lstrip_by, H.
Qed.

End StripFacts.

Section CleanerMore.
Import Cleaner.

Lemma filter_idem (p : N -> bool) (s : list N) :
  List.filter p (List.filter p s) = List.filter p s.
Proof.
  induction s as [|c t IH]; [reflexivity|].
  simpl. destruct (p c) eqn:E; [|exact IH]. simpl. rewrite E, IH. reflexivity.
Qed.

Lemma forallb_filter (p : N -> bool) (s : list N) :
  forallb p (List.filter p s) = true.
Proof.
  induction s as [|c t IH]; [reflexivity|].
  simpl. destruct (p c) eqn:E; [|exact IH]. simpl. rewrite E, IH. reflexivity.
Qed.

Lemma existsb_of_forallb (p : N -> bool) (s : list N) :
  s <> [] -> forallb p s = true -> existsb p s = true.
Proof.
  destruct s as [|c t]; [congruence|]. simpl. intros _ H.
  apply andb_prop in H. destruct H as [-> _]. reflexivity.
Qed.

Lemma filter_all (p : N -> bool) (s : list N) :
  forallb p s = true -> List.filter p s = s.
Proof.
  induction s as [|c t IH]; [reflexivity|].
  simpl. intros H. apply andb_prop in H. destruct H as [-> H].
  rewrite (IH H). reflexivity.
Qed.

Lemma clean_score_digits (r : list N) :
  r <> [] -> forallb isdigit r = true -> clean_score (VStr r) = Ok r.
Proof.
  intros NE F. unfold clean_score. cbn [truthy py_str].
  destruct r as [|c t]; [congruence|]. cbn [is_empty negb].
  rewrite filter_is_empty, (existsb_of_forallb _ _ NE F). cbn [negb].
  rewrite (filter_all _ _ F). reflexivity.
Qed.

Lemma clean_score_no_digit (r : list N) :
  existsb isdigit r = false -> strip r = r -> clean_score (VStr r) = Ok r.
Proof.
  intros E S. unfold clean_score. cbn [truthy py_str py_strip].
  destruct r as [|c t]; [reflexivity|]. cbn [is_empty negb].
  rewrite filter_is_empty, E. cbn [negb]. rewrite S. reflexivity.
Qed.

Lemma clean_score_again (s r : list N) :
  clean_score (VStr s) = Ok r ->
  clean_score (VStr r) = Ok r
  /\ (forallb isdigit r = true \/ existsb isdigit r = false).
Proof.
  unfold clean_score at 1. cbn [truthy py_str py_strip].
  destruct (is_empty s) eqn:Es; cbn [negb].
  - intros [= <-]. split; [reflexivity|]. right. reflexivity.
  - rewrite filter_is_empty, negb_involutive.
    destruct (existsb isdigit s) eqn:E.
    + intros [= <-].
      pose proof (filter_is_empty isdigit s) as NE. rewrite E in NE.
      pose proof (forallb_filter isdigit s) as F.
      assert (List.filter isdigit s <> []) as NE'
        by (intros Z; rewrite Z in NE; discriminate).
      rewrite (clean_score_digits _ NE' F). split; [reflexivity|].
      left. exact F.
    + intros [= <-]. apply existsb_strip with (q := isdigit) in E.
      rewrite (clean_score_no_digit _ E (strip_idem _)).
      split; [reflexivity|]. right. exact E.
Qed.

(** The cleaning of a score (or a rank) is idempotent on strings, and its
    result is made of digits only or holds none: cleaning a cleaned value
    changes nothing. *)
Theorem clean_score_idempotent (s r : list N) :
  clean_score (VStr s) = Ok r ->
  clean_score (VStr r) = Ok r
  /\ clean_ranking (VStr r) = Ok r
  /\ (forallb isdigit r = true \/ existsb isdigit r = false).
Proof.
  intros H. destruct (clean_score_again s r H) as [A B].
  split; [exact A|]. split; [exact A | exact B].
Qed.

Lemma clean_score_idempotent_witness :
  clean_score (VStr (u "650")) = Ok (u "650")
  /\ clean_ranking (VStr (u "650")) = Ok (u "650")
  /\ (forallb isdigit (u "650") = true \/ existsb isdigit (u "650") = false).
Proof.
  apply (clean_score_idempotent (u "650分") (u "650")). reflexivity.
Defined.



End CleanerMore.

Section CleanDataFacts.
Import Cleaner.











End CleanDataFacts.

Section DedupFacts.
Import ImportData.

Lemma drop_duplicates_go_In (rows : list score_row) :
  forall seen r, In r (drop_duplicates_go seen rows) ->
                 In r rows /\ dedup_key r ∉ seen.
Proof.
  induction rows as [|a t IH]; intros seen r H; [contradiction|].
  cbn [drop_duplicates_go] in H.
  destruct (decide (dedup_key a ∈ seen)) as [S|S].
  - rewrite (bool_decide_eq_true_2 _ S) in H.
    destruct (IH _ _ H). split; [right|]; assumption.
  - rewrite (bool_decide_eq_false_2 _ S) in H. destruct H as [<-|H].
    + split; [left; reflexivity | exact S].
    + destruct (IH _ _ H) as [I N]. split; [right; exact I|].
      intros E. apply N. right. exact E.
Qed.

Lemma drop_duplicates_go_sublist (rows : list score_row) :
  forall seen, sublist (drop_duplicates_go seen rows) rows.
Proof.
  induction rows as [|a t IH]; intros seen; [constructor|].
  cbn [drop_duplicates_go].
  destruct (bool_decide (dedup_key a ∈ seen)).
  - apply sublist_cons, IH.
  - apply sublist_skip, IH.
Qed.

Lemma drop_duplicates_go_NoDup (rows : list score_row) :
  forall seen, NoDup (List.map dedup_key (drop_duplicates_go seen rows)).
Proof.
  induction rows as [|a t IH]; intros seen; [constructor|].
  cbn [drop_duplicates_go].
  destruct (bool_decide (dedup_key a ∈ seen)); [apply IH|].
  cbn [List.map]. constructor; [|apply IH].
  rewrite list_elem_of_In, in_map_iff. intros (r & E & H).
  apply drop_duplicates_go_In in H. destruct H as [_ H].
  apply H. rewrite E. left.
Qed.

(** A frame without duplicate keys, none of them seen, is left as it is. *)
Lemma drop_duplicates_go_fix (rows : list score_row) :
  forall seen,
    NoDup (List.map dedup_key rows) ->
    (forall r, In r rows -> dedup_key r ∉ seen) ->
    drop_duplicates_go seen rows = rows.
Proof.
  induction rows as [|a t IH]; intros seen ND Fresh; [reflexivity|].
  cbn [drop_duplicates_go].
  rewrite (bool_decide_eq_false_2 _ (Fresh a (or_introl eq_refl))).
  cbn [List.map] in ND. apply NoDup_cons in ND. destruct ND as [Na ND].
  f_equal. apply IH; [exact ND|].
  intros r Hr E. apply elem_of_cons in E. destruct E as [E|E].
  - apply Na. rewrite <- E, list_elem_of_In. apply in_map. exact Hr.
  - apply (Fresh r); [right; exact Hr | exact E].
Qed.

Lemma dropna_In (rows : list score_row) (r : score_row) :
  In r (dropna rows) <->
  In r rows /\ is_Some (ADMISSION_YEAR r) /\ is_Some (MIN_SCORE r).
Proof.
  unfold dropna. rewrite filter_In, andb_true_iff, !bool_decide_eq_true.
  reflexivity.
Qed.

Lemma dropna_fix (rows : list score_row) :
  (forall r, In r rows ->
             is_Some (ADMISSION_YEAR r) /\ is_Some (MIN_SCORE r)) ->
  dropna rows = rows.
Proof.
  unfold dropna. induction rows as [|a t IH]; intros H; [reflexivity|].
  cbn [List.filter]. destruct (H a (or_introl eq_refl)) as [Y S].
  rewrite (bool_decide_eq_true_2 _ Y), (bool_decide_eq_true_2 _ S).
  cbn [andb]. f_equal. apply IH. intros r Hr. apply H. right. exact Hr.
Qed.

(** What the loader keeps of a frame is a sub-sequence of it, in the same
    order, whose rows all have a year and a score and whose keys are all
    different; deduplicating it again changes nothing. *)
Theorem dedup_stage_shape (rows : list score_row) :
  sublist (dedup_stage rows) rows
  /\ Forall (fun r => is_Some (ADMISSION_YEAR r) /\ is_Some (MIN_SCORE r))
       (dedup_stage rows)
  /\ NoDup (List.map dedup_key (dedup_stage rows))
  /\ dedup_stage (dedup_stage rows) = dedup_stage rows.
Proof.
  assert (forall r, In r (dedup_stage rows) ->
                    is_Some (ADMISSION_YEAR r) /\ is_Some (MIN_SCORE r)) as K.
  { intros r H. apply drop_duplicates_go_In in H. destruct H as [H _].
    apply dropna_In in H. tauto. }
  split; [|split; [|split]].
  - unfold dedup_stage, drop_duplicates.
    etransitivity; [apply drop_duplicates_go_sublist|].
    unfold dropna. clear K. induction rows as [|a t IH]; [constructor|].
    cbn [List.filter]. destruct (_ && _);
      [apply sublist_skip | apply sublist_cons]; exact IH.
  - apply List.Forall_forall. exact K.
  - apply drop_duplicates_go_NoDup.
  - unfold dedup_stage at 1. rewrite (dropna_fix _ K).
    apply drop_duplicates_go_fix; [apply drop_duplicates_go_NoDup|].
    intros r _. apply not_elem_of_nil.
Qed.

Lemma insert_tuples_None (rows : list score_row) :
  insert_tuples rows = None <-> exists r, In r rows /\ insert_tuple r = None.
Proof.
  induction rows as [|a t IH]; cbn [insert_tuples].
  - split; [discriminate | intros (r & [] & _)].
  - destruct (insert_tuple a) as [x|] eqn:A.
    + destruct (insert_tuples t) as [l|].
      * split; [discriminate|]. intros (r & [<-|H] & E); [congruence|].
        pose proof (proj2 IH (ex_intro _ r (conj H E))) as X. discriminate X.
      * split; [|reflexivity]. intros _.
        destruct (proj1 IH eq_refl) as (r & H & E). exists r. split;
          [right|]; assumption.
    + split; [|reflexivity]. intros _. exists a. split; [left|]; auto.
Qed.

Lemma insert_tuples_length (rows : list score_row)
    (l : list (Z * list N * list N * list N * Z * Z * Z)) :
  insert_tuples rows = Some l -> length l = length rows.
Proof.
  revert l. induction rows as [|a t IH]; intros l; cbn [insert_tuples].
  - intros [= <-]. reflexivity.
  - destruct (insert_tuple a); [|discriminate].
    destruct (insert_tuples t); [|discriminate].
    intros [= <-]. cbn. f_equal. apply IH. reflexivity.
Qed.

(** The import of a file fails as a whole, and inserts nothing, exactly when
    some row of it has a year and a score but no rank; otherwise it hands
    over one tuple for each row kept by the deduplication. *)
Theorem file_rows_fails_iff (rows : list score_row) :
  (file_rows rows = None <->
   exists r, In r rows /\ is_Some (ADMISSION_YEAR r)
             /\ is_Some (MIN_SCORE r) /\ MIN_RANK r = None)
  /\ match file_rows rows with
     | Some l => length l = length (dedup_stage rows)
     | None => True
     end.
Proof.
  split.
  - unfold file_rows. rewrite insert_tuples_None. split.
    + intros (r & H & E). exists r.
      apply drop_duplicates_go_In in H. destruct H as [H _].
      apply dropna_In in H. destruct H as (H & [y Y] & [sc S]).
      repeat split; eauto. unfold insert_tuple in E. rewrite Y, S in E.
      destruct (MIN_RANK r); [discriminate | reflexivity].
    + intros (r & H & Y & S & R).
      assert (In r (dropna rows)) as D by (apply dropna_In; auto).
      pose proof (drop_duplicates_go_count [] (dropna rows) (dedup_key r))
        as C.
      rewrite bool_decide_eq_false_2 in C by apply not_elem_of_nil.
      rewrite bool_decide_eq_true_2 in C
        by (apply list_elem_of_In, in_map, D).
      destruct (List.filter _ _) as [|r' l] eqn:F in C; [discriminate|].
      assert (In r' (r' :: l)) as I by (left; reflexivity).
      rewrite <- F in I. apply filter_In in I. destruct I as [I K].
      apply bool_decide_eq_true in K.
      exists r'. split; [exact I|].
      unfold insert_tuple. unfold dedup_key in K.
      injection K as _ _ _ _ _ K. rewrite K, R.
      destruct (ADMISSION_YEAR r'), (MIN_SCORE r'); reflexivity.
  - destruct (file_rows rows) as [l|] eqn:E; [|exact I].
    apply insert_tuples_length. exact E.
Qed.

End DedupFacts.

Section WordFacts.

(** A word: not empty, without whitespace. *)
Let word (w : list N) : Prop := w <> [] /\ existsb isspace w = false.

Lemma split_ws_go_word (w : list N) :
  forall cur t,
    existsb isspace w = false ->
    split_ws_go cur (w ++ t) = split_ws_go (rev w ++ cur) t.
Proof.
  induction w as [|c w IH]; intros cur t H; [reflexivity|].
  cbn [existsb] in H. apply orb_false_elim in H. destruct H as [Hc Hw].
  cbn [app split_ws_go rev]. rewrite Hc, IH by exact Hw.
  rewrite <- app_assoc. reflexivity.
Qed.

Lemma split_ws_go_words (s : list N) :
  forall cur, existsb isspace cur = false ->
              Forall word (split_ws_go cur s).
Proof.
  assert (forall cur, cur <> [] -> existsb isspace cur = false ->
                      word (rev cur)) as W.
  { intros cur NE H. split.
    - intros E. apply NE. rewrite <- (rev_involutive cur), E. reflexivity.
    - rewrite existsb_rev. exact H. }
  induction s as [|c t IH]; intros cur H; cbn [split_ws_go].
  - destruct cur as [|a cur]; cbn [is_empty]; [constructor|].
    constructor; [apply W; [discriminate | exact H] | constructor].
  - destruct (isspace c) eqn:Hc.
    + destruct cur as [|a cur]; cbn [is_empty]; [apply IH; reflexivity|].
      constructor; [apply W; [discriminate | exact H]|].
      apply IH. reflexivity.
    + apply IH. cbn [existsb]. rewrite Hc, H. reflexivity.
Qed.

Lemma split_ws_go_nonempty (s : list N) :
  forall cur, cur <> [] -> split_ws_go cur s <> [].
Proof.
  induction s as [|c t IH]; intros cur NE; cbn [split_ws_go].
  - destruct cur; [congruence | discriminate].
  - destruct (isspace c); [|apply IH; discriminate].
    destruct cur; [congruence | discriminate].
Qed.

Lemma split_ws_join (ws : list (list N)) :
  Forall word ws -> split_ws (join (u " ") ws) = ws.
Proof.
  unfold split_ws. induction 1 as [|w ws [NE Hw] Hws IH]; [reflexivity|].
  destruct ws as [|w' ws'].
  - cbn [join]. rewrite <- (app_nil_r w) at 1.
    rewrite split_ws_go_word by exact Hw. cbn [split_ws_go].
    rewrite app_nil_r. destruct (rev w) eqn:R.
    + exfalso. apply NE. rewrite <- (rev_involutive w), R. reflexivity.
    + cbn [is_empty]. rewrite <- R, rev_involutive. reflexivity.
  - change (join (u " ") (w :: w' :: ws'))
      with (w ++ 32%N :: join (u " ") (w' :: ws')).
    rewrite split_ws_go_word by exact Hw. rewrite app_nil_r.
    cbn [split_ws_go]. change (isspace 32) with true. cbv iota.
    destruct (rev w) eqn:R.
    + exfalso. apply NE. rewrite <- (rev_involutive w), R. reflexivity.
    + cbn [is_empty]. rewrite <- R, rev_involutive, IH. reflexivity.
Qed.

(** A text made of words joined by single spaces has a word character at
    both ends. *)
Lemma join_ends (ws : list (list N)) :
  Forall word ws -> ws <> [] ->
  (exists c t, join (u " ") ws = c :: t /\ isspace c = false)
  /\ (exists c t, rev (join (u " ") ws) = c :: t /\ isspace c = false).
Proof.
  induction 1 as [|w ws [NE Hw] Hws IH]; [congruence|]. intros _. split.
  - destruct w as [|c w]; [congruence|]. cbn [existsb] in Hw.
    apply orb_false_elim in Hw. destruct Hw as [Hc _].
    exists c. destruct ws; cbn [join app]; eauto.
  - destruct ws as [|w' ws'].
    + cbn [join]. destruct (rev w) as [|c t] eqn:R.
      * exfalso. apply NE. rewrite <- (rev_involutive w), R. reflexivity.
      * exists c, t. split; [reflexivity|].
        rewrite <- existsb_rev, R in Hw. cbn [existsb] in Hw.
        apply orb_false_elim in Hw. tauto.
    + destruct IH as [_ (c & t & E & Hc)]; [discriminate|].
      change (join (u " ") (w :: w' :: ws'))
        with (w ++ 32%N :: join (u " ") (w' :: ws')).
      rewrite rev_app_distr. cbn [rev]. rewrite E.
      exists c. eexists. split; [reflexivity | exact Hc].
Qed.

Lemma strip_join (ws : list (list N)) :
  Forall word ws -> strip (join (u " ") ws) = join (u " ") ws.
Proof.
  intros H. destruct ws as [|w ws]; [reflexivity|].
  destruct (join_ends _ H) as [(c & t & E & Hc) (c' & t' & E' & Hc')];
    [discriminate|].
  unfold strip. rewrite (lstrip_by_fix isspace (join _ _))
    by (rewrite E; exact Hc).
  unfold rstrip_by. rewrite lstrip_by_fix by (rewrite E'; exact Hc').
  apply rev_involutive.
Qed.

Lemma split_ws_go_map (f : N -> N) (s : list N) :
  (forall c, isspace (f c) = isspace c) ->
  forall cur,
    split_ws_go (List.map f cur) (List.map f s)
    = List.map (List.map f) (split_ws_go cur s).
Proof.
  intros Hf. induction s as [|c t IH]; intros cur; cbn [List.map split_ws_go].
  - destruct cur as [|a cur]; [reflexivity|].
    change ([rev (List.map f (a :: cur))] = [List.map f (rev (a :: cur))]).
    rewrite List.map_rev. reflexivity.
  - rewrite Hf. destruct (isspace c);
      [|exact (IH (c :: cur))].
    destruct cur as [|a cur]; [exact (IH [])|].
    change (rev (List.map f (a :: cur))
              :: split_ws_go (List.map f []) (List.map f t)
            = List.map f (rev (a :: cur))
                :: List.map (List.map f) (split_ws_go [] t)).
    rewrite List.map_rev, (IH []). reflexivity.
Qed.

Lemma join_map (f : N -> N) (ws : list (list N)) :
  f 32%N = 32%N ->
  List.map f (join (u " ") ws) = join (u " ") (List.map (List.map f) ws).
Proof.
  intros Hf. induction ws as [|w ws IH]; [reflexivity|].
  destruct ws as [|w' ws']; [reflexivity|].
  change (join (u " ") (w :: w' :: ws'))
    with (w ++ 32%N :: join (u " ") (w' :: ws')).
  rewrite map_app. cbn [List.map] in *. rewrite Hf, IH. reflexivity.
Qed.

Lemma paren_table_space (c : N) :
  isspace (ImportData.paren_table c) = isspace c.
Proof.
  unfold ImportData.paren_table.
  change (chr "（") with 65288%N. change (chr "）") with 65289%N.
  change (chr "　") with 12288%N.
  destruct (N.eqb_spec c 65288) as [->|]; [reflexivity|].
  destruct (N.eqb_spec c 65289) as [->|]; [reflexivity|].
  destruct (N.eqb_spec c 12288) as [->|]; reflexivity.
Qed.

Lemma paren_table_idem (c : N) :
  ImportData.paren_table (ImportData.paren_table c) = ImportData.paren_table c.
Proof.
  unfold ImportData.paren_table.
  change (chr "（") with 65288%N. change (chr "）") with 65289%N.
  change (chr "　") with 12288%N. change (chr "(") with 40%N.
  change (chr ")") with 41%N. change (chr " ") with 32%N.
  destruct (N.eqb_spec c 65288) as [->|]; [reflexivity|].
  destruct (N.eqb_spec c 65289) as [->|]; [reflexivity|].
  destruct (N.eqb_spec c 12288) as [->|]; [reflexivity|].
  destruct (N.eqb_spec c 65288); [contradiction|].
  destruct (N.eqb_spec c 65289); [contradiction|].
  destruct (N.eqb_spec c 12288); [contradiction|]. reflexivity.
Qed.

Lemma map_words (f : N -> N) (ws : list (list N)) :
  (forall c, isspace (f c) = isspace c) ->
  Forall word ws -> Forall word (List.map (List.map f) ws).
Proof.
  intros Hf H. induction H as [|w ws [NE Hw] _ IH]; [constructor|].
  cbn [List.map]. constructor; [|exact IH]. split.
  - destruct w; [congruence | discriminate].
  - rewrite <- Hw. clear - Hf. induction w as [|c w IHw]; [reflexivity|].
    cbn [List.map existsb]. rewrite Hf, IHw. reflexivity.
Qed.

(** What [sanitize_text] returns: words joined by single spaces, with the
    translation applied. *)
Lemma sanitize_text_words (value : option (list N)) (r : list N) :
  ImportData.sanitize_text value None = Some r ->
  exists ws, ws <> [] /\ Forall word ws
             /\ r = join (u " ") ws
             /\ List.map ImportData.paren_table r = r.
Proof.
  unfold ImportData.sanitize_text. destruct value as [v|]; [|discriminate].
  destruct (strip v) as [|c t] eqn:S; [discriminate|]. cbn [is_empty].
  intros [= <-].
  assert (Forall word (split_ws (c :: t))) as W
    by (apply split_ws_go_words; reflexivity).
  assert (split_ws (c :: t) <> []) as NE.
  { unfold split_ws. cbn [split_ws_go].
    pose proof (lstrip_by_head isspace v) as Hh.
    assert (isspace c = false) as Hc.
    { pose proof (rstrip_by_keeps_head isspace (lstrip_by isspace v) Hh) as K.
      unfold strip in S. rewrite S in K. exact K. }
    rewrite Hc. apply split_ws_go_nonempty. discriminate. }
  exists (List.map (List.map ImportData.paren_table) (split_ws (c :: t))).
  split; [|split; [|split]].
  - destruct (split_ws (c :: t)); [congruence | discriminate].
  - apply map_words; [apply paren_table_space | exact W].
  - apply join_map. reflexivity.
  - rewrite map_map. apply map_ext. apply paren_table_idem.
Qed.

Lemma sanitize_text_again (value : option (list N)) (r : list N) :
  ImportData.sanitize_text value None = Some r ->
  ImportData.sanitize_text (Some r) None = Some r
  /\ r <> [] /\ strip r = r /\ join (u " ") (split_ws r) = r.
Proof.
  intros H. apply sanitize_text_words in H.
  destruct H as (ws & NE & W & -> & M).
  pose proof (strip_join _ W) as S. pose proof (split_ws_join _ W) as J.
  assert (join (u " ") ws <> []) as NE'.
  { destruct (join_ends _ W NE) as [(c & t & E & _) _]. rewrite E.
    discriminate. }
  split; [|repeat split; try assumption; rewrite J; reflexivity].
  assert (is_empty (join (u " ") ws) = false) as E
    by (destruct (join (u " ") ws); [congruence | reflexivity]).
  unfold ImportData.sanitize_text. rewrite S, E, J, M. reflexivity.
Qed.

(** [sanitize_text] is idempotent: its result is never empty, has no
    whitespace at either end, no whitespace but single spaces between
    words, and no full-width parenthesis, and sanitizing it again returns
    it unchanged. *)
Theorem sanitize_text_idempotent (value : option (list N)) (r : list N) :
  ImportData.sanitize_text value None = Some r ->
  ImportData.sanitize_text (Some r) None = Some r
  /\ r <> []
  /\ strip r = r
  /\ join (u " ") (split_ws r) = r
  /\ ImportData.no_fullwidth_paren r.
Proof.
  intros H. pose proof (sanitize_text_no_fullwidth _ _ H) as P.
  destruct (sanitize_text_again _ _ H) as (A & B & C & D).
  repeat split; assumption.
Qed.

Lemma sanitize_text_idempotent_witness :
  ImportData.sanitize_text (Some (u "计算机类(含 软件)")) None
    = Some (u "计算机类(含 软件)")
  /\ u "计算机类(含 软件)" <> []
  /\ strip (u "计算机类(含 软件)") = u "计算机类(含 软件)"
  /\ join (u " ") (split_ws (u "计算机类(含 软件)")) = u "计算机类(含 软件)"
  /\ ImportData.no_fullwidth_paren (u "计算机类(含 软件)").
Proof.
  apply (sanitize_text_idempotent (Some (u "　计算机类（含   软件） "))).
  vm_compute. reflexivity.
Defined.

(** The join key of the merge script is the text [sanitize_text] gives
    (the empty text where it gives [None]): the two scripts normalise a
    name in the same way. *)
Theorem normalize_name_is_sanitize_text (value : option (list N)) :
  Merge.normalize_name value =
  match ImportData.sanitize_text value None with
  | Some r => r
  | None => []
  end.
Proof.
  unfold Merge.normalize_name, ImportData.sanitize_text.
  destruct value as [v|]; [|reflexivity].
  destruct (strip v) as [|c t]; [reflexivity|]. cbn [is_empty].
  rewrite (join_map ImportData.paren_table) by reflexivity.
  f_equal. exact (split_ws_go_map ImportData.paren_table (c :: t)
                    paren_table_space []).
Qed.

(** Every cell of MAJOR_NAME has at most 224 characters and no full-width
    parenthesis; the second pass of [sanitize_text] inside
    [smart_shorten_major_name] changes nothing. *)
Theorem major_name_bounds (cell : option (list N)) :
  (length (ImportData.major_name cell) <= 224)%nat
  /\ ImportData.no_fullwidth_paren (ImportData.major_name cell)
  /\ ImportData.major_name cell =
     match ImportData.smart_shorten_major_name cell 224 with
     | Some s => s
     | None => u "未知"
     end.
Proof.
  assert (ImportData.smart_shorten_major_name
            (ImportData.sanitize_text cell None) 224
          = ImportData.smart_shorten_major_name cell 224) as E.
  { unfold ImportData.smart_shorten_major_name.
    destruct (ImportData.sanitize_text cell None) as [r|] eqn:S;
      [|reflexivity].
    destruct (sanitize_text_again _ _ S) as [-> _]. reflexivity. }
  unfold ImportData.major_name.
  change ImportData.MAX_LEN_MAJOR_NAME with 224%nat. rewrite E.
  destruct (ImportData.smart_shorten_major_name cell 224) as [s|] eqn:R.
  - destruct (smart_shorten_major_name_bounds _ _ _ R) as (L & P & _).
    repeat split; assumption.
  - split; [|split; [|reflexivity]].
    + change (length (u "未知")) with 2%nat. lia.
    + apply List.Forall_forall. intros c Hc.
      change (u "未知") with [26410%N; 30693%N] in Hc.
      destruct Hc as [<-|[<-|[]]]; split; discriminate.
Qed.

End WordFacts.

Section GroupFacts.
Import Re.

Lemma rep_greedy_calls_min (cs : cset) (rest : list N) :
  forall min pos k res,
    rep_greedy cs min pos rest k = Some res ->
    exists n, (min <= n <= length rest)%nat
              /\ k (pos + n)%nat (skipn n rest) = Some res
              /\ Forall (fun c => cset_mem cs c = true) (firstn n rest).
Proof.
  induction rest as [|c t IH]; intros min pos k res H; cbn [rep_greedy] in H.
  - exists 0%nat. rewrite Nat.add_0_r. destruct min; [|discriminate].
    split; [cbn; lia|]. split; [exact H | constructor].
  - assert (min = 0%nat -> k pos (c :: t) = Some res ->
            exists n, (min <= n <= length (c :: t))%nat
                      /\ k (pos + n)%nat (skipn n (c :: t)) = Some res
                      /\ Forall (fun c => cset_mem cs c = true)
                           (firstn n (c :: t))) as Stop.
    { intros -> K. exists 0%nat. rewrite Nat.add_0_r.
      split; [cbn; lia|]. split; [exact K | constructor]. }
    destruct (cset_mem cs c) eqn:M.
    + destruct (rep_greedy cs (Init.Nat.pred min) (S pos) t k) as [r|] eqn:R.
      * cbn [orelse] in H. injection H as <-.
        destruct (IH _ _ _ _ R) as (n & Hn & Hk & Hf).
        exists (S n). rewrite Nat.add_succ_r. cbn [skipn firstn length].
        split; [lia|]. split; [exact Hk | constructor; assumption].
      * cbn [orelse] in H. destruct min; [|discriminate]. auto.
    + destruct min; [|discriminate]. auto.
Qed.

Lemma rep_lazy_calls_min (cs : cset) (rest : list N) :
  forall min pos k res,
    rep_lazy cs min pos rest k = Some res ->
    exists n, (min <= n <= length rest)%nat
              /\ k (pos + n)%nat (skipn n rest) = Some res
              /\ Forall (fun c => cset_mem cs c = true) (firstn n rest).
Proof.
  induction rest as [|c t IH]; intros min pos k res H.
  - destruct min; cbn in H; [|discriminate].
    destruct (k pos []) eqn:K; [|discriminate].
    exists 0%nat. rewrite Nat.add_0_r. cbn [skipn firstn length]. rewrite K.
    split; [lia|]. split; [exact H | constructor].
  - assert (forall m, rep_lazy cs (Init.Nat.pred m) (S pos) t k = Some res ->
                      cset_mem cs c = true ->
                      exists n, (m <= n <= length (c :: t))%nat
                                /\ k (pos + n)%nat (skipn n (c :: t)) = Some res
                                /\ Forall (fun c => cset_mem cs c = true)
                                     (firstn n (c :: t))) as Step.
    { intros m R M. destruct (IH _ _ _ _ R) as (n & Hn & Hk & Hf).
      exists (S n). rewrite Nat.add_succ_r. cbn [skipn firstn length].
      split; [lia|]. split; [exact Hk | constructor; assumption]. }
    destruct min as [|min']; cbn [rep_lazy] in H.
    + destruct (k pos (c :: t)) as [r|] eqn:K; cbn [orelse] in H.
      * injection H as <-. exists 0%nat. rewrite Nat.add_0_r.
        split; [cbn; lia|]. split; [exact K | constructor].
      * destruct (cset_mem cs c) eqn:M; [|discriminate].
        apply (Step 0%nat); auto.
    + destruct (cset_mem cs c) eqn:M; [|discriminate].
      apply (Step (S min')); auto.
Qed.

(** A group around a repetition holds at least [min] characters of the
    set. *)
Lemma group_rep_calls (i : nat) (greedy : bool) (min : nat) (cs : cset)
    (st : mstate) (k : mstate -> option mstate) (res : mstate) :
  rmatch (RGroup i (RRep greedy min cs)) st k = Some res ->
  exists w st',
    (min <= length w)%nat
    /\ Forall (fun c => cset_mem cs c = true) w
    /\ ms_groups st' = (i, w) :: ms_groups st
    /\ k st' = Some res.
Proof.
  cbn [rmatch]. intros H.
  assert (exists n, (min <= n <= length (ms_rest st))%nat
            /\ k {| ms_pos := ms_pos st + n; ms_rest := skipn n (ms_rest st);
                    ms_groups :=
                      (i, firstn (ms_pos st + n - ms_pos st) (ms_rest st))
                        :: ms_groups st |} = Some res
            /\ Forall (fun c => cset_mem cs c = true) (firstn n (ms_rest st)))
    as (n & Hn & Hk & Hf).
  { destruct greedy;
      [apply rep_greedy_calls_min in H | apply rep_lazy_calls_min in H];
      destruct H as (n & Hn & Hk & Hf); exists n; auto. }
  replace (ms_pos st + n - ms_pos st)%nat with n in Hk by lia.
  exists (firstn n (ms_rest st)). eexists.
  split; [rewrite length_firstn; lia|].
  split; [exact Hf|]. split; [|exact Hk]. reflexivity.
Qed.

Lemma startswith_firstn (p : list N) :
  forall s, startswith p s = true -> firstn (length p) s = p.
Proof.
  induction p as [|a p IH]; intros s H; [reflexivity|].
  destruct s as [|b s]; [discriminate|]. cbn [startswith] in H.
  apply andb_prop in H. destruct H as [E H]. apply N.eqb_eq in E. subst b.
  cbn [length firstn]. rewrite IH by exact H. reflexivity.
Qed.

(** An alternation of literals matches one of them. *)
Lemma ralt_lits_calls (ps : list (list N)) :
  forall st k res,
    ps <> [] ->
    rmatch (ralt_lits ps) st k = Some res ->
    exists p, In p ps
              /\ startswith p (ms_rest st) = true
              /\ k (advance (length p) st) = Some res.
Proof.
  unfold ralt_lits.
  induction ps as [|a ps IH]; intros st k res NE H; [congruence|].
  destruct ps as [|b ps'].
  - cbn [List.map ralt rmatch] in H.
    destruct (startswith a (ms_rest st)) eqn:S; [|discriminate].
    exists a. split; [left; reflexivity|]. auto.
  - change (ralt (List.map RLit (a :: b :: ps')))
      with (RAlt (RLit a) (ralt (List.map RLit (b :: ps')))) in H.
    cbn [rmatch] in H.
    assert (rmatch (ralt (List.map RLit (b :: ps'))) st k = Some res ->
            exists p, In p (a :: b :: ps')
                      /\ startswith p (ms_rest st) = true
                      /\ k (advance (length p) st) = Some res) as Next.
    { intros R. apply IH in R; [|discriminate].
      destruct R as (p & Hp & Hs & Hk).
      exists p. split; [right; exact Hp|]. auto. }
    destruct (startswith a (ms_rest st)) eqn:S; [|exact (Next H)].
    destruct (k (advance (length a) st)) as [x|] eqn:K; cbn [orelse] in H;
      [|exact (Next H)].
    injection H as <-. exists a. split; [left; reflexivity|]. auto.
Qed.

Lemma group_lits_calls (i : nat) (ps : list (list N)) (st : mstate)
    (k : mstate -> option mstate) (res : mstate) :
  ps <> [] ->
  rmatch (RGroup i (ralt_lits ps)) st k = Some res ->
  exists p st',
    In p ps
    /\ ms_groups st' = (i, p) :: ms_groups st
    /\ k st' = Some res.
Proof.
  cbn [rmatch]. intros NE H. apply ralt_lits_calls in H; [|exact NE].
  destruct H as (p & Hp & Hs & Hk).
  exists p. eexists. split; [exact Hp|]. split; [|exact Hk].
  cbn [advance ms_pos ms_groups].
  replace (ms_pos st + length p - ms_pos st)%nat with (length p) by lia.
  rewrite (startswith_firstn _ _ Hs). reflexivity.
Qed.

Lemma rmatch_seq_groups (r1 r2 : regex) (st : mstate)
    (k : mstate -> option mstate) (res : mstate) :
  rmatch (RSeq r1 r2) st k = Some res ->
  exists st1, rmatch r2 st1 k = Some res
              /\ forall n, has_group n r1 = false ->
                   lookup_group n (ms_groups st1) = lookup_group n (ms_groups st).
Proof. cbn [rmatch]. intros H. apply rmatch_calls in H. exact H. Qed.

Lemma rmatch_groups (r : regex) (st res : mstate) :
  rmatch r st Some = Some res ->
  forall n, has_group n r = false ->
    lookup_group n (ms_groups res) = lookup_group n (ms_groups st).
Proof.
  intros H. apply rmatch_calls in H. destruct H as (st' & [= ->] & G).
  exact G.
Qed.

Lemma finditer_match_at (r : regex) (s : list N) (m : rematch) :
  In m (finditer r s) ->
  exists pos s' res,
    rmatch r {| ms_pos := pos; ms_rest := s'; ms_groups := [] |} Some
      = Some res
    /\ m_groups m = ms_groups res.
Proof.
  intros H. apply finditer_go_match in H. destruct H as (pos & s' & H).
  unfold match_at in H.
  destruct (rmatch _ _ Some) as [st|] eqn:R; [|discriminate].
  injection H as <-. exists pos, s', st. split; [exact R | reflexivity].
Qed.

Lemma rmatch_seq_eq (r1 r2 : regex) (st : mstate)
    (k : mstate -> option mstate) :
  rmatch (RSeq r1 r2) st k = rmatch r1 st (fun st' => rmatch r2 st' k).
Proof. reflexivity. Qed.

(** Group 1 of [province_pattern] is one of the provinces. *)
Lemma province_pattern_group1 (ps : list (list N)) (text : list N)
    (m : rematch) :
  ps <> [] ->
  In m (finditer (province_pattern ps) text) -> In (group 1 m) ps.
Proof.
  intros NE H. apply finditer_match_at in H.
  destruct H as (pos & s & res & H & G). unfold group. rewrite G. clear G.
  unfold province_pattern in H. cbn [rseq] in H.
  rewrite rmatch_seq_eq in H.
  apply group_lits_calls in H; [|exact NE].
  destruct H as (p & st1 & Hp & G1 & H).
  apply rmatch_groups with (n := 1%nat) in H.
  - rewrite H, G1. cbn [lookup_group Nat.eqb]. exact Hp.
  - cbn [has_group Nat.eqb orb suffix_opt colon].
    rewrite !has_group_ralt_lits. reflexivity.
Qed.

(** The items of [item_pattern]: a text without "；" or digit, then
    a score of decimal digits, neither of them empty. *)
Lemma item_pattern_groups (text : list N) (a b : list N) :
  In (a, b) (findall2 item_pattern text) ->
  a <> [] /\ b <> [] /\ forallb isdecimal b = true
  /\ Forall (fun c => c <> chr "；" /\ isdecimal c = false) a.
Proof.
  unfold findall2. intros H. apply in_map_iff in H.
  destruct H as (m & [= <- <-] & H). apply finditer_match_at in H.
  destruct H as (pos & s & res & H & G). unfold group. rewrite G. clear G.
  unfold item_pattern in H. cbn [rseq] in H.
  rewrite rmatch_seq_eq in H. apply group_rep_calls in H.
  destruct H as (w1 & st1 & L1 & F1 & G1 & H).
  rewrite rmatch_seq_eq in H. apply group_rep_calls in H.
  destruct H as (w2 & st2 & L2 & F2 & G2 & H).
  pose proof (rmatch_groups _ _ _ H) as G.
  rewrite (G 1%nat), (G 2%nat) by reflexivity.
  rewrite G2, G1. cbn [lookup_group Nat.eqb ms_groups].
  split; [destruct w1; [cbn in L1; lia | discriminate]|].
  split; [destruct w2; [cbn in L2; lia | discriminate]|].
  split.
  - apply forallb_forall. intros c Hc.
    rewrite List.Forall_forall in F2. specialize (F2 c Hc).
    unfold cset_mem, digit, set_of in F2. cbn in F2.
    rewrite orb_false_r in F2. exact F2.
  - eapply List.Forall_impl; [|exact F1]. intros c M.
    unfold cset_mem, set_of in M. cbn [cs_neg cs_items existsb item_mem] in M.
    split.
    + intros ->. vm_compute in M. discriminate M.
    + destruct (isdecimal c); [|reflexivity].
      rewrite !orb_true_r in M. discriminate M.
Qed.

(** The pairs of [province_score_pattern]: a province and a score of
    decimal digits. *)
Lemma province_score_pattern_groups (ps : list (list N)) (text : list N)
    (p sc : list N) :
  ps <> [] ->
  In (p, sc) (findall2 (province_score_pattern ps) text) ->
  In p ps /\ sc <> [] /\ forallb isdecimal sc = true.
Proof.
  unfold findall2. intros NE H. apply in_map_iff in H.
  destruct H as (m & [= <- <-] & H). apply finditer_match_at in H.
  destruct H as (pos & s & res & H & G). unfold group. rewrite G. clear G.
  unfold province_score_pattern in H. cbn [rseq] in H.
  rewrite rmatch_seq_eq in H. apply group_lits_calls in H; [|exact NE].
  destruct H as (w1 & st1 & Hp & G1 & H).
  apply rmatch_seq_groups in H. destruct H as (st2 & H & E2).
  apply rmatch_seq_groups in H. destruct H as (st3 & H & E3).
  apply rmatch_seq_groups in H. destruct H as (st4 & H & E4).
  rewrite rmatch_seq_eq in H. apply group_rep_calls in H.
  destruct H as (w2 & st5 & L2 & F2 & G2 & H).
  pose proof (rmatch_groups _ _ _ H) as G.
  rewrite (G 1%nat), (G 2%nat) by reflexivity.
  rewrite G2. cbn [lookup_group Nat.eqb].
  rewrite E4, E3, E2, G1;
    try (cbn [has_group suffix_opt colon];
         rewrite ?has_group_ralt_lits; reflexivity).
  cbn [lookup_group Nat.eqb].
  split; [exact Hp|].
  split; [destruct w2; [cbn in L2; lia | discriminate]|].
  apply forallb_forall. intros c Hc.
  rewrite List.Forall_forall in F2. specialize (F2 c Hc).
  unfold cset_mem, digit, set_of in F2. cbn in F2.
  rewrite orb_false_r in F2. exact F2.
Qed.

End GroupFacts.

Section RecordFacts.

Lemma provinces_clean (p : list N) :
  In p provinces -> strip_suffixes p = p /\ HUST.clean_province p = p.
Proof.
  intros H. vm_compute in H.
  repeat (destruct H as [<-|H]; [split; vm_compute; reflexivity|]).
  contradiction.
Qed.

Lemma provinces_nonempty : provinces <> [].
Proof. discriminate. Qed.

Lemma tsinghua_create_fields (year : Z) (p c s b : list N)
    (r : admission_info) :
  Tsinghua._create_admission_info year p c s b = Some r ->
  年份 r = str_of_Z year
  /\ 学校 r = Tsinghua.school_name
  /\ 全国统一招生代码 r = Tsinghua.school_code
  /\ 生源地 r = strip_suffixes p
  /\ 最低分 r = s
  /\ 批次 r = b
  /\ 最低分排名 r = u "NA"
  /\ In (科类 r) (List.map u ["理工"; "文史"; "综合改革"; "艺术类"; "NA"]%string)
  /\ In (招生类型 r) (List.map u ["统招"; "定向生"; "国家专项计划"]%string).
Proof.
  unfold Tsinghua._create_admission_info. cbv zeta.
  destruct (is_empty (strip_suffixes p) || is_empty s); [discriminate|].
  set (cat := strip c).
  match goal with
  | |- context [match ?T with (_, _) => _ end] =>
    assert (In (fst (fst T))
              (List.map u ["理工"; "文史"; "综合改革"; "艺术类"; "NA"]%string)
            /\ In (snd T) (List.map u ["统招"; "定向生"]%string)) as HT;
      [|destruct T as [[category major] admission_type]]
  end.
  { cbn [List.map In].
    repeat match goal with
           | |- context [if ?b then _ else _] => destruct b
           end; cbn [fst snd]; split; auto 10. }
  cbn [fst snd] in HT. destruct HT as [HC HA].
  intros [= <-]. cbn [年份 学校 全国统一招生代码 生源地 最低分 批次 最低分排名 科类
                        招生类型].
  repeat (split; [first [reflexivity | exact HC]|]).
  cbn [List.map In] in *.
  destruct (contains (u "定向") cat || str_eqb admission_type (u "定向生"));
    [auto|].
  destruct (contains (u "国家专项") b); [auto 10|].
  destruct HA as [<-|[<-|[]]]; auto.
Qed.

Lemma hust_extract_category (major : list N) :
  In (HUST._extract_category_from_major major)
    (List.map u ["理工"; "文史"; "综合改革"; "艺术类"; "NA"]%string).
Proof.
  unfold HUST._extract_category_from_major. cbn [List.map In].
  repeat match goal with
         | |- context [if ?b then _ else _] => destruct b
         end; auto 10.
Qed.

Lemma hust_create_fields (year : Z) (p c s b mj rk : list N)
    (r : admission_info) :
  HUST._create_admission_info year p c s b mj rk = Some r ->
  年份 r = str_of_Z year
  /\ 学校 r = HUST.school_name
  /\ 全国统一招生代码 r = HUST.school_code
  /\ 生源地 r = HUST.clean_province p
  /\ 最低分 r = s
  /\ 批次 r = b
  /\ 专业 r = mj
  /\ 最低分排名 r = rk
  /\ In (科类 r) [c; u "艺术类"; u "综合改革"]
  /\ In (招生类型 r)
       (List.map u ["统招"; "定向生"; "国家专项计划"; "高校专项计划"; "艺术类"]%string).
Proof.
  unfold HUST._create_admission_info. cbv zeta.
  destruct (is_empty (HUST.clean_province p) || is_empty s); [discriminate|].
  intros [= <-]. cbn [年份 学校 全国统一招生代码 生源地 最低分 批次 最低分排名 科类
                        招生类型 专业].
  repeat (split; [reflexivity|]).
  assert (forall x : list N, (if negb (str_eqb x (u "NA")) then x else u "NA") = x)
    as NA.
  { intros x. unfold str_eqb. destruct (decide (x = u "NA")) as [->|E].
    - reflexivity.
    - rewrite (bool_decide_eq_false_2 _ E). reflexivity. }
  rewrite !NA. repeat (split; [reflexivity|]).
  cbn [List.map In].
  split;
    repeat match goal with
           | |- context [if ?b then _ else _] => destruct b
           end; auto 10.
Qed.

(** What both paragraph parsers guarantee for a record made under the
    batch [batch]. *)
Let record_ok (school code : list N) (types : list (list N)) (year : Z)
    (batch : list N) (r : admission_info) : Prop :=
  年份 r = str_of_Z year
  /\ 学校 r = school
  /\ 全国统一招生代码 r = code
  /\ In (生源地 r) provinces
  /\ 最低分 r <> []
  /\ forallb isdecimal (最低分 r) = true
  /\ 最低分排名 r = u "NA"
  /\ In (科类 r) (List.map u ["理工"; "文史"; "综合改革"; "艺术类"; "NA"]%string)
  /\ In (招生类型 r) types
  /\ 批次 r = batch.

Let tsinghua_types : list (list N) :=
  List.map u ["统招"; "定向生"; "国家专项计划"]%string.

Let hust_types : list (list N) :=
  List.map u ["统招"; "定向生"; "国家专项计划"; "高校专项计划"; "艺术类"]%string.

Lemma tsinghua_create_ok (year : Z) (p c s b : list N) (r : admission_info) :
  In p provinces -> s <> [] -> forallb isdecimal s = true ->
  Tsinghua._create_admission_info year p c s b = Some r ->
  record_ok Tsinghua.school_name Tsinghua.school_code tsinghua_types year b r.
Proof.
  intros Hp Hs Hd C. apply tsinghua_create_fields in C.
  destruct C as (Y & S & K & P & M & B & R & C & T).
  unfold record_ok. rewrite P, M, (proj1 (provinces_clean p Hp)).
  repeat split; assumption.
Qed.

Lemma hust_create_ok (year : Z) (p c s b mj : list N) (r : admission_info) :
  In p provinces -> s <> [] -> forallb isdecimal s = true ->
  In c (List.map u ["理工"; "文史"; "综合改革"; "艺术类"; "NA"]%string) ->
  HUST._create_admission_info year p c s b mj (u "NA") = Some r ->
  record_ok HUST.school_name HUST.school_code hust_types year b r.
Proof.
  intros Hp Hs Hd Hc C. apply hust_create_fields in C.
  destruct C as (Y & S & K & P & M & B & _ & R & C & T).
  unfold record_ok. rewrite P, M, (proj2 (provinces_clean p Hp)).
  repeat split; try assumption.
  cbn [List.map In] in *. destruct C as [<-|[<-|[<-|[]]]]; auto 10.
Qed.

Lemma format1_match_ok (text : list N) (m : Re.rematch) (a b : list N) :
  In m (Tsinghua.format1_matches text) \/ In m (HUST.format1_matches text) ->
  In (a, b) (Re.findall2 Re.item_pattern (Re.group 2 m)) ->
  In (Re.group 1 m) provinces /\ b <> [] /\ forallb isdecimal b = true.
Proof.
  intros Hm Hi. split.
  - unfold Tsinghua.format1_matches, HUST.format1_matches in Hm.
    destruct (contains (u "；") text || contains (u ";") text);
      [|destruct Hm as [[]|[]]].
    destruct Hm as [Hm|Hm];
      exact (province_pattern_group1 _ _ _ provinces_nonempty Hm).
  - apply item_pattern_groups in Hi. tauto.
Qed.

Lemma tsinghua_paragraph_ok (year : Z) (batch hint text : list N)
    (r : admission_info) :
  In r (fst (Tsinghua.paragraph_records year batch hint text))
  \/ In r (snd (Tsinghua.paragraph_records year batch hint text)) ->
  record_ok Tsinghua.school_name Tsinghua.school_code tsinghua_types
    year batch r.
Proof.
  unfold Tsinghua.paragraph_records. cbn [fst snd].
  set (text' := Re.sub Re.decimal_pattern (Re.group 1) text).
  intros [H|H].
  - unfold Tsinghua.format1_records in H.
    apply List.in_flat_map in H. destruct H as (m & Hm & H).
    apply List.in_flat_map in H. destruct H as ([a b] & Hi & H).
    cbn [fst snd] in H.
    destruct (Tsinghua._create_admission_info _ _ _ _ _) as [r'|] eqn:C;
      [|contradiction].
    destruct H as [<-|[]].
    destruct (format1_match_ok text' m a b (or_introl Hm) Hi) as (Hp & Hs & Hd).
    eapply tsinghua_create_ok; eauto.
  - destruct (negb (negb (bool_decide (Tsinghua.format1_matches text' = []))));
      [|contradiction].
    unfold Tsinghua.format2_records in H.
    apply List.in_flat_map in H. destruct H as ([p sc] & Hi & H).
    cbn [fst snd] in H.
    destruct (Tsinghua._create_admission_info _ _ _ _ _) as [r'|] eqn:C;
      [|contradiction].
    destruct H as [<-|[]].
    apply province_score_pattern_groups in Hi; [|exact provinces_nonempty].
    destruct Hi as (Hp & Hs & Hd).
    eapply tsinghua_create_ok; eauto.
Qed.

Lemma hust_paragraph_ok (year : Z) (batch text : list N)
    (r : admission_info) :
  In r (fst (HUST.paragraph_records year batch text))
  \/ In r (snd (HUST.paragraph_records year batch text)) ->
  record_ok HUST.school_name HUST.school_code hust_types year batch r.
Proof.
  unfold HUST.paragraph_records. cbn [fst snd].
  set (text' := Re.sub Re.decimal_pattern (Re.group 1) text).
  intros [H|H].
  - unfold HUST.format1_records in H.
    apply List.in_flat_map in H. destruct H as (m & Hm & H).
    apply List.in_flat_map in H. destruct H as ([a b] & Hi & H).
    cbn [fst snd] in H.
    destruct (HUST._create_admission_info _ _ _ _ _ _ _) as [r'|] eqn:C;
      [|contradiction].
    destruct H as [<-|[]].
    destruct (format1_match_ok text' m a b (or_intror Hm) Hi) as (Hp & Hs & Hd).
    eapply hust_create_ok; eauto. apply hust_extract_category.
  - unfold HUST.format2_records in H.
    apply List.in_flat_map in H. destruct H as ([p sc] & Hi & H).
    cbn [fst snd] in H.
    destruct (HUST._create_admission_info _ _ _ _ _ _ _) as [r'|] eqn:C;
      [|contradiction].
    destruct H as [<-|[]].
    apply province_score_pattern_groups in Hi; [|exact provinces_nonempty].
    destruct Hi as (Hp & Hs & Hd).
    eapply hust_create_ok; eauto. cbn [List.map In]. auto 10.
Qed.

Lemma tsinghua_fold_ok (year : Z) (B : list (list N))
    (content : list paragraph) :
  forall st,
    (forall p t, In p content -> p_strong p = Some t ->
                 Tsinghua.is_batch_title t = true ->
                 In (fst (Tsinghua.batch_context t)) B) ->
    In (Tsinghua.current_batch st) B ->
    (forall r, In r (Tsinghua.admission_list st) ->
               exists b, In b B /\ record_ok Tsinghua.school_name
                                     Tsinghua.school_code tsinghua_types
                                     year b r) ->
    forall r,
      In r (Tsinghua.admission_list
              (fold_left (Tsinghua.paragraph_step year) content st)) ->
      exists b, In b B /\ record_ok Tsinghua.school_name Tsinghua.school_code
                            tsinghua_types year b r.
Proof.
  induction content as [|p content IH]; intros st HT HB HR; [exact HR|].
  cbn [fold_left]. apply IH.
  - intros q t Hq. apply HT. right. exact Hq.
  - unfold Tsinghua.paragraph_step.
    destruct (is_empty (p_text p)); [exact HB|].
    destruct (p_strong p) as [t|] eqn:S.
    + destruct (Tsinghua.is_batch_title t) eqn:T.
      * specialize (HT p t (or_introl eq_refl) S T).
        destruct (Tsinghua.batch_context t). exact HT.
      * destruct (Tsinghua.paragraph_records _ _ _ _). exact HB.
    + destruct (Tsinghua.paragraph_records _ _ _ _). exact HB.
  - assert (forall r,
              In r (Tsinghua.admission_list st)
              \/ In r (fst (Tsinghua.paragraph_records year
                              (Tsinghua.current_batch st)
                              (Tsinghua.current_major_hint st) (p_text p)))
              \/ In r (snd (Tsinghua.paragraph_records year
                              (Tsinghua.current_batch st)
                              (Tsinghua.current_major_hint st) (p_text p))) ->
              exists b, In b B /\ record_ok Tsinghua.school_name
                                    Tsinghua.school_code tsinghua_types
                                    year b r) as Data.
    { intros r [H|H]; [exact (HR r H)|].
      exists (Tsinghua.current_batch st). split; [exact HB|].
      apply (tsinghua_paragraph_ok _ _ _ _ _ H). }
    unfold Tsinghua.paragraph_step.
    destruct (is_empty (p_text p)); [exact HR|].
    destruct (p_strong p) as [t|] eqn:S.
    + destruct (Tsinghua.is_batch_title t) eqn:T.
      * destruct (Tsinghua.batch_context t). exact HR.
      * destruct (Tsinghua.paragraph_records _ _ _ _) as [r1 r2].
        cbn [Tsinghua.admission_list fst snd] in *. intros r Hr.
        apply Data. rewrite !in_app_iff in Hr. exact Hr.
    + destruct (Tsinghua.paragraph_records _ _ _ _) as [r1 r2].
      cbn [Tsinghua.admission_list fst snd] in *. intros r Hr.
      apply Data. rewrite !in_app_iff in Hr. exact Hr.
Qed.

Lemma hust_fold_ok (year : Z) (B : list (list N))
    (content : list paragraph) :
  forall st,
    (forall p t, In p content -> p_strong p = Some t ->
                 HUST.is_batch_title t = true ->
                 In (HUST.batch_context t) B) ->
    In (HUST.current_batch st) B ->
    (forall r, In r (HUST.admission_list st) ->
               exists b, In b B /\ record_ok HUST.school_name
                                     HUST.school_code hust_types year b r) ->
    forall r,
      In r (HUST.admission_list
              (fold_left (HUST.paragraph_step year) content st)) ->
      exists b, In b B /\ record_ok HUST.school_name HUST.school_code
                            hust_types year b r.
Proof.
  induction content as [|p content IH]; intros st HT HB HR; [exact HR|].
  cbn [fold_left]. apply IH.
  - intros q t Hq. apply HT. right. exact Hq.
  - unfold HUST.paragraph_step.
    destruct (is_empty (p_text p)); [exact HB|].
    destruct (p_strong p) as [t|] eqn:S.
    + destruct (HUST.is_batch_title t) eqn:T.
      * exact (HT p t (or_introl eq_refl) S T).
      * destruct (HUST.paragraph_records _ _ _). exact HB.
    + destruct (HUST.paragraph_records _ _ _). exact HB.
  - assert (forall r,
              In r (HUST.admission_list st)
              \/ In r (fst (HUST.paragraph_records year
                              (HUST.current_batch st) (p_text p)))
              \/ In r (snd (HUST.paragraph_records year
                              (HUST.current_batch st) (p_text p))) ->
              exists b, In b B /\ record_ok HUST.school_name
                                    HUST.school_code hust_types year b r)
      as Data.
    { intros r [H|H]; [exact (HR r H)|].
      exists (HUST.current_batch st). split; [exact HB|].
      apply (hust_paragraph_ok _ _ _ _ H). }
    unfold HUST.paragraph_step.
    destruct (is_empty (p_text p)); [exact HR|].
    destruct (p_strong p) as [t|] eqn:S.
    + destruct (HUST.is_batch_title t) eqn:T.
      * exact HR.
      * destruct (HUST.paragraph_records _ _ _) as [r1 r2].
        cbn [HUST.admission_list fst snd] in *. intros r Hr.
        apply Data. rewrite !in_app_iff in Hr. exact Hr.
    + destruct (HUST.paragraph_records _ _ _) as [r1 r2].
      cbn [HUST.admission_list fst snd] in *. intros r Hr.
      apply Data. rewrite !in_app_iff in Hr. exact Hr.
Qed.

(** Every record the Tsinghua paragraph parser returns, whatever the
    paragraphs: the year and the school are those of the call, the
    province is one of the 31 of the list (without suffix), the score is
    a non-empty text of decimal digits, there is no rank, 科类 and 招生类型
    are from closed lists, and the batch is the initial 普通批 or the batch
    of one of the titles of the page. *)
Theorem tsinghua_paragraph_records_wellformed (content : list paragraph)
    (year : Z) (r : admission_info) :
  In r (Tsinghua._parse_paragraph_format content year) ->
  年份 r = str_of_Z year
  /\ 学校 r = u "清华大学"
  /\ 全国统一招生代码 r = u "10003"
  /\ In (生源地 r) provinces
  /\ 最低分 r <> []
  /\ forallb isdecimal (最低分 r) = true
  /\ 最低分排名 r = u "NA"
  /\ In (科类 r) (List.map u ["理工"; "文史"; "综合改革"; "艺术类"; "NA"]%string)
  /\ In (招生类型 r) (List.map u ["统招"; "定向生"; "国家专项计划"]%string)
  /\ In (批次 r)
       (u "普通批"
          :: flat_map
               (fun p =>
                  match p_strong p with
                  | Some t =>
                    if Tsinghua.is_batch_title t
                    then [fst (Tsinghua.batch_context t)] else []
                  | None => []
                  end) content).
Proof.
  intros H. unfold Tsinghua._parse_paragraph_format in H.
  eapply tsinghua_fold_ok in H.
  - destruct H as (b & Hb & Y & S & K & P & M & D & R & C & T & B).
    rewrite B. repeat split; try assumption. exact Hb.
  - intros p t Hp S T. right. apply List.in_flat_map. exists p.
    split; [exact Hp|]. rewrite S, T. left. reflexivity.
  - left. reflexivity.
  - intros r' [].
Qed.

Lemma tsinghua_paragraph_records_wellformed_witness :
  年份 Tsinghua.scenario_record = str_of_Z 2024
  /\ 学校 Tsinghua.scenario_record = u "清华大学"
  /\ 全国统一招生代码 Tsinghua.scenario_record = u "10003"
  /\ In (生源地 Tsinghua.scenario_record) provinces
  /\ 最低分 Tsinghua.scenario_record <> []
  /\ forallb isdecimal (最低分 Tsinghua.scenario_record) = true
  /\ 最低分排名 Tsinghua.scenario_record = u "NA"
  /\ In (科类 Tsinghua.scenario_record)
       (List.map u ["理工"; "文史"; "综合改革"; "艺术类"; "NA"]%string)
  /\ In (招生类型 Tsinghua.scenario_record)
       (List.map u ["统招"; "定向生"; "国家专项计划"]%string)
  /\ In (批次 Tsinghua.scenario_record)
       (u "普通批"
          :: flat_map
               (fun p =>
                  match p_strong p with
                  | Some t =>
                    if Tsinghua.is_batch_title t
                    then [fst (Tsinghua.batch_context t)] else []
                  | None => []
                  end) [Tsinghua.title; Tsinghua.scenario_halfwidth]).
Proof.
  apply (tsinghua_paragraph_records_wellformed
           [Tsinghua.title; Tsinghua.scenario_halfwidth] 2024
           Tsinghua.scenario_record).
  vm_compute. left. reflexivity.
Defined.

(** Every record the HUST paragraph parser returns, whatever the
    paragraphs: the year and the school are those of the call, the
    province is one of the 31 of the list, the score is a non-empty text
    of decimal digits, there is no rank, 科类 and 招生类型 are from closed
    lists, and the batch is the initial 本科一批 or the batch of one of the
    titles of the page. *)
Theorem hust_paragraph_records_wellformed (content : list paragraph)
    (year : Z) (r : admission_info) :
  In r (HUST._parse_paragraph_format content year) ->
  年份 r = str_of_Z year
  /\ 学校 r = u "华中科技大学"
  /\ 全国统一招生代码 r = u "10487"
  /\ In (生源地 r) provinces
  /\ 最低分 r <> []
  /\ forallb isdecimal (最低分 r) = true
  /\ 最低分排名 r = u "NA"
  /\ In (科类 r) (List.map u ["理工"; "文史"; "综合改革"; "艺术类"; "NA"]%string)
  /\ In (招生类型 r)
       (List.map u ["统招"; "定向生"; "国家专项计划"; "高校专项计划"; "艺术类"]%string)
  /\ In (批次 r)
       (u "本科一批"
          :: flat_map
               (fun p =>
                  match p_strong p with
                  | Some t =>
                    if HUST.is_batch_title t
                    then [HUST.batch_context t] else []
                  | None => []
                  end) content).
Proof.
  intros H. unfold HUST._parse_paragraph_format in H.
  eapply hust_fold_ok in H.
  - destruct H as (b & Hb & Y & S & K & P & M & D & R & C & T & B).
    rewrite B. repeat split; try assumption. exact Hb.
  - intros p t Hp S T. right. apply List.in_flat_map. exists p.
    split; [exact Hp|]. rewrite S, T. left. reflexivity.
  - left. reflexivity.
  - intros r' [].
Qed.

Lemma hust_paragraph_records_wellformed_witness :
  年份 HUST.one_score_record = str_of_Z 2024
  /\ 学校 HUST.one_score_record = u "华中科技大学"
  /\ 全国统一招生代码 HUST.one_score_record = u "10487"
  /\ In (生源地 HUST.one_score_record) provinces
  /\ 最低分 HUST.one_score_record <> []
  /\ forallb isdecimal (最低分 HUST.one_score_record) = true
  /\ 最低分排名 HUST.one_score_record = u "NA"
  /\ In (科类 HUST.one_score_record)
       (List.map u ["理工"; "文史"; "综合改革"; "艺术类"; "NA"]%string)
  /\ In (招生类型 HUST.one_score_record)
       (List.map u ["统招"; "定向生"; "国家专项计划"; "高校专项计划"; "艺术类"]%string)
  /\ In (批次 HUST.one_score_record)
       (u "本科一批"
          :: flat_map
               (fun p =>
                  match p_strong p with
                  | Some t =>
                    if HUST.is_batch_title t
                    then [HUST.batch_context t] else []
                  | None => []
                  end) [HUST.one_score]).
Proof.
  apply (hust_paragraph_records_wellformed [HUST.one_score] 2024
           HUST.one_score_record).
  vm_compute. right. left. reflexivity.
Defined.

End RecordFacts.

Section ApiFacts.
Import Api.












End ApiFacts.

Section CrawlFacts.
Import Nankai.

Lemma get_admission_data_sent
    (server : list request -> request -> option response)
    (params : list (list N * list N)) (c : crawler) :
  exists reqs,
    sent (snd (get_admission_data server params c)) = sent c ++ reqs
    /\ (1 <= length reqs <= 2)%nat
    /\ Forall (fun r => url r = ajax_lnfs /\ form r = Some params) reqs.
Proof.
  unfold get_admission_data, get_admission_data_try, post.
  cbn [csrf_token sent].
  set (req1 := {| url := ajax_lnfs;
                  h_Csrf_Token := if tok_truthy (csrf_token c)
                                  then csrf_token c else None;
                  h_X_Csrf_Token := None; form := Some params |}).
  assert (forall (v : option payload) t,
            exists reqs,
              sent (snd (v, {| csrf_token := t; sent := sent c ++ [req1] |}))
                = sent c ++ reqs
              /\ (1 <= length reqs <= 2)%nat
              /\ Forall (fun r => url r = ajax_lnfs /\ form r = Some params)
                   reqs) as One.
  { intros v t. exists [req1]. cbn [snd sent length].
    split; [reflexivity|]. split; [lia|].
    constructor; [split; reflexivity | constructor]. }
  destruct (server (sent c) req1) as [r1|]; [|apply One].
  set (new_token := header_or (Csrf_Token r1) (X_Csrf_Token r1)).
  destruct ((status_code r1 =? 403)%Z && tok_truthy new_token).
  - cbn [set_token csrf_token sent].
    destruct (tok_truthy new_token); cbn [set_token csrf_token sent];
      match goal with
      | |- context [server ?h ?req2] =>
        exists [req1; req2];
          destruct (server h req2) as [r2|];
          [destruct (finish r2)|]
      end;
      cbn [snd sent length]; rewrite <- app_assoc;
      (split; [reflexivity|]); (split; [lia|]);
      repeat constructor.
  - destruct (tok_truthy new_token); cbn [set_token csrf_token sent];
      destruct (finish r1); apply One.
Qed.

(** [crawl_by_year_and_province] sends at most three requests, whatever the
    site answers: one for the filter parameters when the crawler has no
    token (and then only), followed by one or two for the data, all of
    them with the form data of the call. *)
Theorem crawl_by_year_and_province_requests
    (server : list request -> request -> option response)
    (year : Z) (province klmc zslx : list N) (c : crawler) :
  exists reqs,
    sent (snd (crawl_by_year_and_province server year province klmc zslx c))
    = sent c
        ++ (if tok_truthy (csrf_token c) then []
            else [ {| url := ajax_lnfs_param; h_Csrf_Token := None;
                      h_X_Csrf_Token := None; form := None |} ])
        ++ reqs
    /\ (1 <= length reqs <= 2)%nat
    /\ Forall (fun r => url r = ajax_lnfs
                        /\ form r = Some (crawl_params year province klmc zslx))
         reqs.
Proof.
  unfold crawl_by_year_and_province.
  set (c1 := if negb (tok_truthy (csrf_token c))
             then snd (get_filter_params server c) else c).
  destruct (get_admission_data_sent server
              (crawl_params year province klmc zslx) c1) as (reqs & E & L & F).
  exists reqs. split; [|split; assumption].
  assert (sent (snd (let (o, c2) :=
                       get_admission_data server
                         (crawl_params year province klmc zslx) c1 in
                     match o with
                     | Some data =>
                       (match parse_batch_data (zsSsgradeList data) province with
                        | Ok batch_data =>
                          match parse_major_data (sszygradeList data) province with
                          | Ok major_data => Ok (batch_data ++ major_data)
                          | Raise e => Raise e
                          end
                        | Raise e => Raise e
                        end, c2)
                     | None => (Ok [], c2)
                     end))
          = sent (snd (get_admission_data server
                         (crawl_params year province klmc zslx) c1))) as S.
  { destruct (get_admission_data server _ c1) as [[d|] c2]; reflexivity. }
  rewrite S, E. subst c1.
  destruct (tok_truthy (csrf_token c)) eqn:T; cbn [negb].
  - reflexivity.
  - rewrite get_filter_params_sent, T, <- app_assoc. reflexivity.
Qed.

End CrawlFacts.

Section PKUFacts.

Lemma pku_clean_score_digits (s sc : list N) :
  PKU.clean_score s = Some sc ->
  sc <> [] /\ forallb isdecimal sc = true.
Proof.
  unfold PKU.clean_score.
  destruct (is_empty s || str_eqb s (u "-") || str_eqb s (u "—"));
    [discriminate|].
  destruct (Re.search _ s) as [m|] eqn:S; [|discriminate].
  intros [= <-]. unfold Re.search in S.
  assert (In m (Re.finditer (Re.RGroup 1 (Re.RRep true 1 Re.digit)) s)) as Hm.
  { destruct (Re.finditer _ s) as [|m' l]; [discriminate|].
    injection S as ->. left. reflexivity. }
  apply finditer_match_at in Hm. destruct Hm as (pos & s' & res & H & G).
  unfold Re.group. rewrite G. clear G.
  apply group_rep_calls in H. destruct H as (w & st' & L & F & G & [= <-]).
  rewrite G. cbn [Re.lookup_group Nat.eqb].
  split; [destruct w; [cbn in L; lia | discriminate]|].
  apply forallb_forall. intros c Hc.
  rewrite List.Forall_forall in F. specialize (F c Hc).
  unfold Re.cset_mem, Re.digit, Re.set_of in F. cbn in F.
  rewrite orb_false_r in F. exact F.
Qed.

Lemma pku_create_fields (year : Z) (p c s b ct : list N)
    (r : admission_info) :
  PKU._create_admission_info year p c s b ct = Some r ->
  p <> []
  /\ r = {| 年份 := str_of_Z year; 学校 := PKU.school_name;
            _985 := u "1"; _211 := u "1"; 双一流 := u "1";
            科类 := ct; 批次 := b; 专业 := 专业 r; 最低分 := s;
            最低分排名 := u "NA"; 全国统一招生代码 := PKU.school_code;
            招生类型 := u "统招"; 生源地 := p |}
  /\ ~ In (专业 r) [[]; u "-"; u "—"].
Proof.
  unfold PKU._create_admission_info. cbv zeta.
  destruct p as [|p0 p']; [discriminate|].
  destruct (is_empty (p0 :: p') || is_empty s); [discriminate|].
  intros [= <-]. split; [discriminate|]. split; [reflexivity|].
  cbn [专业].
  match goal with
  | |- context [if ?b then _ else _] => destruct b eqn:E
  end.
  - apply andb_prop in E. destruct E as [E1 E2].
    apply negb_true_iff in E2.
    repeat (apply orb_false_elim in E2; destruct E2 as [? E2]).
    unfold str_eqb in *.
    cbn [In]. intros [X0|[X0|[X0|[]]]]; subst c;
      repeat match goal with
             | X : bool_decide _ = false |- _ =>
               vm_compute in X; try discriminate X; clear X
             end.
  - vm_compute. intros [H|[H|[H|[]]]]; discriminate H.
Qed.

(** Every record of a row of the PKU table: the row has at least two
    cells; the year and the school are those of the call; the batch is
    本科一批; 科类 is 文史, 理工 or 综合改革; the score is a non-empty text
    of decimal digits; the province is not empty; 专业 is never empty nor
    a dash; and a row gives at most three records. *)
Theorem pku_row_records_wellformed (year : Z) (headers cells : list (list N))
    (r : admission_info) :
  In r (PKU.row_records year headers cells) ->
  (2 <= length cells)%nat
  /\ (length (PKU.row_records year headers cells) <= 3)%nat
  /\ 年份 r = str_of_Z year
  /\ 学校 r = u "北京大学"
  /\ 全国统一招生代码 r = u "10001"
  /\ 批次 r = u "本科一批"
  /\ In (科类 r) [u "文史"; u "理工"; u "综合改革"]
  /\ 招生类型 r = u "统招"
  /\ 最低分排名 r = u "NA"
  /\ 最低分 r <> []
  /\ forallb isdecimal (最低分 r) = true
  /\ 生源地 r <> []
  /\ ~ In (专业 r) [[]; u "-"; u "—"].
Proof.
  unfold PKU.row_records.
  destruct (Nat.ltb_spec (length cells) 2) as [L|L]; [intros []|].
  cbv zeta.
  set (row := match headers with
              | [] => PKU.by_position cells
              | _ => PKU.by_headers headers cells PKU.empty_row
              end).
  set (one := fun (s ct : list N) =>
                match (if negb (is_empty s) then PKU.clean_score s else None) with
                | Some score =>
                  opt_list (PKU._create_admission_info year
                              (strip_suffixes (PKU.province row))
                              (PKU.category row) score (u "本科一批") ct)
                | None => []
                end).
  change (In r (one (PKU.arts_score row) (u "文史")
                ++ one (PKU.science_score row) (u "理工")
                ++ one (PKU.other_score row) (u "综合改革")) ->
          (2 <= length cells)%nat
          /\ (length (one (PKU.arts_score row) (u "文史")
                      ++ one (PKU.science_score row) (u "理工")
                      ++ one (PKU.other_score row) (u "综合改革")) <= 3)%nat
          /\ 年份 r = str_of_Z year
          /\ 学校 r = u "北京大学"
          /\ 全国统一招生代码 r = u "10001"
          /\ 批次 r = u "本科一批"
          /\ In (科类 r) [u "文史"; u "理工"; u "综合改革"]
          /\ 招生类型 r = u "统招"
          /\ 最低分排名 r = u "NA"
          /\ 最低分 r <> []
          /\ forallb isdecimal (最低分 r) = true
          /\ 生源地 r <> []
          /\ ~ In (专业 r) [[]; u "-"; u "—"]).
  assert (forall s ct, (length (one s ct) <= 1)%nat) as Len.
  { intros s ct. unfold one.
    destruct (if negb (is_empty s) then PKU.clean_score s else None);
      [|cbn; lia].
    destruct (PKU._create_admission_info _ _ _ _ _ _); cbn; lia. }
  assert (forall s ct, In r (one s ct) ->
            年份 r = str_of_Z year
            /\ 学校 r = u "北京大学"
            /\ 全国统一招生代码 r = u "10001"
            /\ 批次 r = u "本科一批"
            /\ 科类 r = ct
            /\ 招生类型 r = u "统招"
            /\ 最低分排名 r = u "NA"
            /\ 最低分 r <> []
            /\ forallb isdecimal (最低分 r) = true
            /\ 生源地 r <> []
            /\ ~ In (专业 r) [[]; u "-"; u "—"]) as One.
  { intros s ct. unfold one.
    destruct (negb (is_empty s)); [|intros []].
    destruct (PKU.clean_score s) as [score|] eqn:C; [|intros []].
    apply pku_clean_score_digits in C. destruct C as [NE D].
    destruct (PKU._create_admission_info _ _ _ _ _ _) as [r'|] eqn:R;
      [|intros []].
    intros [<-|[]]. apply pku_create_fields in R.
    destruct R as (P & E & M). rewrite E.
    cbn [年份 学校 全国统一招生代码 批次 科类 招生类型 最低分排名 最低分 生源地 专业].
    repeat split; try assumption. }
  intros H. split; [exact L|]. split.
  - rewrite !length_app.
    pose proof (Len (PKU.arts_score row) (u "文史")).
    pose proof (Len (PKU.science_score row) (u "理工")).
    pose proof (Len (PKU.other_score row) (u "综合改革")). lia.
  - rewrite !in_app_iff in H.
    destruct H as [H|[H|H]]; apply One in H;
      destruct H as (Y & S & K & B & C & T & R & M & D & P & J);
      rewrite C; cbn [In]; repeat split; auto.
Qed.

Lemma pku_row_records_wellformed_witness :
  (2 <= length PKU.sample_cells)%nat
  /\ (length (PKU.row_records 2024 PKU.sample_headers PKU.sample_cells) <= 3)%nat
  /\ 年份 PKU.sample_record = str_of_Z 2024
  /\ 学校 PKU.sample_record = u "北京大学"
  /\ 全国统一招生代码 PKU.sample_record = u "10001"
  /\ 批次 PKU.sample_record = u "本科一批"
  /\ In (科类 PKU.sample_record) [u "文史"; u "理工"; u "综合改革"]
  /\ 招生类型 PKU.sample_record = u "统招"
  /\ 最低分排名 PKU.sample_record = u "NA"
  /\ 最低分 PKU.sample_record <> []
  /\ forallb isdecimal (最低分 PKU.sample_record) = true
  /\ 生源地 PKU.sample_record <> []
  /\ ~ In (专业 PKU.sample_record) [[]; u "-"; u "—"].
Proof.
  apply (pku_row_records_wellformed 2024 PKU.sample_headers PKU.sample_cells
           PKU.sample_record).
  vm_compute. right. left. reflexivity.
Defined.

End PKUFacts.

Section TextContentFacts.
Import TextContent.

Variables school_name school_code batch : list N.

Lemma search_digits (min : nat) (s : list N) (m : Re.rematch) :
  Re.search (Re.RGroup 1 (Re.RRep true min Re.digit)) s = Some m ->
  (min <= length (Re.group 1 m))%nat
  /\ forallb isdecimal (Re.group 1 m) = true.
Proof.
  unfold Re.search. intros S.
  assert (In m (Re.finditer (Re.RGroup 1 (Re.RRep true min Re.digit)) s))
    as Hm.
  { destruct (Re.finditer _ s) as [|m' l]; [discriminate|].
    injection S as ->. left. reflexivity. }
  apply finditer_match_at in Hm. destruct Hm as (pos & s' & res & H & G).
  unfold Re.group. rewrite G. clear G.
  apply group_rep_calls in H. destruct H as (w & st' & L & F & G & [= <-]).
  rewrite G. cbn [Re.lookup_group Nat.eqb].
  split; [exact L|].
  apply forallb_forall. intros c Hc.
  rewrite List.Forall_forall in F. specialize (F c Hc).
  unfold Re.cset_mem, Re.digit, Re.set_of in F. cbn in F.
  rewrite orb_false_r in F. exact F.
Qed.

Lemma score_of_digits (line sc : list N) :
  score_of line = Some sc ->
  (3 <= length sc)%nat /\ forallb isdecimal sc = true.
Proof.
  unfold score_of, score_pattern.
  destruct (Re.search _ line) as [m|] eqn:S; [|discriminate].
  intros [= <-]. exact (search_digits _ _ _ S).
Qed.

Let record_ok (year : Z) (r : admission_info) : Prop :=
  exists score province,
    r = text_record school_name school_code batch year score province
    /\ In province provinces
    /\ (3 <= length score)%nat
    /\ forallb isdecimal score = true.

Let state_ok (year : Z) (st : tstate) : Prop :=
  (forall p, current_province st = Some p -> In p provinces)
  /\ Forall (record_ok year) (admission_list st).

Lemma line_step_ok (year : Z) (st : tstate) (line : list N) :
  state_ok year st ->
  state_ok year (line_step school_name school_code batch year st line)
  /\ (length (admission_list
                (line_step school_name school_code batch year st line))
      <= S (length (admission_list st)))%nat.
Proof.
  intros OK0. pose proof OK0 as [HP HR]. unfold line_step. cbv zeta.
  destruct (is_empty (strip line)); [split; [exact OK0 | lia]|].
  destruct (score_of (strip line)) as [sc|] eqn:SC.
  - destruct (score_of_digits _ _ SC) as [L D].
    destruct (List.find _ provinces) as [p|] eqn:F.
    + apply find_some in F. destruct F as [Hp _].
      cbn [current_province admission_list].
      assert (state_ok year
                {| current_province := Some p;
                   admission_list :=
                     admission_list st
                       ++ [text_record school_name school_code batch year sc p]
                |}) as OK.
      { split; cbn [current_province admission_list].
        - intros q [= <-]. exact Hp.
        - apply Forall_app. split; [exact HR|].
          constructor; [|constructor]. exists sc, p. auto. }
      assert (existsb
                (fun item => str_eqb (生源地 item) p && str_eqb (最低分 item) sc)
                (admission_list st
                   ++ [text_record school_name school_code batch year sc p])
              = true) as EX.
      { rewrite existsb_app. apply orb_true_iff. right.
        cbn [existsb text_record 生源地 最低分]. unfold str_eqb.
        rewrite !bool_decide_eq_true_2 by reflexivity. reflexivity. }
      rewrite EX.
      assert (forall X : tstate,
                X = {| current_province := Some p;
                       admission_list :=
                         admission_list st
                           ++ [text_record school_name school_code batch
                                 year sc p] |} ->
                state_ok year X
                /\ (length (admission_list X) <= S (length (admission_list st)))%nat)
        as Same.
      { intros X ->. split; [exact OK|]. cbn [admission_list].
        rewrite length_app. cbn. lia. }
      destruct (is_empty p); [apply Same; reflexivity|].
      destruct (3 <=? length sc)%nat; apply Same; reflexivity.
    + destruct (current_province st) as [p|] eqn:CP;
        [|split; [exact OK0 | lia]].
      destruct (is_empty p); [split; [exact OK0 | lia]|].
      destruct (3 <=? length sc)%nat; [|split; [exact OK0 | lia]].
      destruct (existsb _ (admission_list st));
        [split; [exact OK0 | lia]|].
      split.
      * split; cbn [current_province admission_list];
          [exact HP|].
        apply Forall_app. split; [exact HR|].
        constructor; [|constructor]. exists sc, p.
        split; [reflexivity|]. split; [apply HP; reflexivity|]. auto.
      * cbn [admission_list]. rewrite length_app. cbn. lia.
  - destruct (List.find _ provinces) as [p|] eqn:F.
    + apply find_some in F. destruct F as [Hp _].
      cbn [current_province admission_list]. rewrite app_nil_r.
      assert (state_ok year {| current_province := Some p;
                               admission_list := admission_list st |}
              /\ (length (admission_list st) <= S (length (admission_list st)))%nat)
        as Same.
      { split; [|lia]. split; cbn [current_province admission_list];
          [|exact HR]. intros q [= <-]. exact Hp. }
      destruct (is_empty p); exact Same.
    + destruct (current_province st) as [p|];
        [|split; [exact OK0 | lia]].
      destruct (is_empty p); split; try lia; exact OK0.
Qed.

Lemma fold_line_step_ok (year : Z) (lines : list (list N)) :
  forall st,
    state_ok year st ->
    state_ok year
      (fold_left (line_step school_name school_code batch year) lines st)
    /\ (length (admission_list
                  (fold_left (line_step school_name school_code batch year)
                     lines st))
        <= length (admission_list st) + length lines)%nat.
Proof.
  induction lines as [|line lines IH]; intros st OK; cbn [fold_left].
  - split; [exact OK | cbn; lia].
  - destruct (line_step_ok year st line OK) as [OK' L].
    destruct (IH _ OK') as [OK'' L'']. split; [exact OK''|].
    cbn [length]. lia.
Qed.

(** The text fallback [_parse_text_content] gives at most one record per
    line; every record has a province of the list and a score of at least
    three decimal digits, with 科类 and 专业 set to NA. *)
Theorem text_content_records (lines : list (list N)) (year : Z) :
  (length (_parse_text_content school_name school_code batch lines year)
   <= length lines)%nat
  /\ Forall (fun r =>
               In (生源地 r) provinces
               /\ (3 <= length (最低分 r))%nat
               /\ forallb isdecimal (最低分 r) = true
               /\ 年份 r = str_of_Z year
               /\ 学校 r = school_name
               /\ 全国统一招生代码 r = school_code
               /\ 批次 r = batch
               /\ 科类 r = u "NA" /\ 专业 r = u "NA"
               /\ 最低分排名 r = u "NA" /\ 招生类型 r = u "统招")
       (_parse_text_content school_name school_code batch lines year).
Proof.
  unfold _parse_text_content.
  destruct (fold_line_step_ok year lines
              {| current_province := None; admission_list := [] |})
    as [[_ OK] L].
  { split; [intros p H; discriminate H | constructor]. }
  split; [exact L|].
  eapply List.Forall_impl; [|exact OK].
  intros r (sc & p & -> & Hp & Hl & Hd).
  cbn [text_record 生源地 最低分 年份 学校 全国统一招生代码 批次 科类 专业
         最低分排名 招生类型].
  repeat split; assumption.
Qed.

End TextContentFacts.

Section IntegerCells.
Import ImportData.

Lemma digits2_pos_lower (p : positive) :
  (2 ^ (Z.pos (digits2_pos p) - 1) <= Z.pos p)%Z.
Proof.
  induction p as [p IH|p IH|]; cbn [digits2_pos]; [| |cbn; lia];
    rewrite Pos2Z.inj_succ;
    replace (Z.succ (Z.pos (digits2_pos p)) - 1)%Z
      with (Z.succ (Z.pos (digits2_pos p) - 1))%Z by lia;
    rewrite Z.pow_succ_r by lia; lia.
Qed.

Lemma digits2_pos_small (p : positive) :
  (Z.pos p < 2 ^ 53)%Z -> (Z.pos (digits2_pos p) <= 53)%Z.
Proof.
  intros H. pose proof (digits2_pos_lower p) as L.
  destruct (Z.le_gt_cases (Z.pos (digits2_pos p)) 53) as [|G]; [assumption|].
  exfalso.
  assert (2 ^ 53 <= 2 ^ (Z.pos (digits2_pos p) - 1))%Z
    by (apply Z.pow_le_mono_r; lia).
  lia.
Qed.

Lemma iter_xO_digits (p k : positive) :
  digits2_pos (Pos.iter xO p k) = (digits2_pos p + k)%positive.
Proof.
  induction k as [|k IH] using Pos.peano_ind.
  - cbn. lia.
  - rewrite Pos.iter_succ. cbn [digits2_pos]. rewrite IH. lia.
Qed.

Lemma iter_xO_value (p k : positive) :
  Z.pos (Pos.iter xO p k) = (Z.pos p * 2 ^ Z.pos k)%Z.
Proof.
  induction k as [|k IH] using Pos.peano_ind.
  - cbn. lia.
  - rewrite Pos.iter_succ, Pos2Z.inj_xO, IH, Pos2Z.inj_succ.
    rewrite Z.pow_succ_r by lia. lia.
Qed.

Lemma binary_round_aux_exact (sx : bool) (m : positive) (e : Z) :
  Z.pos (digits2_pos m) = 53%Z -> (-1074 <= e <= 971)%Z ->
  binary_round_aux 53 1024 sx (Z.pos m) e loc_Exact = S754_finite sx m e.
Proof.
  intros D E. unfold binary_round_aux, shr_fexp.
  cbn [Zdigits2 shr_record_of_loc]. rewrite D.
  assert (fexp 53 1024 (53 + e) - e = 0)%Z as -> by (unfold fexp, emin; lia).
  cbn [shr shr_m loc_of_shr_record round_nearest_even Zdigits2
         shr_record_of_loc]. rewrite D.
  assert (fexp 53 1024 (53 + e) - e = 0)%Z as -> by (unfold fexp, emin; lia).
  cbn [shr shr_m].
  destruct (Z.leb_spec e (1024 - 53)) as [|G]; [reflexivity | lia].
Qed.

(** The float of an integer below 2^53 is that integer. *)
Lemma binary_round_small (sx : bool) (p : positive) :
  (Z.pos p < 2 ^ 53)%Z ->
  exists m e,
    binary_round 53 1024 sx p 0 = S754_finite sx m e
    /\ (e <= 0)%Z /\ Z.pos m = (Z.pos p * 2 ^ (- e))%Z.
Proof.
  intros H. apply digits2_pos_small in H. unfold binary_round, shl_align.
  assert (fexp 53 1024 (Z.pos (digits2_pos p) + 0)
          = Z.pos (digits2_pos p) - 53)%Z as -> by (unfold fexp, emin; lia).
  destruct (Z.pos (digits2_pos p) - 53 - 0)%Z as [|k|k] eqn:K; [|lia|].
  - exists p, 0%Z. rewrite binary_round_aux_exact by lia.
    split; [reflexivity|]. split; [lia|]. cbn. lia.
  - exists (Pos.iter xO p k), (Z.pos (digits2_pos p) - 53)%Z.
    rewrite binary_round_aux_exact.
    + split; [reflexivity|]. split; [lia|].
      rewrite iter_xO_value. f_equal. f_equal. lia.
    + rewrite iter_xO_digits, Pos2Z.inj_add. lia.
    + lia.
Qed.

Lemma round_half_even_exact (q d : Z) :
  (0 < d)%Z -> round_half_even (q * d) d = q.
Proof.
  intros Hd. unfold round_half_even.
  rewrite Z.div_mul, Z.mod_mul by lia. change (2 * 0)%Z with 0%Z.
  destruct (Z.compare_spec 0 d); [lia | reflexivity | lia].
Qed.

Lemma round_float_of_Z (z : Z) :
  (Z.abs z < 2 ^ 53)%Z -> round_float (float_of_Z z) = Ok z.
Proof.
  intros H. unfold float_of_Z, binary_normalize.
  assert (forall sx p, (Z.pos p < 2 ^ 53)%Z ->
            round_float (binary_round 53 1024 sx p 0)
            = Ok (cond_neg sx (Z.pos p))) as R.
  { intros sx p Hp.
    destruct (binary_round_small sx p Hp) as (m & e & -> & He & Hm).
    unfold round_float, magnitude.
    destruct (Z.leb_spec 0 e) as [G|G].
    - assert (e = 0%Z) as -> by lia.
      assert (Z.pos m = Z.pos p) as -> by (rewrite Hm; cbn; lia).
      replace (Z.pos p * 2 ^ 0)%Z with (Z.pos p * 1)%Z by (cbn; lia).
      rewrite round_half_even_exact by lia. reflexivity.
    - rewrite Hm, round_half_even_exact; [reflexivity|].
      apply Z.pow_pos_nonneg; lia. }
  destruct z as [|p|p]; [reflexivity| |].
  - rewrite R by exact H. reflexivity.
  - rewrite R by exact H. reflexivity.
Qed.

(** An integer cell passes through [to_int_safe] unchanged, up to 2^53:
    the years, scores and ranks of a CSV file that pandas has read as
    integers are imported as they are. *)
Theorem to_int_safe_int (float_of_str : list N -> option spec_float)
    (z : Z) (dflt : option Z) :
  (Z.abs z < 2 ^ 53)%Z ->
  to_int_safe float_of_str (CInt z) dflt = Some z.
Proof.
  intros H. unfold to_int_safe. cbn [isna float_of_cell].
  rewrite round_float_of_Z by exact H. reflexivity.
Qed.

Lemma to_int_safe_int_witness :
  to_int_safe (fun _ => None) (CInt 650) None = Some 650%Z.
Proof.
  apply (to_int_safe_int (fun _ => None) 650 None). reflexivity.
Defined.

End IntegerCells.
